(** * Presentation assembly: createPresentationFromContent.ts

    A shallow embedding of [src/tools/createPresentationFromContent.ts]:
    the body-text composer, the placeholder resolver, the template path
    ([createFromTemplate]) and the blank path of
    [createPresentationFromContent], run against an abstract remote store
    (Drive copy, Slides create / get / batchUpdate) whose every call and
    answer is recorded in a log. *)

From Stdlib Require Import String Ascii NArith ZArith Bool Arith Lia List.
From Stdlib Require Import DecimalString DecimalNat Permutation.
From Stdlib Require QArith.
Import ListNotations.

(** ** JavaScript strings

    A JavaScript string is a sequence of UTF-16 code units.  The source
    trims, joins and compares strings, so the code units are kept as they
    are: [String.prototype.trim] removes non-ASCII white space too, and the
    bullet prefix of the source is not ASCII. *)

Definition code_unit := N.
Definition jsstring := list code_unit.

(** An ASCII literal of the source as a [jsstring]. *)
Definition str (s : string) : jsstring :=
  map N_of_ascii (list_ascii_of_string s).

(** The escape [\n]. *)
Definition LF : jsstring := [10%N].

Fixpoint jsstring_eqb (a b : jsstring) : bool :=
  match a, b with
  | [], [] => true
  | x :: a', y :: b' => N.eqb x y && jsstring_eqb a' b'
  | _, _ => false
  end.

(** [String(n)] for a non-negative integer. *)
Definition decimal (n : nat) : jsstring :=
  str (NilEmpty.string_of_uint (Nat.to_uint n)).

(** Truthiness of a string: only the empty string is falsy. *)
Definition truthy (s : jsstring) : bool :=
  match s with [] => false | _ :: _ => true end.

(** [x ?? d] *)
Definition nullish {A : Type} (x : option A) (d : A) : A :=
  match x with Some a => a | None => d end.

(** A possibly missing string seen through a truthiness test: [undefined],
    [null] and the empty string are all falsy. *)
Definition nonempty (x : option jsstring) : option jsstring :=
  match x with
  | Some (c :: s) => Some (c :: s)
  | _ => None
  end.

(** ECMAScript WhiteSpace and LineTerminator code points, the ones
    [String.prototype.trim] strips. *)
Definition isWhiteSpace (c : code_unit) : bool :=
  ((9 <=? c) && (c <=? 13) || (c =? 32) || (c =? 160) || (c =? 5760)
   || (8192 <=? c) && (c <=? 8202) || (c =? 8232) || (c =? 8233)
   || (c =? 8239) || (c =? 8287) || (c =? 12288) || (c =? 65279))%N.

Fixpoint trimStart (s : jsstring) : jsstring :=
  match s with
  | [] => []
  | c :: r => if isWhiteSpace c then trimStart r else s
  end.

Definition trimEnd (s : jsstring) : jsstring := rev (trimStart (rev s)).

Definition trim (s : jsstring) : jsstring := trimEnd (trimStart s).

(** [Array.prototype.join] *)
Fixpoint join (sep : jsstring) (parts : list jsstring) : jsstring :=
  match parts with
  | [] => []
  | [p] => p
  | p :: rest => p ++ sep ++ join sep rest
  end.

(** [Array.prototype.push], as a new array. *)
Definition push {A : Type} (a : list A) (x : A) : list A := a ++ [x].

(** ** Data model *)

(** [SlideContent] of schemas.ts. *)
Module SlideContent.
Record t : Type := mk {
    slideNumber : option Z;
    title : option jsstring;
    subtitle : option jsstring;
    body : option jsstring;
    bullets : option (list jsstring);
    notes : option jsstring
  }.
  (** The object [{}]. *)
Definition empty : t := mk None None None None None None.
End SlideContent.

(** [CreatePresentationFromContent] of schemas.ts. *)
Module Args.
Record t : Type := mk {
    title : jsstring;
    slides : list SlideContent.t;
    templatePresentationId : option jsstring
  }.
End Args.

(** The part of [slides_v1.Schema$PageElement] that the field mask
    [slides(objectId,pageElements(objectId,shape(placeholder(type))))]
    lets through. *)
Module Placeholder.
Record t : Type := mk { type : option jsstring }.
End Placeholder.

Module Shape.
Record t : Type := mk { placeholder : option Placeholder.t }.
End Shape.

Module PageElement.
Record t : Type := mk {
    objectId : option jsstring;
    shape : option Shape.t
  }.
  (** [el.shape?.placeholder?.type] *)
Definition placeholderType (el : t) : option jsstring :=
    match shape el with
    | Some sh =>
        match Shape.placeholder sh with
        | Some ph => Placeholder.type ph
        | None => None
        end
    | None => None
    end.
End PageElement.

Module Page.
Record t : Type := mk {
    objectId : option jsstring;
    pageElements : option (list PageElement.t)
  }.
End Page.

(** [type === 'TITLE'] and friends: a missing type equals no literal. *)
Definition typeIs (ty : option jsstring) (lit : string) : bool :=
  match ty with
  | Some s => jsstring_eqb s (str lit)
  | None => false
  end.

(** ** buildSlideBodyText *)

(** The prefix written in the template literal of line 22.  The file holds
    the three characters U+00E2 U+20AC U+00A2 followed by a space. *)
Definition bulletPrefix : jsstring := [226; 8364; 162; 32]%N.

(** [slide.subtitle?.trim()] *)
Definition optTrim (x : option jsstring) : jsstring :=
  match x with Some s => trim s | None => [] end.

Definition buildSlideBodyText (slide : SlideContent.t) : jsstring :=
  let parts : list jsstring := [] in
  let parts :=
    if truthy (optTrim (SlideContent.subtitle slide))
    then push parts (optTrim (SlideContent.subtitle slide)) else parts in
  let parts :=
    if truthy (optTrim (SlideContent.body slide))
    then push parts (optTrim (SlideContent.body slide)) else parts in
  let parts :=
    match SlideContent.bullets slide with
    | Some (b :: bs) =>
        push parts (join LF (map (fun b => bulletPrefix ++ trim b) (b :: bs)))
    | _ => parts
    end in
  join (LF ++ LF) parts.

(** ** getTitleAndBodyPlaceholders *)

Module PlaceholderInfo.
Record t : Type := mk { objectId : jsstring; type : jsstring }.
End PlaceholderInfo.

Module Placeholders.
Record t : Type := mk {
    title : option PlaceholderInfo.t;
    body : option PlaceholderInfo.t
  }.
End Placeholders.

(** One iteration of the [for (const el of pageElements)] loop of
    [getTitleAndBodyPlaceholders], on the pair of locals [title], [body]. *)
Definition classify (st : Placeholders.t) (el : PageElement.t) : Placeholders.t :=
  let type := PageElement.placeholderType el in
  match nonempty (PageElement.objectId el) with
  | None => st                                   (* continue *)
  | Some objectId =>
      let title :=
        if typeIs type "TITLE"
        then Some (PlaceholderInfo.mk objectId (str "TITLE"))
        else Placeholders.title st in
      let body :=
        if typeIs type "BODY" || typeIs type "SUBTITLE"
        then match Placeholders.body st with
             | Some b => Some b
             | None => Some (PlaceholderInfo.mk objectId (nullish type (str "BODY")))
             end
        else Placeholders.body st in
      Placeholders.mk title body
  end.

Definition scanPlaceholders (pageElements : list PageElement.t) : Placeholders.t :=
  fold_left classify pageElements (Placeholders.mk None None).

Definition getTitleAndBodyPlaceholders
    (pageElements : option (list PageElement.t)) : Placeholders.t :=
  match pageElements with
  | None => Placeholders.mk None None
  | Some els =>
      let st := scanPlaceholders els in
      match Placeholders.body st, nth_error els 1 with
      | None, Some el1 =>
          match nonempty (PageElement.objectId el1) with
          | Some oid =>
              Placeholders.mk (Placeholders.title st)
                (Some (PlaceholderInfo.mk oid (str "BODY")))
          | None => st
          end
      | _, _ => st
      end
  end.

(** ** Edit requests and the remote store *)

(** The [slides_v1.Schema$Request] variants the source builds.  Text ranges
    are always [ALL], layouts always [BLANK], shapes always [TEXT_BOX] with
    unit scale, so only the varying fields are kept. *)
Inductive Request : Type :=
| duplicateObject (objectId : jsstring)
| deleteObject (objectId : jsstring)
| deleteText (objectId : jsstring)
| insertText (objectId : jsstring) (text : jsstring) (insertionIndex : Z)
| createSlide (objectId : jsstring) (insertionIndex : Z)
| createShape (objectId pageObjectId : jsstring)
              (width height translateX translateY : Z).

(** Thrown values: [new Error(message)] of the source, a rejection of a
    remote call, and whatever [handleGoogleApiError] makes of either. *)
Inductive Exn : Type :=
| Error (message : jsstring)
| ApiError (code : Z) (message : jsstring)
| Handled (cause : Exn) (toolName : jsstring).

(** What the engine returns. *)
Module Created.
Record t : Type := mk {
    presentationId : jsstring;
    editUrl : jsstring;
    title : jsstring
  }.
End Created.

(** A remote call together with its answer. *)
Inductive Event : Type :=
| EvCopy (fileId name : jsstring) (answer : Exn + option jsstring)
| EvCreate (title : jsstring) (answer : Exn + option jsstring)
| EvGet (presentationId fields : jsstring) (answer : Exn + option (list Page.t))
| EvBatchUpdate (presentationId : jsstring) (requests : list Request)
                (answer : Exn + unit).

Definition isBatchUpdate (e : Event) : bool :=
  match e with EvBatchUpdate _ _ _ => true | _ => false end.

(** Template structure: slide 0 = title, slide 1 = content layout, last
    slide = thank you. *)
Definition TEMPLATE_CONTENT_LAYOUT_INDEX : nat := 1.

Definition PAGE_WIDTH_PT : Z := 720.
Definition PAGE_HEIGHT_PT : Z := 540.
Definition MARGIN_PT : Z := 40.
Definition TITLE_HEIGHT_PT : Z := 60.
Definition BODY_TOP_PT : Z := 120.
Definition CONTENT_WIDTH_PT : Z := PAGE_WIDTH_PT - 2 * MARGIN_PT.

Definition fieldsSlides : jsstring :=
  str "slides(objectId,pageElements(objectId,shape(placeholder(type))))".

Definition editUrlOf (presentationId : jsstring) : jsstring :=
  str "https://docs.google.com/presentation/d/" ++ presentationId ++ str "/edit".

(** *** The pure parts of createFromTemplate *)

(** Lines 73-84: the array [requests]. *)
Definition structuralRequests (contentLayoutSlideId : jsstring) (N : nat)
    (templateSlides : list Page.t) : list Request :=
  let requests : list Request := [] in
  let duplicateCount := N - 1 in
  let requests :=
    fold_left (fun reqs (_ : nat) => push reqs (duplicateObject contentLayoutSlideId))
              (seq 0 duplicateCount) requests in
  fold_left
    (fun reqs i =>
       match nth_error templateSlides i with
       | Some page =>
           match nonempty (Page.objectId page) with
           | Some oid => push reqs (deleteObject oid)
           | None => reqs
           end
       | None => reqs
       end)
    (seq 2 (length templateSlides - 1 - 2)) requests.

(** [finalSlides[k]?.pageElements] *)
Definition pageElementsAt (finalSlides : list Page.t) (k : nat)
    : option (list PageElement.t) :=
  match nth_error finalSlides k with
  | Some page => Page.pageElements page
  | None => None
  end.

(** [slideContent?.title?.trim() ?? ''] *)
Definition slideTitleOf (slideContent : option SlideContent.t) : jsstring :=
  match slideContent with
  | Some s =>
      match SlideContent.title s with
      | Some t => trim t
      | None => []
      end
  | None => []
  end.

(** Lines 97-102: the title page. *)
Definition fillTitlePage (title : jsstring) (finalSlides : list Page.t)
    (fillRequests : list Request) : list Request :=
  let titlePh := Placeholders.title
                   (getTitleAndBodyPlaceholders (pageElementsAt finalSlides 0)) in
  match titlePh with
  | Some ph =>
      push (push fillRequests (deleteText (PlaceholderInfo.objectId ph)))
           (insertText (PlaceholderInfo.objectId ph) title 0)
  | None => fillRequests
  end.

(** Lines 106-119: the body of the loop over the content slides. *)
Definition fillContentSlide (slides : list SlideContent.t)
    (finalSlides : list Page.t) (fillRequests : list Request) (i : nat)
    : list Request :=
  let slideIndex := 1 + i in
  let slideContent := nth_error slides i in
  let slideTitle := slideTitleOf slideContent in
  let slideBody := buildSlideBodyText (nullish slideContent SlideContent.empty) in
  let ph := getTitleAndBodyPlaceholders (pageElementsAt finalSlides slideIndex) in
  let fillRequests :=
    match Placeholders.title ph with
    | Some tPh =>
        push (push fillRequests (deleteText (PlaceholderInfo.objectId tPh)))
             (insertText (PlaceholderInfo.objectId tPh) slideTitle 0)
    | None => fillRequests
    end in
  match Placeholders.body ph with
  | Some bPh =>
      if truthy slideBody
      then push (push fillRequests (deleteText (PlaceholderInfo.objectId bPh)))
                (insertText (PlaceholderInfo.objectId bPh) slideBody 0)
      else fillRequests
  | None => fillRequests
  end.

(** Lines 95-120: the array [fillRequests]. *)
Definition fillRequests (title : jsstring) (slides : list SlideContent.t)
    (finalSlides : list Page.t) : list Request :=
  let N := length slides in
  fold_left (fillContentSlide slides finalSlides) (seq 0 N)
            (fillTitlePage title finalSlides []).

(** *** The pure parts of the blank path *)

(** Lines 168-177: the inline scan of the first page, on the pair of locals
    [titleObjectId], [bodyObjectId]. *)
Definition classifyFirst (st : option jsstring * option jsstring)
    (el : PageElement.t) : option jsstring * option jsstring :=
  let type := PageElement.placeholderType el in
  let titleObjectId :=
    if typeIs type "TITLE" then PageElement.objectId el else fst st in
  let bodyObjectId :=
    if typeIs type "BODY" || typeIs type "SUBTITLE"
    then match PageElement.objectId el with
         | Some oid => Some oid
         | None => snd st
         end
    else snd st in
  (titleObjectId, bodyObjectId).

Definition firstPagePlaceholders (pageElements : list PageElement.t)
    : option jsstring * option jsstring :=
  let st := fold_left classifyFirst pageElements (None, None) in
  match nonempty (snd st), nth_error pageElements 1 with
  | None, Some el1 => (fst st, PageElement.objectId el1)
  | _, _ => st
  end.

(** Lines 181-202: the requests for the first page. *)
Definition fillFirstPage (title : jsstring) (slides : list SlideContent.t)
    (pageElements : list PageElement.t) (requests : list Request)
    : list Request :=
  let '(titleObjectId, bodyObjectId) := firstPagePlaceholders pageElements in
  let first := nth_error slides 0 in
  let firstTitle :=
    match first with
    | Some s =>
        match SlideContent.title s with
        | Some t => trim t
        | None => title
        end
    | None => title
    end in
  let firstBody := buildSlideBodyText (nullish first SlideContent.empty) in
  let requests :=
    match nonempty titleObjectId with
    | Some oid => push requests (insertText oid firstTitle 0)
    | None => requests
    end in
  match nonempty bodyObjectId with
  | Some oid =>
      if truthy firstBody then push requests (insertText oid firstBody 0)
      else requests
  | None => requests
  end.

(** Lines 205-276: the body of the loop over [slides[1..]]. *)
Definition createContentSlide (slides : list SlideContent.t)
    (requests : list Request) (i : nat) : list Request :=
  match nth_error slides i with
  | None => requests                      (* not reached: i < slides.length *)
  | Some slide =>
      let slideId := str "slide_" ++ decimal (i + 1) in
      let titleBoxId := str "title_" ++ decimal (i + 1) in
      let bodyBoxId := str "body_" ++ decimal (i + 1) in
      let slideTitle := slideTitleOf (Some slide) in
      let slideBody := buildSlideBodyText slide in
      let requests := push requests (createSlide slideId (Z.of_nat i)) in
      let requests :=
        push requests
          (createShape titleBoxId slideId CONTENT_WIDTH_PT TITLE_HEIGHT_PT
                       MARGIN_PT MARGIN_PT) in
      let requests :=
        push requests
          (createShape bodyBoxId slideId CONTENT_WIDTH_PT
                       (PAGE_HEIGHT_PT - BODY_TOP_PT - MARGIN_PT)
                       MARGIN_PT BODY_TOP_PT) in
      let requests :=
        if truthy slideTitle then push requests (insertText titleBoxId slideTitle 0)
        else requests in
      if truthy slideBody then push requests (insertText bodyBoxId slideBody 0)
      else requests
  end.

(** Lines 179-277: the array [requests] of the blank path. *)
Definition blankRequests (title : jsstring) (slides : list SlideContent.t)
    (pageElements : list PageElement.t) : list Request :=
  fold_left (createContentSlide slides) (seq 1 (length slides - 1))
            (fillFirstPage title slides pageElements []).

(** ** The engine over an abstract remote store *)

(** The remote side, as the engine sees it: [drive.files.copy] and
    [slidesApi.presentations.{create,get,batchUpdate}] over whatever state
    the services hold.  [utils/errorHandler.js] and the environment
    variable [GOOGLE_SLIDES_TEMPLATE_ID] are not part of the modelled file
    and come with the host as well. *)
Class Host (Store : Type) : Type := {
  drive_files_copy :
    jsstring -> jsstring -> Store -> Store * (Exn + option jsstring);
  presentations_create :
    jsstring -> Store -> Store * (Exn + option jsstring);
  presentations_get :
    jsstring -> jsstring -> Store -> Store * (Exn + option (list Page.t));
  presentations_batchUpdate :
    jsstring -> list Request -> Store -> Store * (Exn + unit);
  handleGoogleApiError : Exn -> jsstring -> Exn;
  DEFAULT_TEMPLATE_ID : jsstring
}.

Section Engine.

Context {Store : Type} {host : Host Store}.

  (** The store together with the log of the calls made so far, oldest
      first. *)
Record World : Type := mkWorld { store : Store; log : list Event }.

Definition init (s : Store) : World := mkWorld s [].

  (** Computations that call the store and may throw. *)
Definition M (A : Type) : Type := World -> World * (Exn + A).

Definition ret {A : Type} (a : A) : M A := fun w => (w, inr a).

Definition throw {A : Type} (e : Exn) : M A := fun w => (w, inl e).

Definition bind {A B : Type} (m : M A) (k : A -> M B) : M B :=
    fun w =>
      match m w with
      | (w', inl e) => (w', inl e)
      | (w', inr a) => k a w'
      end.

  (** [try { ... } catch (error) { throw h(error) }] *)
Definition rethrow {A : Type} (m : M A) (h : Exn -> Exn) : M A :=
    fun w =>
      match m w with
      | (w', inl e) => (w', inl (h e))
      | (w', inr a) => (w', inr a)
      end.

Local Notation "x <- m ;; k" := (bind m (fun x => k))
    (at level 61, m at next level, right associativity).

  (** An awaited remote call: the store moves on and the log grows. *)
Definition call {A : Type} (op : Store -> Store * (Exn + A))
      (ev : Exn + A -> Event) : M A :=
    fun w =>
      let '(s', answer) := op (store w) in
      (mkWorld s' (push (log w) (ev answer)), answer).

Definition copy (fileId name : jsstring) : M (option jsstring) :=
    call (drive_files_copy fileId name) (EvCopy fileId name).

Definition create (title : jsstring) : M (option jsstring) :=
    call (presentations_create title) (EvCreate title).

Definition get (presentationId fields : jsstring) : M (option (list Page.t)) :=
    call (presentations_get presentationId fields) (EvGet presentationId fields).

Definition batchUpdate (presentationId : jsstring) (requests : list Request)
      : M unit :=
    call (presentations_batchUpdate presentationId requests)
         (EvBatchUpdate presentationId requests).

  (** [if (requests.length > 0) await batchUpdate(...)] *)
Definition batchUpdateIfAny (presentationId : jsstring)
      (requests : list Request) : M unit :=
    if 0 <? length requests then batchUpdate presentationId requests
    else ret tt.

Definition createFromTemplate (args : Args.t) : M Created.t :=
    let title := Args.title args in
    let slides := Args.slides args in
    let templateId := nullish (Args.templatePresentationId args) DEFAULT_TEMPLATE_ID in
    copyRes <- copy templateId title ;;
    match nonempty copyRes with
    | None => throw (Error (str "Drive copy did not return file id"))
    | Some presentationId =>
        getRes <- get presentationId fieldsSlides ;;
        let templateSlides := nullish getRes [] in
        if length templateSlides <? 3
        then throw (Error (str "Default template must have at least 3 slides: title, content layout, thank you"))
        else
          match nonempty
                  (match nth_error templateSlides TEMPLATE_CONTENT_LAYOUT_INDEX with
                   | Some page => Page.objectId page
                   | None => None
                   end) with
          | None => throw (Error (str "Template content layout slide missing objectId"))
          | Some contentLayoutSlideId =>
              let N := length slides in
              let requests := structuralRequests contentLayoutSlideId N templateSlides in
              _ <- batchUpdateIfAny presentationId requests ;;
              getRes2 <- get presentationId fieldsSlides ;;
              let finalSlides := nullish getRes2 [] in
              let expectedSlides := 1 + N + 1 in
              if length finalSlides <? expectedSlides
              then throw (Error (str "Template restructuring did not produce enough slides"))
              else
                let fill := fillRequests title slides finalSlides in
                _ <- batchUpdateIfAny presentationId fill ;;
                ret (Created.mk presentationId (editUrlOf presentationId) title)
          end
    end.

  (** The blank path, lines 151-287, before the [catch]. *)
Definition createBlank (args : Args.t) : M Created.t :=
    let title := Args.title args in
    let slides := Args.slides args in
    createRes <- create title ;;
    match nonempty createRes with
    | None => throw (Error (str "Google API did not return presentationId"))
    | Some presentationId =>
        getRes <- get presentationId fieldsSlides ;;
        let pageElements :=
          match getRes with
          | Some (firstSlide :: _) => nullish (Page.pageElements firstSlide) []
          | _ => []
          end in
        let requests := blankRequests title slides pageElements in
        _ <- batchUpdateIfAny presentationId requests ;;
        ret (Created.mk presentationId (editUrlOf presentationId) title)
    end.

  (** [options?.drive] is modelled by [hasDrive].  The template path is
      entered by [return createFromTemplate(...)] without [await], so a
      rejection of that promise passes the [catch] block by; the blank path
      is awaited inside the [try]. *)
Definition createPresentationFromContent (args : Args.t) (hasDrive : bool)
      : M Created.t :=
    if hasDrive then createFromTemplate args
    else rethrow (createBlank args)
           (fun error => handleGoogleApiError error
                           (str "create_presentation_from_content")).

End Engine.

(** ** A scripted store

    A store that answers from a script: the answers to [copy], [create] and
    [batchUpdate] are fixed and the successive [get] calls consume [reads].
    Any single run against any store is a run against such a script. *)
Module Scripted.
Record t : Type := mk {
  copyAnswer : Exn + option jsstring;
  createAnswer : Exn + option jsstring;
  reads : list (Exn + option (list Page.t));
  batchAnswer : Exn + unit
}.

Definition nextRead (s : t) : t * (Exn + option (list Page.t)) :=
  match reads s with
  | [] => (s, inl (ApiError 404 (str "Requested entity was not found.")))
  | r :: rest => (mk (copyAnswer s) (createAnswer s) rest (batchAnswer s), r)
  end.

#[export] Instance host : Host t := {
  drive_files_copy := fun _ _ s => (s, copyAnswer s);
  presentations_create := fun _ s => (s, createAnswer s);
  presentations_get := fun _ _ s => nextRead s;
  presentations_batchUpdate := fun _ _ s => (s, batchAnswer s);
  handleGoogleApiError := Handled;
  DEFAULT_TEMPLATE_ID := str "<YOUR_TEMPLATE_ID>"
}.

(** A store that hands out the identifier [doc] and serves [reads]. *)
Definition serving (reads : list (list Page.t)) : t :=
  mk (inr (Some (str "doc"))) (inr (Some (str "doc")))
     (map (fun pages => inr (Some pages)) reads) (inr tt).
End Scripted.

(** ** Sample pages and slides *)
Module Sample.
(** A page element with an identifier and a placeholder type. *)
Definition tagged (oid ty : string) : PageElement.t :=
  PageElement.mk (Some (str oid))
    (Some (Shape.mk (Some (Placeholder.mk (Some (str ty)))))).

(** A page element with an identifier and no placeholder. *)
Definition untagged (oid : string) : PageElement.t :=
  PageElement.mk (Some (str oid)) None.

(** A placeholder that came back without [objectId]. *)
Definition anonymous (ty : string) : PageElement.t :=
  PageElement.mk None
    (Some (Shape.mk (Some (Placeholder.mk (Some (str ty)))))).

Definition page (oid : string) (els : list PageElement.t) : Page.t :=
  Page.mk (Some (str oid)) (Some els).

Definition pageWithoutId (els : list PageElement.t) : Page.t :=
  Page.mk None (Some els).

(** A title page, a content layout and a closing page. *)
Definition titlePage : Page.t := page "p0" [tagged "t0" "TITLE"; tagged "s0" "SUBTITLE"].
Definition layoutPage : Page.t := page "p1" [tagged "t1" "TITLE"; tagged "b1" "BODY"].
Definition closingPage : Page.t := page "p9" [tagged "t9" "TITLE"].
Definition template3 : list Page.t := [titlePage; layoutPage; closingPage].

(** The k-th copy of the content layout, as the store names it. *)
Definition layoutCopy (k : string) : Page.t :=
  page ("p1_" ++ k) [tagged ("t1_" ++ k) "TITLE"; tagged ("b1_" ++ k) "BODY"].

(** The template after two duplications of the content layout. *)
Definition restructured3 : list Page.t :=
  [titlePage; layoutPage; layoutCopy "1"; layoutCopy "2"; closingPage].

Definition slide (title subtitle body : option string) (bullets : option (list string))
    : SlideContent.t :=
  SlideContent.mk None (option_map str title) (option_map str subtitle)
    (option_map str body) (option_map (map str) bullets) None.

Definition titled (title : string) : SlideContent.t :=
  slide (Some title) None None None.
Definition twoTitles : list PageElement.t :=
  [tagged "t1" "TITLE"; tagged "t2" "TITLE"].

Definition twoBodies : list PageElement.t :=
  [tagged "b1" "BODY"; tagged "b2" "SUBTITLE"].

Definition anonymousBodyFirst : list PageElement.t :=
  [anonymous "BODY"; untagged "x"; tagged "b" "SUBTITLE"].

Definition untaggedPair : list PageElement.t :=
  [untagged "a"; untagged "b"].

(** [{ subtitle: "s", body: "x", bullets: ["a", "b"] }] *)
Definition sxab : SlideContent.t :=
  slide None (Some "s"%string) (Some "x"%string)
        (Some ["a"%string; "b"%string]).

(** A four-page template whose third page came back without [objectId]. *)
Definition template4 : list Page.t :=
  [titlePage; layoutPage; pageWithoutId [tagged "tx" "TITLE"]; closingPage].

(** A layout with a picture and a title placeholder, and no body
    placeholder. *)
Definition titleOnlyLayout : Page.t :=
  page "p1" [untagged "logo"; tagged "t1" "TITLE"].

(** One slide with a title and a body, no template. *)
Definition oneSlideDeck : Args.t :=
  Args.mk (str "Deck") [slide (Some "A"%string) None (Some "x"%string) None] None.

(** Two slides; the second one has neither title nor body. *)
Definition twoSlideDeck : Args.t :=
  Args.mk (str "Deck") [titled "A"; slide None None None None] None.

(** Three titled slides, default template. *)
Definition threeSlideDeck : Args.t :=
  Args.mk (str "Deck") [titled "A"; titled "B"; titled "C"] None.

(** A store whose copy call answers without an identifier. *)
Definition copyWithoutId : Scripted.t :=
  Scripted.mk (inr None) (inr None) [] (inr tt).

End Sample.

(** ** The callers: toolsRegistry.ts, the MCP handler and the HTTP routes *)

(** A JavaScript value as a request body or a response body holds it.
    Numbers are only passed through; objects keep their keys in order. *)
Unset Elimination Schemes.
Inductive Value : Type :=
| VUndefined
| VNull
| VBool (b : bool)
| VNumber (n : QArith_base.Q)
| VString (s : jsstring)
| VArray (items : list Value)
| VObject (fields : list (jsstring * Value)).
Set Elimination Schemes.

(** [fields[key]], [undefined] when the key is missing. *)
Definition lookup (fields : list (jsstring * Value)) (key : string) : Value :=
  match find (fun kv => jsstring_eqb (fst kv) (str key)) fields with
  | Some kv => snd kv
  | None => VUndefined
  end.

(** [typeof v === 'object' && v !== null && key in v], for a key that no
    prototype defines: arrays are objects, but hold no such key. *)
Definition isObjectWith (v : Value) (key : string) : bool :=
  match v with
  | VObject fields => existsb (fun kv => jsstring_eqb (fst kv) (str key)) fields
  | _ => false
  end.

(** [v.key] for a value that is neither [null] nor [undefined] and a key
    that no prototype defines. *)
Definition member (v : Value) (key : string) : Value :=
  match v with
  | VObject fields => lookup fields key
  | _ => VUndefined
  end.

(** [v.key] in general: reading a property of [null] or [undefined]
    throws a TypeError, worded as Node 20 words it. *)
Definition getProp (v : Value) (key : string) : Exn + Value :=
  match v with
  | VNull =>
      inl (Error (str "Cannot read properties of null (reading '"
                  ++ str key ++ str "')"))
  | VUndefined =>
      inl (Error (str "Cannot read properties of undefined (reading '"
                  ++ str key ++ str "')"))
  | _ => inr (member v key)
  end.

(** [v === lit] for a string literal. *)
Definition isString (v : Value) (lit : string) : bool :=
  match v with
  | VString s => jsstring_eqb s (str lit)
  | _ => false
  end.

(** [ToolDefinition] of toolsRegistry.ts. *)
Module ToolDefinition.
Record t : Type := mk {
  name : jsstring;
  description : jsstring;
  inputSchema : Value
}.
End ToolDefinition.

(** [McpToolResult] of toolsRegistry.ts. *)
Module ContentItem.
Record t : Type := mk { type : jsstring; text : jsstring }.
End ContentItem.

Module McpToolResult.
Record t : Type := mk {
  content : list ContentItem.t;
  isError : option bool;
  errorCode : option QArith_base.Q
}.
End McpToolResult.

(** An issue of a failed [safeParse]: the path to the offending value and
    the message. *)
Inductive PathSegment : Type :=
| Key (k : jsstring)
| Index (i : nat).

Module Issue.
Record t : Type := mk { path : list PathSegment; message : jsstring }.
End Issue.

(** What a handler sends: the status and the value given to [res.json],
    if any. *)
Module Response.
Record t : Type := mk { status : Z; body : option Value }.
End Response.

(** The five tools that [callTool] hands to [executeTool], each with its
    schema. *)
Inductive Tool : Type :=
| createPresentationTool
| getPresentationTool
| batchUpdatePresentationTool
| getPageTool
| summarizePresentationTool.

Definition TOOLS : list ToolDefinition.t :=
  [ToolDefinition.mk
    (str "create_presentation")
    (str "Create a new Google Slides presentation. Returns presentationId and editUrl.")
    (VObject
      [(str "type", VString (str "object"));
       (str "properties", VObject
        [(str "title", VObject
          [(str "type", VString (str "string"));
           (str "description", VString (str "The title of the presentation."))])]);
       (str "required", VArray [VString (str "title")])]);
   ToolDefinition.mk
    (str "create_presentation_from_content")
    (str "Create a full presentation from structured slide content (title + slides array). Returns presentationId and editUrl. Optional templatePresentationId: copy a Google Slides template (preserves theme/layout) and fill placeholders.")
    (VObject
      [(str "type", VString (str "object"));
       (str "properties", VObject
        [(str "title", VObject
          [(str "type", VString (str "string"));
           (str "description", VString (str "Deck title."))]);
         (str "slides", VObject
          [(str "type", VString (str "array"));
           (str "description", VString (str "At least one slide. Each can have title, subtitle, body, bullets (array of strings), notes."));
           (str "items", VObject
            [(str "type", VString (str "object"));
             (str "properties", VObject
              [(str "title", VObject
                [(str "type", VString (str "string"))]);
               (str "subtitle", VObject
                [(str "type", VString (str "string"))]);
               (str "body", VObject
                [(str "type", VString (str "string"))]);
               (str "bullets", VObject
                [(str "type", VString (str "array"));
                 (str "items", VObject
                  [(str "type", VString (str "string"))])]);
               (str "notes", VObject
                [(str "type", VString (str "string"))])])])]);
         (str "templatePresentationId", VObject
          [(str "type", VString (str "string"));
           (str "description", VString (str "Optional. Google Slides presentation ID to use as template. Copy is made and filled with content; preserves template theme and layout. Template must have at least one slide with TITLE and BODY/SUBTITLE placeholders."))])]);
       (str "required", VArray [VString (str "title"); VString (str "slides")])]);
   ToolDefinition.mk
    (str "get_presentation")
    (str "Get details about a Google Slides presentation.")
    (VObject
      [(str "type", VString (str "object"));
       (str "properties", VObject
        [(str "presentationId", VObject
          [(str "type", VString (str "string"));
           (str "description", VString (str "The ID of the presentation to retrieve."))]);
         (str "fields", VObject
          [(str "type", VString (str "string"));
           (str "description", VString ((str "Optional. Field mask (e.g. " ++ [34%N] ++ str "slides,pageSize" ++ [34%N] ++ str ").")))])]);
       (str "required", VArray [VString (str "presentationId")])]);
   ToolDefinition.mk
    (str "batch_update_presentation")
    (str "Apply a batch of updates to a Google Slides presentation (add slides, insert text, etc.).")
    (VObject
      [(str "type", VString (str "object"));
       (str "properties", VObject
        [(str "presentationId", VObject
          [(str "type", VString (str "string"));
           (str "description", VString (str "The ID of the presentation to update."))]);
         (str "requests", VObject
          [(str "type", VString (str "array"));
           (str "description", VString (str "Array of Google Slides API batchUpdate request objects."));
           (str "items", VObject
            [(str "type", VString (str "object"))])]);
         (str "writeControl", VObject
          [(str "type", VString (str "object"));
           (str "description", VString (str "Optional. requiredRevisionId / targetRevisionId."))])]);
       (str "required", VArray [VString (str "presentationId"); VString (str "requests")])]);
   ToolDefinition.mk
    (str "get_page")
    (str "Get details about a specific page (slide) in a presentation.")
    (VObject
      [(str "type", VString (str "object"));
       (str "properties", VObject
        [(str "presentationId", VObject
          [(str "type", VString (str "string"));
           (str "description", VString (str "The ID of the presentation."))]);
         (str "pageObjectId", VObject
          [(str "type", VString (str "string"));
           (str "description", VString (str "The object ID of the page (slide) to retrieve."))])]);
       (str "required", VArray [VString (str "presentationId"); VString (str "pageObjectId")])]);
   ToolDefinition.mk
    (str "summarize_presentation")
    (str "Extract text content from all slides for summarization. Optionally include speaker notes.")
    (VObject
      [(str "type", VString (str "object"));
       (str "properties", VObject
        [(str "presentationId", VObject
          [(str "type", VString (str "string"));
           (str "description", VString (str "The ID of the presentation to summarize."))]);
         (str "include_notes", VObject
          [(str "type", VString (str "boolean"));
           (str "description", VString (str "Whether to include speaker notes (default: false)."))])]);
       (str "required", VArray [VString (str "presentationId")])])].


(** What the callers use and this repository's [src/] does not hold: zod's
    [safeParse] for [CreatePresentationFromContentSchema], [executeTool]
    with the five other tools, [JSON.stringify], the message of whatever
    [handleGoogleApiError] returns, and the digits that [Number::toString]
    gives a number. *)
Class Runtime (Store : Type) : Type := {
  safeParse : Value -> list Issue.t + Args.t;
  executeTool : Tool -> jsstring -> Value
                -> @World Store -> @World Store * (Exn + McpToolResult.t);
  stringifyCreated : Created.t -> jsstring;
  stringifyContent : list ContentItem.t -> jsstring;
  handledMessage : Exn -> jsstring -> jsstring;
  numberText : QArith_base.Q -> jsstring
}.

(** [{ jsonrpc: '2.0', id, result }] with status 200. *)
Definition sendJsonRpcResponse (id result : Value) : Response.t :=
  Response.mk 200
    (Some (VObject [(str "jsonrpc", VString (str "2.0"));
                    (str "id", id);
                    (str "result", result)])).

(** [{ jsonrpc: '2.0', id, error: { code, message } }] with status 400. *)
Definition sendJsonRpcError (id : Value) (code : Z) (message : jsstring)
    : Response.t :=
  Response.mk 400
    (Some (VObject [(str "jsonrpc", VString (str "2.0"));
                    (str "id", id);
                    (str "error",
                     VObject [(str "code", VNumber (QArith_base.inject_Z code));
                              (str "message", VString message)])])).

Definition isJsonRpcBody (body : Value) : bool := isObjectWith body "method".

(** The values that [res.json] receives. *)
Definition toolValue (t : ToolDefinition.t) : Value :=
  VObject [(str "name", VString (ToolDefinition.name t));
           (str "description", VString (ToolDefinition.description t));
           (str "inputSchema", ToolDefinition.inputSchema t)].

Definition toolsValue : Value := VArray (map toolValue TOOLS).

Definition contentValue (content : list ContentItem.t) : Value :=
  VArray (map (fun c => VObject [(str "type", VString (ContentItem.type c));
                                 (str "text", VString (ContentItem.text c))])
              content).

Definition createdValue (c : Created.t) : Value :=
  VObject [(str "presentationId", VString (Created.presentationId c));
           (str "editUrl", VString (Created.editUrl c));
           (str "title", VString (Created.title c))].

(** [e.path.join('.')] *)
Definition pathText (path : list PathSegment) : jsstring :=
  join (str ".")
       (map (fun seg => match seg with Key k => k | Index i => decimal i end) path).

(** A result made of one text. *)
Definition textResult (text : jsstring) (isError : option bool)
    : McpToolResult.t :=
  McpToolResult.mk [ContentItem.mk (str "text") text] isError None.

Section Server.

Context {Store : Type} {host : Host Store} {runtime : Runtime Store}.

Local Notation "x <- m ;; k" := (bind m (fun x => k))
  (at level 61, m at next level, right associativity).

(** [try { ... } catch (err) { ... }] *)
Definition tryCatch {A : Type} (m : @M Store A) (h : Exn -> @M Store A)
    : @M Store A :=
  fun w =>
    match m w with
    | (w', inl e) => h e w'
    | (w', inr a) => (w', inr a)
    end.

(** A synchronous step that may throw. *)
Definition attempt {A : Type} (r : Exn + A) : @M Store A := fun w => (w, r).

(** [err instanceof Error ? err.message : String(err)]: the engine's errors
    and the rejections of the remote calls are [Error] objects. *)
Definition errorMessage (err : Exn) : jsstring :=
  match err with
  | Error message => message
  | ApiError _ message => message
  | Handled cause tool => handledMessage cause tool
  end.

(** A template literal's [${v}], that is ToString, on a value that came out
    of [JSON.parse].  An array is joined with commas, [null] and
    [undefined] elements counting as empty.  An object goes through
    OrdinaryToPrimitive: an own [toString] key, which cannot hold a
    function, hides [Object.prototype.toString], and [valueOf], own or
    inherited, gives no primitive either, so the conversion throws a
    TypeError, worded as Node 20 words it; any other object is
    "[object Object]". *)
Fixpoint toText (v : Value) : Exn + jsstring :=
  match v with
  | VUndefined => inr (str "undefined")
  | VNull => inr (str "null")
  | VBool true => inr (str "true")
  | VBool false => inr (str "false")
  | VNumber n => inr (numberText n)
  | VString s => inr s
  | VArray items =>
      match
        (fix elements (l : list Value) : Exn + list jsstring :=
           match l with
           | [] => inr []
           | x :: rest =>
               match match x with
                     | VUndefined | VNull => inr []
                     | _ => toText x
                     end with
               | inl e => inl e
               | inr s =>
                   match elements rest with
                   | inl e => inl e
                   | inr parts => inr (s :: parts)
                   end
               end
           end) items
      with
      | inl e => inl e
      | inr parts => inr (join (str ",") parts)
      end
  | VObject fields =>
      if existsb (fun kv => jsstring_eqb (fst kv) (str "toString")) fields
      then inl (Error (str "Cannot convert object to primitive value"))
      else inr (str "[object Object]")
  end.

(** toolsRegistry.ts, [callTool]; [drive] tells whether the Drive client
    was passed. *)
Definition callTool (name : jsstring) (args : Value) (drive : bool)
    : @M Store McpToolResult.t :=
  if jsstring_eqb name (str "create_presentation")
  then executeTool createPresentationTool name args
  else if jsstring_eqb name (str "create_presentation_from_content")
  then
    match safeParse args with
    | inl errors =>
        ret (textResult (join (str "; ") (map Issue.message errors)) (Some true))
    | inr data =>
        result <- createPresentationFromContent data drive ;;
        ret (textResult (stringifyCreated result) None)
    end
  else if jsstring_eqb name (str "get_presentation")
  then executeTool getPresentationTool name args
  else if jsstring_eqb name (str "batch_update_presentation")
  then executeTool batchUpdatePresentationTool name args
  else if jsstring_eqb name (str "get_page")
  then executeTool getPageTool name args
  else if jsstring_eqb name (str "summarize_presentation")
  then executeTool summarizePresentationTool name args
  else ret (textResult (str "Unknown tool: " ++ name) (Some true)).

(** The MCP handler, [handleMcpRequest]; [body] is [req.body]. *)
Definition handleMcpRequest (body : Value) (drive : bool) : @M Store Response.t :=
  if negb (isJsonRpcBody body)
  then ret (sendJsonRpcError VNull (-32600)
              (str "Invalid Request: body must be JSON-RPC with method"))
  else
    let id := match member body "id" with VUndefined => VNull | v => v end in
    let method := member body "method" in
    let params :=
      match member body "params" with VUndefined => VObject [] | v => v end in
    if isString method "initialize"
    then ret (sendJsonRpcResponse id
                (VObject
                   [(str "protocolVersion", VString (str "2024-11-05"));
                    (str "capabilities", VObject [(str "tools", VObject [])]);
                    (str "serverInfo",
                     VObject [(str "name", VString (str "google-slides-mcp"));
                              (str "version", VString (str "0.1.0"))])]))
    else if isString method "notifications/initialized"
    then ret (Response.mk 202 None)
    else if isString method "tools/list"
    then ret (sendJsonRpcResponse id (VObject [(str "tools", toolsValue)]))
    else if isString method "tools/call"
    then
      name <- attempt (getProp params "name") ;;
      args <- attempt (getProp params "arguments") ;;
      match name with
      | VString (c :: n) =>
          tryCatch
            (result <- callTool (c :: n) args drive ;;
             ret (sendJsonRpcResponse id
                    (VObject
                       [(str "content", contentValue (McpToolResult.content result));
                        (str "isError",
                         VBool (nullish (McpToolResult.isError result) false))])))
            (fun err =>
               ret (sendJsonRpcResponse id
                      (VObject
                         [(str "content",
                           contentValue [ContentItem.mk (str "text") (errorMessage err)]);
                          (str "isError", VBool true)])))
      | _ =>
          ret (sendJsonRpcError id (-32602)
                 (str "Invalid params: missing or invalid " ++ [34%N]
                  ++ str "name" ++ [34%N]))
      end
    else
      text <- attempt (toText method) ;;
      ret (sendJsonRpcError id (-32601) (str "Method not found: " ++ text)).

(** [POST /slides]; [driveClient] tells whether [initAuth] has set the
    Drive client. *)
Definition postSlides (body : Value) (driveClient : bool) : @M Store Response.t :=
  tryCatch
    (match safeParse body with
     | inl errors =>
         ret (Response.mk 400
                (Some (VObject
                         [(str "error", VString (str "Invalid request body"));
                          (str "details",
                           VArray (map (fun e =>
                                          VObject
                                            [(str "path", VString (pathText (Issue.path e)));
                                             (str "message", VString (Issue.message e))])
                                       errors))])))
     | inr data =>
         result <- createPresentationFromContent data driveClient ;;
         ret (Response.mk 200 (Some (createdValue result)))
     end)
    (fun err =>
       ret (Response.mk 500
              (Some (VObject
                       [(str "error", VString (str "Failed to create presentation"));
                        (str "message", VString (errorMessage err))])))).

(** [POST /tools] *)
Definition postTools (body : Value) (driveClient : bool) : @M Store Response.t :=
  if isObjectWith body "method" && isObjectWith body "id"
  then handleMcpRequest body driveClient
  else ret (Response.mk 200 (Some (VObject [(str "tools", toolsValue)]))).

(** [POST /tools/call] *)
Definition postToolsCall (body : Value) (driveClient : bool)
    : @M Store Response.t :=
  tryCatch
    (let source := match body with VUndefined | VNull => VObject [] | v => v end in
     let name := member source "name" in
     let args := member source "arguments" in
     match name with
     | VString (c :: n) =>
         result <- callTool (c :: n) args driveClient ;;
         let text :=
           match McpToolResult.content result with
           | item :: _ =>
               if jsstring_eqb (ContentItem.type item) (str "text")
               then ContentItem.text item
               else stringifyContent (McpToolResult.content result)
           | [] => stringifyContent (McpToolResult.content result)
           end in
         match McpToolResult.isError result with
         | Some true =>
             ret (Response.mk 400
                    (Some (VObject
                             [(str "success", VBool false);
                              (str "error", VString text);
                              (str "errorCode",
                               match McpToolResult.errorCode result with
                               | Some code => VNumber code
                               | None => VUndefined
                               end)])))
         | _ =>
             ret (Response.mk 200
                    (Some (VObject [(str "success", VBool true);
                                    (str "content", VString text)])))
         end
     | _ =>
         ret (Response.mk 400
                (Some (VObject
                         [(str "success", VBool false);
                          (str "error",
                           VString (str "Missing or invalid " ++ [34%N] ++ str "name"
                                    ++ [34%N] ++ str " in request body."))])))
     end)
    (fun err =>
       ret (Response.mk 500
              (Some (VObject [(str "success", VBool false);
                              (str "error", VString (errorMessage err))])))).

End Server.

(** A runtime for the examples: validation accepts the bodies that are
    objects with a non-empty string [title] and answers a deck of one empty
    slide with that title; the other tools answer [ok]. *)
Module Stub.
#[export] Instance runtime : Runtime Scripted.t := {
  safeParse := fun v =>
    match member v "title" with
    | VString (c :: t) => inr (Args.mk (c :: t) [SlideContent.empty] None)
    | _ => inl [Issue.mk [Key (str "title")] (str "Required")]
    end;
  executeTool := fun _ _ _ w => (w, inr (textResult (str "ok") None));
  stringifyCreated := Created.presentationId;
  stringifyContent := fun _ => str "[]";
  handledMessage := fun _ _ => str "handled";
  numberText := fun _ => str "0"
}.

(** [{ "title": "Deck" }] *)
Definition deckBody : Value := VObject [(str "title", VString (str "Deck"))].

(** A JSON-RPC request. *)
Definition rpc (id : Value) (method : string) (params : Value) : Value :=
  VObject [(str "jsonrpc", VString (str "2.0")); (str "id", id);
           (str "method", VString (str method)); (str "params", params)].
End Stub.

(** [name] is the name of one of [TOOLS]. *)
Definition advertised (name : jsstring) : bool :=
  existsb (fun t => jsstring_eqb name (ToolDefinition.name t)) TOOLS.

(** The [id] that a JSON-RPC answer carries for a request body. *)
Definition requestId (body : Value) : Value :=
  match member body "id" with VUndefined => VNull | v => v end.

(** ** Vocabulary of the statements *)

(** The element carries a usable identifier. *)
Definition identified (el : PageElement.t) : bool :=
  match nonempty (PageElement.objectId el) with Some _ => true | None => false end.

Definition titleHint (el : PageElement.t) : bool :=
  typeIs (PageElement.placeholderType el) "TITLE".

Definition bodyHint (el : PageElement.t) : bool :=
  typeIs (PageElement.placeholderType el) "BODY"
  || typeIs (PageElement.placeholderType el) "SUBTITLE".

(** The element as a placeholder of type [ty], if it has an identifier. *)
Definition asPlaceholder (ty : jsstring) (el : PageElement.t)
    : option PlaceholderInfo.t :=
  match nonempty (PageElement.objectId el) with
  | Some oid => Some (PlaceholderInfo.mk oid ty)
  | None => None
  end.

(** The last element in scan order that satisfies [p]. *)
Definition findLast {A : Type} (p : A -> bool) (l : list A) : option A :=
  find p (rev l).

(** The positional fallback of the resolver: the element at index 1. *)
Definition fallbackBody (els : list PageElement.t) : option PlaceholderInfo.t :=
  match nth_error els 1 with
  | Some el1 => asPlaceholder (str "BODY") el1
  | None => None
  end.

(** The element carries an [objectId] that is neither [undefined] nor
    [null]; it may still be the empty string. *)
Definition present (el : PageElement.t) : bool :=
  match PageElement.objectId el with Some _ => true | None => false end.

(** No element of the page is tagged TITLE, BODY or SUBTITLE. *)
Definition noRoleHints (els : list PageElement.t) : bool :=
  forallb (fun el => negb (titleHint el) && negb (bodyHint el)) els.

(** The body identifier of the blank path after its loop: the last tagged
    element whose [objectId] is present. *)
Definition lastPresentBody (els : list PageElement.t) : option jsstring :=
  match findLast (fun el => bodyHint el && present el) els with
  | Some el => PageElement.objectId el
  | None => None
  end.

(** The bullet glyph U+2022 followed by a space. *)
Definition bullet : jsstring := [8226; 32]%N.

(** The body text as the specification words it, for a given bullet
    prefix: the trimmed subtitle if non-empty, the trimmed body if
    non-empty, the bullets each behind the prefix and joined by newlines if
    there are any, separated by a blank line.  Each bullet is trimmed, as
    the source does and the specification leaves open. *)
Definition composedBody (prefix : jsstring) (slide : SlideContent.t) : jsstring :=
  let part (x : option jsstring) : list jsstring :=
    match x with
    | Some s => if truthy (trim s) then [trim s] else []
    | None => []
    end in
  let bulletPart : list jsstring :=
    match SlideContent.bullets slide with
    | Some (b :: bs) => [join LF (map (fun b => prefix ++ trim b) (b :: bs))]
    | _ => []
    end in
  join (LF ++ LF)
    (part (SlideContent.subtitle slide) ++ part (SlideContent.body slide)
     ++ bulletPart).

(** The template pages strictly between the content layout and the last
    page. *)
Definition middlePages (templateSlides : list Page.t) : list Page.t :=
  firstn (length templateSlides - 3) (skipn 2 templateSlides).

(** The non-empty identifiers of a list of pages, in order. *)
Definition pageIds (pages : list Page.t) : list jsstring :=
  flat_map (fun page =>
              match nonempty (Page.objectId page) with
              | Some oid => [oid]
              | None => []
              end) pages.


Definition isDelete (r : Request) : bool :=
  match r with deleteObject _ => true | _ => false end.

(** The element a text request addresses; for the structural requests, the
    object they name. *)
Definition target (r : Request) : jsstring :=
  match r with
  | duplicateObject oid | deleteObject oid | deleteText oid
  | insertText oid _ _ | createSlide oid _ | createShape oid _ _ _ _ _ => oid
  end.

Definition isDeleteText (r : Request) : bool :=
  match r with deleteText _ => true | _ => false end.

(** Delete-then-insert on one element. *)
Definition replaceText (oid text : jsstring) : list Request :=
  [deleteText oid; insertText oid text 0].

Definition titleOps (ph : Placeholders.t) (text : jsstring) : list Request :=
  match Placeholders.title ph with
  | Some t => replaceText (PlaceholderInfo.objectId t) text
  | None => []
  end.

Definition bodyOps (ph : Placeholders.t) (text : jsstring) : list Request :=
  match Placeholders.body ph with
  | Some b => if truthy text then replaceText (PlaceholderInfo.objectId b) text else []
  | None => []
  end.

(** What content slide [i] contributes to the fill batch of the template
    path: its page is page [1 + i] of the re-read document. *)
Definition contentOps (slides : list SlideContent.t) (finalSlides : list Page.t)
    (i : nat) : list Request :=
  let ph := getTitleAndBodyPlaceholders (pageElementsAt finalSlides (1 + i)) in
  titleOps ph (slideTitleOf (nth_error slides i))
  ++ bodyOps ph (buildSlideBodyText (nullish (nth_error slides i) SlideContent.empty)).

(** What slide [i >= 1] contributes to the batch of the blank path: a new
    page with a title box and a body box, and an insertion for each text
    that is not empty. *)
Definition blankSlideOps (slide : SlideContent.t) (i : nat) : list Request :=
  let slideId := str "slide_" ++ decimal (i + 1) in
  let titleBoxId := str "title_" ++ decimal (i + 1) in
  let bodyBoxId := str "body_" ++ decimal (i + 1) in
  [createSlide slideId (Z.of_nat i);
   createShape titleBoxId slideId 640 60 40 40;
   createShape bodyBoxId slideId 640 380 40 120]
  ++ (if truthy (optTrim (SlideContent.title slide))
      then [insertText titleBoxId (optTrim (SlideContent.title slide)) 0] else [])
  ++ (if truthy (buildSlideBodyText slide)
      then [insertText bodyBoxId (buildSlideBodyText slide) 0] else []).

(** What the first page receives on the blank path: it doubles as the
    first content slide. *)
Definition firstPageOps (title : jsstring) (slides : list SlideContent.t)
    (pageElements : list PageElement.t) : list Request :=
  let firstTitle :=
    match nth_error slides 0 with
    | Some s => match SlideContent.title s with Some t => trim t | None => title end
    | None => title
    end in
  let firstBody :=
    buildSlideBodyText (nullish (nth_error slides 0) SlideContent.empty) in
  match nonempty (fst (firstPagePlaceholders pageElements)) with
  | Some oid => [insertText oid firstTitle 0]
  | None => []
  end
  ++ match nonempty (snd (firstPagePlaceholders pageElements)) with
     | Some oid => if truthy firstBody then [insertText oid firstBody 0] else []
     | None => []
     end.

(** The identifiers of the elements of page [k]. *)
Definition elementIdsAt (finalSlides : list Page.t) (k : nat) : list jsstring :=
  flat_map (fun el => match PageElement.objectId el with
                      | Some oid => [oid]
                      | None => []
                      end)
           (nullish (pageElementsAt finalSlides k) []).

(** *** Runs of the template path *)

(** The calls of a run of [createFromTemplate] from a fresh log, and its
    outcome. *)
Definition templateLog {Store : Type} {host : Host Store} (args : Args.t)
    (s : Store) : list Event :=
  log (fst (createFromTemplate args (init s))).

Definition templateResult {Store : Type} {host : Host Store} (args : Args.t)
    (s : Store) : Exn + Created.t :=
  snd (createFromTemplate args (init s)).

(** A batch is sent only when it is not empty. *)
Definition batchEvents (presentationId : jsstring) (requests : list Request)
    : list Event :=
  if 0 <? length requests
  then [EvBatchUpdate presentationId requests (inr tt)]
  else [].

(** [templateSlides[TEMPLATE_CONTENT_LAYOUT_INDEX].objectId], if usable. *)
Definition layoutIdOf (templateSlides : list Page.t) : option jsstring :=
  nonempty match nth_error templateSlides TEMPLATE_CONTENT_LAYOUT_INDEX with
           | Some page => Page.objectId page
           | None => None
           end.


Definition msgNoFileId : jsstring := str "Drive copy did not return file id".
Definition msgTooFewSlides : jsstring :=
  str "Default template must have at least 3 slides: title, content layout, thank you".
Definition msgNoLayoutId : jsstring :=
  str "Template content layout slide missing objectId".
Definition msgNotEnoughSlides : jsstring :=
  str "Template restructuring did not produce enough slides".

(** The ways a run of the template path can go, as the sequence of remote
    calls with their answers and the outcome: provisioning (copy, first
    read), structural batch, re-read, fill batch.  [templateId] is the file
    that is copied. *)
Inductive TemplateRun (args : Args.t) (templateId : jsstring)
    : list Event -> Exn + Created.t -> Prop :=
| run_copy_rejected (e : Exn) :
    TemplateRun args templateId
      [EvCopy templateId (Args.title args) (inl e)] (inl e)
| run_copy_without_id (a : option jsstring) :
    nonempty a = None ->
    TemplateRun args templateId
      [EvCopy templateId (Args.title args) (inr a)] (inl (Error msgNoFileId))
| run_read_rejected (pid : jsstring) (e : Exn) :
    truthy pid = true ->
    TemplateRun args templateId
      [EvCopy templateId (Args.title args) (inr (Some pid));
       EvGet pid fieldsSlides (inl e)] (inl e)
| run_template_too_short (pid : jsstring) (g : option (list Page.t)) :
    truthy pid = true ->
    length (nullish g []) < 3 ->
    TemplateRun args templateId
      [EvCopy templateId (Args.title args) (inr (Some pid));
       EvGet pid fieldsSlides (inr g)] (inl (Error msgTooFewSlides))
| run_layout_without_id (pid : jsstring) (g : option (list Page.t)) :
    truthy pid = true ->
    3 <= length (nullish g []) ->
    layoutIdOf (nullish g []) = None ->
    TemplateRun args templateId
      [EvCopy templateId (Args.title args) (inr (Some pid));
       EvGet pid fieldsSlides (inr g)] (inl (Error msgNoLayoutId))
| run_structure_rejected (pid : jsstring) (g : option (list Page.t))
    (layout : jsstring) (e : Exn) :
    truthy pid = true ->
    3 <= length (nullish g []) ->
    layoutIdOf (nullish g []) = Some layout ->
    structuralRequests layout (length (Args.slides args)) (nullish g []) <> [] ->
    TemplateRun args templateId
      [EvCopy templateId (Args.title args) (inr (Some pid));
       EvGet pid fieldsSlides (inr g);
       EvBatchUpdate pid
         (structuralRequests layout (length (Args.slides args)) (nullish g []))
         (inl e)] (inl e)
| run_reread_rejected (pid : jsstring) (g : option (list Page.t))
    (layout : jsstring) (e : Exn) :
    truthy pid = true ->
    3 <= length (nullish g []) ->
    layoutIdOf (nullish g []) = Some layout ->
    TemplateRun args templateId
      ([EvCopy templateId (Args.title args) (inr (Some pid));
        EvGet pid fieldsSlides (inr g)]
       ++ batchEvents pid
            (structuralRequests layout (length (Args.slides args)) (nullish g []))
       ++ [EvGet pid fieldsSlides (inl e)]) (inl e)
| run_reread_short (pid : jsstring) (g : option (list Page.t))
    (layout : jsstring) (g2 : option (list Page.t)) :
    truthy pid = true ->
    3 <= length (nullish g []) ->
    layoutIdOf (nullish g []) = Some layout ->
    length (nullish g2 []) < length (Args.slides args) + 2 ->
    TemplateRun args templateId
      ([EvCopy templateId (Args.title args) (inr (Some pid));
        EvGet pid fieldsSlides (inr g)]
       ++ batchEvents pid
            (structuralRequests layout (length (Args.slides args)) (nullish g []))
       ++ [EvGet pid fieldsSlides (inr g2)]) (inl (Error msgNotEnoughSlides))
| run_fill_rejected (pid : jsstring) (g : option (list Page.t))
    (layout : jsstring) (g2 : option (list Page.t)) (e : Exn) :
    truthy pid = true ->
    3 <= length (nullish g []) ->
    layoutIdOf (nullish g []) = Some layout ->
    length (Args.slides args) + 2 <= length (nullish g2 []) ->
    fillRequests (Args.title args) (Args.slides args) (nullish g2 []) <> [] ->
    TemplateRun args templateId
      ([EvCopy templateId (Args.title args) (inr (Some pid));
        EvGet pid fieldsSlides (inr g)]
       ++ batchEvents pid
            (structuralRequests layout (length (Args.slides args)) (nullish g []))
       ++ [EvGet pid fieldsSlides (inr g2);
           EvBatchUpdate pid
             (fillRequests (Args.title args) (Args.slides args) (nullish g2 []))
             (inl e)]) (inl e)
| run_filled (pid : jsstring) (g : option (list Page.t))
    (layout : jsstring) (g2 : option (list Page.t)) :
    truthy pid = true ->
    3 <= length (nullish g []) ->
    layoutIdOf (nullish g []) = Some layout ->
    length (Args.slides args) + 2 <= length (nullish g2 []) ->
    TemplateRun args templateId
      ([EvCopy templateId (Args.title args) (inr (Some pid));
        EvGet pid fieldsSlides (inr g)]
       ++ batchEvents pid
            (structuralRequests layout (length (Args.slides args)) (nullish g []))
       ++ [EvGet pid fieldsSlides (inr g2)]
       ++ batchEvents pid
            (fillRequests (Args.title args) (Args.slides args) (nullish g2 [])))
      (inr (Created.mk pid (editUrlOf pid) (Args.title args))).


(** ** Vocabulary of the further properties *)

(** A batch made of delete-then-insert pairs, each pair on one element and
    inserting at index 0. *)
Inductive Paired : list Request -> Prop :=
| paired_nil : Paired []
| paired_cons (oid text : jsstring) (rest : list Request) :
    Paired rest ->
    Paired (deleteText oid :: insertText oid text 0 :: rest).

(** The identifiers of the elements of a list. *)
Definition elementIds (els : list PageElement.t) : list jsstring :=
  flat_map (fun el => match PageElement.objectId el with
                      | Some oid => [oid]
                      | None => []
                      end) els.

Definition memberOf (x : jsstring) (l : list jsstring) : bool :=
  existsb (jsstring_eqb x) l.

(** The pages and the shapes that a batch has created so far. *)
Record Made : Type := mkMade { pagesMade : list jsstring; shapesMade : list jsstring }.

(** Replays a batch of the blank path against the objects it may rely on:
    a page or shape must not be created twice, a shape needs its page to
    have been created before, and text goes into a shape created before or
    into an element that was there from the start ([existing]).  Answers
    the objects created, or nothing at the first request that breaks one of
    these rules. *)
Fixpoint replay (existing : list jsstring) (made : Made)
    (requests : list Request) : option Made :=
  match requests with
  | [] => Some made
  | createSlide oid _ :: rest =>
      if memberOf oid (pagesMade made ++ shapesMade made) then None
      else replay existing (mkMade (oid :: pagesMade made) (shapesMade made)) rest
  | createShape oid pageId _ _ _ _ :: rest =>
      if memberOf pageId (pagesMade made)
         && negb (memberOf oid (pagesMade made ++ shapesMade made))
      then replay existing (mkMade (pagesMade made) (oid :: shapesMade made)) rest
      else None
  | insertText oid _ _ :: rest | deleteText oid :: rest =>
      if memberOf oid (shapesMade made) || memberOf oid existing
      then replay existing made rest
      else None
  | duplicateObject _ :: _ | deleteObject _ :: _ => None
  end.

(** The calls of a run of the blank path from a fresh log, and its outcome. *)
Definition blankLog {Store : Type} {host : Host Store} (args : Args.t)
    (s : Store) : list Event :=
  log (fst (createPresentationFromContent args false (init s))).

Definition blankResult {Store : Type} {host : Host Store} (args : Args.t)
    (s : Store) : Exn + Created.t :=
  snd (createPresentationFromContent args false (init s)).

(** [firstSlide?.pageElements ?? []] for the answer of the read. *)
Definition firstPageElements (g : option (list Page.t)) : list PageElement.t :=
  match g with
  | Some (firstSlide :: _) => nullish (Page.pageElements firstSlide) []
  | _ => []
  end.

Definition toolName : jsstring := str "create_presentation_from_content".

Definition msgNoPresentationId : jsstring :=
  str "Google API did not return presentationId".

Definition isCopy (e : Event) : bool :=
  match e with EvCopy _ _ _ => true | _ => false end.

Definition isCreate (e : Event) : bool :=
  match e with EvCreate _ _ => true | _ => false end.

(** The presentation a call addresses, for the calls that address one. *)
Definition addressed (e : Event) : option jsstring :=
  match e with
  | EvGet pid _ _ | EvBatchUpdate pid _ _ => Some pid
  | EvCopy _ _ _ | EvCreate _ _ => None
  end.

(** The answer of a call, when it is a rejection. *)
Definition rejection (e : Event) : option Exn :=
  match e with
  | EvCopy _ _ (inl x) | EvCreate _ (inl x) | EvGet _ _ (inl x)
  | EvBatchUpdate _ _ (inl x) => Some x
  | _ => None
  end.

(** The ways a run of the blank path can go; [handle] is what the [catch]
    block makes of a thrown value. *)
Inductive BlankRun (args : Args.t) (handle : Exn -> Exn)
    : list Event -> Exn + Created.t -> Prop :=
| blank_create_rejected (e : Exn) :
    BlankRun args handle [EvCreate (Args.title args) (inl e)] (inl (handle e))
| blank_create_without_id (a : option jsstring) :
    nonempty a = None ->
    BlankRun args handle [EvCreate (Args.title args) (inr a)]
      (inl (handle (Error msgNoPresentationId)))
| blank_read_rejected (pid : jsstring) (e : Exn) :
    truthy pid = true ->
    BlankRun args handle
      [EvCreate (Args.title args) (inr (Some pid));
       EvGet pid fieldsSlides (inl e)] (inl (handle e))
| blank_batch_rejected (pid : jsstring) (g : option (list Page.t)) (e : Exn) :
    truthy pid = true ->
    blankRequests (Args.title args) (Args.slides args) (firstPageElements g) <> [] ->
    BlankRun args handle
      [EvCreate (Args.title args) (inr (Some pid));
       EvGet pid fieldsSlides (inr g);
       EvBatchUpdate pid
         (blankRequests (Args.title args) (Args.slides args) (firstPageElements g))
         (inl e)] (inl (handle e))
| blank_done (pid : jsstring) (g : option (list Page.t)) :
    truthy pid = true ->
    BlankRun args handle
      ([EvCreate (Args.title args) (inr (Some pid));
        EvGet pid fieldsSlides (inr g)]
       ++ batchEvents pid
            (blankRequests (Args.title args) (Args.slides args)
               (firstPageElements g)))
      (inr (Created.mk pid (editUrlOf pid) (Args.title args))).

(** The identifier that a copy or create call answered with. *)
Definition returnedId (e : Event) : option jsstring :=
  match e with
  | EvCopy _ _ (inr (Some p)) | EvCreate _ (inr (Some p)) => Some p
  | _ => None
  end.

(** The parameters of a JSON-RPC request: [params = {}] by default. *)
Definition requestParams (body : Value) : Value :=
  match member body "params" with VUndefined => VObject [] | v => v end.

(** The text that [POST /tools/call] reports for a tool result. *)
Definition reportedText {Store : Type} {runtime : Runtime Store}
    (result : McpToolResult.t) : jsstring :=
  match McpToolResult.content result with
  | item :: _ =>
      if jsstring_eqb (ContentItem.type item) (str "text")
      then ContentItem.text item
      else stringifyContent (McpToolResult.content result)
  | [] => stringifyContent (McpToolResult.content result)
  end.

(** Everything made so far belongs to slides of index below [bound]. *)
Definition madeBelow (bound : nat) (made : Made) : Prop :=
  (forall x, In x (pagesMade made) ->
             exists j, j < bound /\ x = str "slide_" ++ decimal (j + 1))
  /\ (forall x, In x (shapesMade made) ->
                exists j, j < bound
                          /\ (x = str "title_" ++ decimal (j + 1)
                              \/ x = str "body_" ++ decimal (j + 1))).

(** The method is one of the four that [handleMcpRequest] serves. *)
Definition knownMethod (method : Value) : bool :=
  isString method "initialize"
  || isString method "notifications/initialized"
  || isString method "tools/list"
  || isString method "tools/call".

(** The request addresses the object [oid]. *)
Definition addresses (oid : jsstring) (r : Request) : bool :=
  jsstring_eqb (target r) oid.

(** * Properties *)

(** ** The embedding at work *)

(** [===] on strings is equality of the code unit sequences. *)
Lemma jsstring_eqb_eq (a b : jsstring) : jsstring_eqb a b = true <-> a = b.
Proof.
  revert b. induction a as [|x a IH]; intros [|y b]; simpl;
    try (split; [discriminate | intro H; discriminate H]);
    [split; reflexivity|].
  rewrite andb_true_iff, N.eqb_eq, IH. split.
  - intros [-> ->]. reflexivity.
  - intro H. injection H as -> ->. split; reflexivity.
Qed.

Example trim_strips_unicode_space :
  trim ([32; 9]%N ++ str "a b" ++ [160; 10; 8232]%N) = str "a b".
Proof. reflexivity. Qed.

Example join_three :
  join (str ", ") [str "a"; str "b"; str "c"] = str "a, b, c".
Proof. reflexivity. Qed.

Example decimal_twelve : decimal 12 = str "12".
Proof. reflexivity. Qed.

Example empty_slide_has_no_body : buildSlideBodyText SlideContent.empty = [].
Proof. reflexivity. Qed.

Example blank_bullet_keeps_its_prefix :
  buildSlideBodyText (Sample.slide None None None (Some [" "%string]))
  = bulletPrefix.
Proof. reflexivity. Qed.

Example layout_page_resolved :
  getTitleAndBodyPlaceholders (Page.pageElements Sample.layoutPage)
  = Placeholders.mk (Some (PlaceholderInfo.mk (str "t1") (str "TITLE")))
                    (Some (PlaceholderInfo.mk (str "b1") (str "BODY"))).
Proof. reflexivity. Qed.

(** Three slides on the three-page template, against a store that applies
    the two duplications: copy, read, structural batch, re-read, fill
    batch. *)
Example three_slides_on_template3 :
  createPresentationFromContent (host := Scripted.host) Sample.threeSlideDeck true
    (init (Scripted.serving [Sample.template3; Sample.restructured3]))
  = (mkWorld (Scripted.serving [])
       [EvCopy (str "<YOUR_TEMPLATE_ID>") (str "Deck") (inr (Some (str "doc")));
        EvGet (str "doc") fieldsSlides (inr (Some Sample.template3));
        EvBatchUpdate (str "doc")
          [duplicateObject (str "p1"); duplicateObject (str "p1")] (inr tt);
        EvGet (str "doc") fieldsSlides (inr (Some Sample.restructured3));
        EvBatchUpdate (str "doc")
          [deleteText (str "t0"); insertText (str "t0") (str "Deck") 0;
           deleteText (str "t1"); insertText (str "t1") (str "A") 0;
           deleteText (str "t1_1"); insertText (str "t1_1") (str "B") 0;
           deleteText (str "t1_2"); insertText (str "t1_2") (str "C") 0]
          (inr tt)],
     inr (Created.mk (str "doc")
            (str "https://docs.google.com/presentation/d/doc/edit")
            (str "Deck"))).
Proof. reflexivity. Qed.

(** A rejection met on the blank path goes through
    [handleGoogleApiError]; on the template path it does not. *)
Example blank_path_errors_are_handled :
  snd (createPresentationFromContent (host := Scripted.host)
         Sample.oneSlideDeck false (init Sample.copyWithoutId))
  = inl (Handled (Error (str "Google API did not return presentationId"))
                 (str "create_presentation_from_content"))
  /\ snd (createPresentationFromContent (host := Scripted.host)
            Sample.oneSlideDeck true (init Sample.copyWithoutId))
     = inl (Error (str "Drive copy did not return file id")).
Proof. split; reflexivity. Qed.

(** ** The placeholder resolver *)

Lemma find_app_split {A : Type} (p : A -> bool) (l1 l2 : list A) :
  find p (l1 ++ l2) =
  match find p l1 with Some x => Some x | None => find p l2 end.
Proof.
  induction l1 as [|a l1 IH]; simpl; [reflexivity|].
  destruct (p a); [reflexivity | exact IH].
Qed.

Lemma findLast_cons {A : Type} (p : A -> bool) (a : A) (l : list A) :
  findLast p (a :: l) =
  match findLast p l with
  | Some x => Some x
  | None => if p a then Some a else None
  end.
Proof.
  unfold findLast. simpl. rewrite find_app_split. simpl.
  destruct (find p (rev l)); [reflexivity|]. destruct (p a); reflexivity.
Qed.

Lemma classify_unidentified (st : Placeholders.t) (el : PageElement.t) :
  identified el = false -> classify st el = st.
Proof.
  unfold identified, classify.
  destruct (nonempty (PageElement.objectId el)); [discriminate | reflexivity].
Qed.

(** The title local after the loop: the last identified TITLE element
    overwrites every earlier one. *)
Lemma scan_title_from (els : list PageElement.t) (st : Placeholders.t) :
  Placeholders.title (fold_left classify els st) =
  match findLast (fun el => identified el && titleHint el) els with
  | Some el => asPlaceholder (str "TITLE") el
  | None => Placeholders.title st
  end.
Proof.
  revert st. induction els as [|el els IH]; intro st; [reflexivity|].
  simpl fold_left. rewrite IH, findLast_cons.
  destruct (findLast _ els) as [x|]; [reflexivity|].
  unfold classify, identified, titleHint, asPlaceholder.
  destruct (nonempty (PageElement.objectId el)) as [oid|] eqn:Hid; simpl;
    [|reflexivity].
  destruct (typeIs (PageElement.placeholderType el) "TITLE"); simpl;
    [rewrite Hid|]; reflexivity.
Qed.

(** The body local after the loop: once set it is kept. *)
Lemma scan_body_from (els : list PageElement.t) (st : Placeholders.t) :
  Placeholders.body (fold_left classify els st) =
  match Placeholders.body st with
  | Some b => Some b
  | None =>
      match find (fun el => identified el && bodyHint el) els with
      | Some el =>
          asPlaceholder (nullish (PageElement.placeholderType el) (str "BODY")) el
      | None => None
      end
  end.
Proof.
  revert st. induction els as [|el els IH]; intro st.
  - simpl. destruct (Placeholders.body st); reflexivity.
  - simpl fold_left. rewrite IH. simpl find.
    unfold classify, identified, bodyHint, asPlaceholder.
    destruct (nonempty (PageElement.objectId el)) as [oid|] eqn:Hid; simpl.
    + destruct (typeIs (PageElement.placeholderType el) "BODY"
                || typeIs (PageElement.placeholderType el) "SUBTITLE"); simpl.
      * rewrite Hid. destruct (Placeholders.body st); reflexivity.
      * reflexivity.
    + reflexivity.
Qed.

Lemma resolver_title (els : list PageElement.t) :
  Placeholders.title (getTitleAndBodyPlaceholders (Some els)) =
  Placeholders.title (scanPlaceholders els).
Proof.
  unfold getTitleAndBodyPlaceholders.
  destruct (Placeholders.body (scanPlaceholders els)); [reflexivity|].
  destruct (nth_error els 1) as [el1|]; [|reflexivity].
  destruct (nonempty (PageElement.objectId el1)); reflexivity.
Qed.

Lemma resolver_body (els : list PageElement.t) :
  Placeholders.body (getTitleAndBodyPlaceholders (Some els)) =
  match Placeholders.body (scanPlaceholders els) with
  | Some b => Some b
  | None => fallbackBody els
  end.
Proof.
  unfold getTitleAndBodyPlaceholders, fallbackBody, asPlaceholder.
  destruct (Placeholders.body (scanPlaceholders els)) eqn:Hb; [exact Hb|].
  destruct (nth_error els 1) as [el1|]; [|exact Hb].
  destruct (nonempty (PageElement.objectId el1)); [reflexivity | exact Hb].
Qed.

Lemma scan_first_title_from (els : list PageElement.t)
    (st : option jsstring * option jsstring) :
  fst (fold_left classifyFirst els st) =
  match findLast titleHint els with
  | Some el => PageElement.objectId el
  | None => fst st
  end.
Proof.
  revert st. induction els as [|el els IH]; intro st; [reflexivity|].
  simpl fold_left. rewrite IH, findLast_cons.
  destruct (findLast titleHint els); [reflexivity|].
  unfold classifyFirst, titleHint. simpl.
  destruct (typeIs (PageElement.placeholderType el) "TITLE"); reflexivity.
Qed.

Lemma scan_first_body_from (els : list PageElement.t)
    (st : option jsstring * option jsstring) :
  snd (fold_left classifyFirst els st) =
  match findLast (fun el => bodyHint el && present el) els with
  | Some el => PageElement.objectId el
  | None => snd st
  end.
Proof.
  revert st. induction els as [|el els IH]; intro st; [reflexivity|].
  simpl fold_left. rewrite IH, findLast_cons.
  destruct (findLast _ els); [reflexivity|].
  unfold classifyFirst, bodyHint, present. simpl.
  destruct (typeIs (PageElement.placeholderType el) "BODY"
            || typeIs (PageElement.placeholderType el) "SUBTITLE"); simpl;
    [|reflexivity].
  destruct (PageElement.objectId el) eqn:Hid; simpl; rewrite ?Hid; reflexivity.
Qed.

Lemma noRoleHints_no_title (els : list PageElement.t) :
  noRoleHints els = true ->
  findLast (fun el => identified el && titleHint el) els = None.
Proof.
  unfold noRoleHints, findLast. intro H.
  destruct (find _ (rev els)) as [x|] eqn:Hf; [|reflexivity].
  apply find_some in Hf. destruct Hf as [Hin Hx].
  apply in_rev in Hin. rewrite forallb_forall in H. specialize (H x Hin).
  destruct (titleHint x); [discriminate H|].
  rewrite andb_false_r in Hx. discriminate Hx.
Qed.

Lemma noRoleHints_no_body (els : list PageElement.t) :
  noRoleHints els = true ->
  find (fun el => identified el && bodyHint el) els = None.
Proof.
  unfold noRoleHints. intro H.
  destruct (find _ els) as [x|] eqn:Hf; [|reflexivity].
  apply find_some in Hf. destruct Hf as [Hin Hx].
  rewrite forallb_forall in H. specialize (H x Hin).
  destruct (bodyHint x); [rewrite andb_false_r in H; discriminate H|].
  rewrite andb_false_r in Hx. discriminate Hx.
Qed.

Lemma scan_skips (pre post : list PageElement.t) (el : PageElement.t) :
  identified el = false ->
  scanPlaceholders (pre ++ el :: post) = scanPlaceholders (pre ++ post).
Proof.
  intro H. unfold scanPlaceholders. rewrite !fold_left_app. simpl.
  rewrite classify_unidentified by exact H. reflexivity.
Qed.

(** C4 (amended).  The title placeholder is the LAST element in scan order
    that is tagged TITLE: every TITLE element overwrites the one found
    before it.  [getTitleAndBodyPlaceholders] looks only at elements with a
    non-empty identifier; the inline scan of the blank path takes the
    identifier of the last TITLE element whatever it is. *)
Theorem title_is_last_title_hint (els : list PageElement.t) :
  Placeholders.title (getTitleAndBodyPlaceholders (Some els)) =
    match findLast (fun el => identified el && titleHint el) els with
    | Some el => asPlaceholder (str "TITLE") el
    | None => None
    end
  /\ fst (firstPagePlaceholders els) =
    match findLast titleHint els with
    | Some el => PageElement.objectId el
    | None => None
    end.
Proof.
  split.
  - rewrite resolver_title. unfold scanPlaceholders.
    rewrite scan_title_from. reflexivity.
  - unfold firstPagePlaceholders.
    assert (Hfst : forall st : option jsstring * option jsstring,
      fst (match nonempty (snd st), nth_error els 1 with
           | None, Some el1 => (fst st, PageElement.objectId el1)
           | _, _ => st
           end) = fst st).
    { intro st. destruct (nonempty (snd st)); [reflexivity|].
      destruct (nth_error els 1); reflexivity. }
    cbv zeta. rewrite Hfst, scan_first_title_from. reflexivity.
Qed.

(** C4, as stated, fails: with two TITLE elements the first one in scan
    order is [t1], and both scans answer [t2]. *)
Lemma title_first_hint_overwritten :
  find titleHint Sample.twoTitles = Some (Sample.tagged "t1" "TITLE")
  /\ Placeholders.title (getTitleAndBodyPlaceholders (Some Sample.twoTitles))
     = Some (PlaceholderInfo.mk (str "t2") (str "TITLE"))
  /\ Placeholders.title (getTitleAndBodyPlaceholders (Some Sample.twoTitles))
     <> asPlaceholder (str "TITLE") (Sample.tagged "t1" "TITLE")
  /\ fst (firstPagePlaceholders Sample.twoTitles) = Some (str "t2").
Proof.
  repeat split; try reflexivity. vm_compute. discriminate.
Qed.

(** C5 (amended).  In [getTitleAndBodyPlaceholders] the body is the first
    element in scan order that has a non-empty identifier and is tagged
    BODY or SUBTITLE; when there is none, the element at index 1 becomes
    the body provided it has a non-empty identifier; a page without role
    hints gets no title and, with an element at index 1, that element as
    body.  The inline scan of the blank path keeps the LAST tagged element
    whose identifier is present, and falls back to index 1 when that
    identifier is missing or empty. *)
Theorem body_resolution (els : list PageElement.t) :
  Placeholders.body (getTitleAndBodyPlaceholders (Some els)) =
    match find (fun el => identified el && bodyHint el) els with
    | Some el =>
        asPlaceholder (nullish (PageElement.placeholderType el) (str "BODY")) el
    | None => fallbackBody els
    end
  /\ (forall el1 : PageElement.t,
        noRoleHints els = true -> nth_error els 1 = Some el1 ->
        getTitleAndBodyPlaceholders (Some els) =
        Placeholders.mk None (asPlaceholder (str "BODY") el1))
  /\ snd (firstPagePlaceholders els) =
    match nonempty (lastPresentBody els), nth_error els 1 with
    | None, Some el1 => PageElement.objectId el1
    | _, _ => lastPresentBody els
    end.
Proof.
  assert (Hbody :
    Placeholders.body (getTitleAndBodyPlaceholders (Some els)) =
    match find (fun el => identified el && bodyHint el) els with
    | Some el =>
        asPlaceholder (nullish (PageElement.placeholderType el) (str "BODY")) el
    | None => fallbackBody els
    end).
  { rewrite resolver_body. unfold scanPlaceholders. rewrite scan_body_from.
    simpl. destruct (find _ els) as [x|] eqn:Hf; [|reflexivity].
    apply find_some in Hf. destruct Hf as [_ Hx].
    apply andb_prop in Hx. destruct Hx as [Hx _].
    unfold identified in Hx. unfold asPlaceholder.
    destruct (nonempty (PageElement.objectId x)); [reflexivity | discriminate Hx]. }
  split; [exact Hbody|]. split.
  - intros el1 Hno H1.
    assert (Ht : Placeholders.title (getTitleAndBodyPlaceholders (Some els)) = None).
    { rewrite resolver_title. unfold scanPlaceholders.
      rewrite scan_title_from, (noRoleHints_no_title els Hno). reflexivity. }
    rewrite (noRoleHints_no_body els Hno) in Hbody.
    unfold fallbackBody in Hbody. rewrite H1 in Hbody.
    rewrite <- Ht, <- Hbody.
    destruct (getTitleAndBodyPlaceholders (Some els)); reflexivity.
  - unfold firstPagePlaceholders, lastPresentBody. cbv zeta.
    pose proof (scan_first_body_from els (None, None)) as Hs. simpl in Hs.
    destruct (fold_left classifyFirst els (None, None)) as [t b].
    cbn [fst snd] in *. subst b.
    destruct (nonempty _); [reflexivity|].
    destruct (nth_error els 1); reflexivity.
Qed.

Lemma body_resolution_witness :
  noRoleHints Sample.untaggedPair = true
  /\ nth_error Sample.untaggedPair 1 = Some (Sample.untagged "b")
  /\ getTitleAndBodyPlaceholders (Some Sample.untaggedPair) =
     Placeholders.mk None (Some (PlaceholderInfo.mk (str "b") (str "BODY"))).
Proof.
  split; [reflexivity|]. split; [reflexivity|].
  exact (proj1 (proj2 (body_resolution Sample.untaggedPair))
               (Sample.untagged "b") eq_refl eq_refl).
Defined.

(** C5, as stated, fails.  On the blank path two tagged elements leave the
    second one as body, not the first.  In the resolver a BODY element
    without identifier is the first tagged element in scan order, yet the
    body is the later SUBTITLE element; and with only that BODY element
    tagged, the fallback still picks index 1. *)
Lemma body_first_hint_not_kept :
  find bodyHint Sample.twoBodies = Some (Sample.tagged "b1" "BODY")
  /\ snd (firstPagePlaceholders Sample.twoBodies) = Some (str "b2")
  /\ find bodyHint Sample.anonymousBodyFirst = Some (Sample.anonymous "BODY")
  /\ Placeholders.body
       (getTitleAndBodyPlaceholders (Some Sample.anonymousBodyFirst))
     = Some (PlaceholderInfo.mk (str "b") (str "SUBTITLE"))
  /\ Placeholders.body
       (getTitleAndBodyPlaceholders
          (Some [Sample.anonymous "BODY"; Sample.untagged "x"]))
     = Some (PlaceholderInfo.mk (str "x") (str "BODY")).
Proof.
  repeat split; reflexivity.
Qed.

(** C10.  An element without a usable identifier is skipped by the
    classification loop as if it were not in the list: it sets neither the
    title nor the body, whatever its tag.  At index 1 it is not taken by
    the positional fallback either: the body stays what the loop found
    among the other elements, possibly nothing.  In general the fallback
    yields the element at index 1 only through its non-empty identifier. *)
Theorem unidentified_elements_skipped
    (pre post rest : list PageElement.t) (e0 el : PageElement.t) :
  identified el = false ->
  scanPlaceholders (pre ++ el :: post) = scanPlaceholders (pre ++ post)
  /\ Placeholders.title (getTitleAndBodyPlaceholders (Some (pre ++ el :: post)))
     = Placeholders.title (scanPlaceholders (pre ++ post))
  /\ getTitleAndBodyPlaceholders (Some [el]) = Placeholders.mk None None
  /\ getTitleAndBodyPlaceholders (Some (e0 :: el :: rest))
     = scanPlaceholders (e0 :: rest)
  /\ (forall els : list PageElement.t,
        Placeholders.body (getTitleAndBodyPlaceholders (Some els)) =
        match Placeholders.body (scanPlaceholders els) with
        | Some b => Some b
        | None => fallbackBody els
        end).
Proof.
  intro H. split; [apply scan_skips; exact H|].
  split; [rewrite resolver_title; rewrite (scan_skips pre post el H); reflexivity|].
  split; [|split; [|exact resolver_body]].
  - unfold getTitleAndBodyPlaceholders, scanPlaceholders. simpl.
    rewrite classify_unidentified by exact H. reflexivity.
  - pose proof (scan_skips [e0] rest el H) as Hs. simpl in Hs.
    unfold getTitleAndBodyPlaceholders. rewrite Hs.
    unfold identified in H.
    destruct (nonempty (PageElement.objectId el)) eqn:Hid; [discriminate H|].
    destruct (Placeholders.body (scanPlaceholders (e0 :: rest)));
      cbn [nth_error]; rewrite ?Hid; reflexivity.
Qed.

Lemma unidentified_elements_skipped_witness :
  identified (Sample.anonymous "TITLE") = false
  /\ getTitleAndBodyPlaceholders
       (Some [Sample.untagged "a"; Sample.anonymous "TITLE"; Sample.untagged "c"])
     = Placeholders.mk None None.
Proof.
  split; [reflexivity|].
  exact (proj1 (proj2 (proj2 (proj2
    (unidentified_elements_skipped [] [] [Sample.untagged "c"]
       (Sample.untagged "a") (Sample.anonymous "TITLE") eq_refl))))).
Defined.

(** ** The body text *)

(** The composer follows the recipe of the specification, with the prefix
    that the source file spells out. *)
Lemma buildSlideBodyText_composed (slide : SlideContent.t) :
  buildSlideBodyText slide = composedBody bulletPrefix slide.
Proof.
  unfold buildSlideBodyText, composedBody, optTrim, push.
  destruct slide as [n t st bd bl nt]; simpl.
  destruct st as [s|]; destruct bd as [b|]; destruct bl as [[|x xs]|];
    cbn [truthy];
    repeat match goal with
           | |- context [truthy ?u] => destruct (truthy u)
           end; reflexivity.
Qed.

(** C6, at the input of the claim.  The source prefixes each bullet with the
    code units U+00E2 U+20AC U+00A2 (the UTF-8 bytes of U+2022 read as
    Windows-1252) and a space, so the composed text is not the one the
    claim gives, although the recipe with the bullet glyph U+2022 would
    produce exactly that text. *)
Theorem buildSlideBodyText_bullet_prefix :
  buildSlideBodyText Sample.sxab =
    str "s" ++ LF ++ LF ++ str "x" ++ LF ++ LF
    ++ [226; 8364; 162; 32]%N ++ str "a" ++ LF
    ++ [226; 8364; 162; 32]%N ++ str "b"
  /\ composedBody bullet Sample.sxab =
    str "s" ++ LF ++ LF ++ str "x" ++ LF ++ LF
    ++ [8226; 32]%N ++ str "a" ++ LF ++ [8226; 32]%N ++ str "b"
  /\ buildSlideBodyText Sample.sxab <> composedBody bullet Sample.sxab.
Proof.
  split; [reflexivity|]. split; [reflexivity|].
  vm_compute. discriminate.
Qed.

(** ** The structural batch *)

(** A loop whose every iteration only pushes onto the array. *)
Lemma fold_left_appending {A B : Type} (step : list A -> B -> list A)
    (f : B -> list A) :
  (forall acc i, step acc i = acc ++ f i) ->
  forall (l : list B) (acc : list A),
    fold_left step l acc = acc ++ flat_map f l.
Proof.
  intros Hstep l. induction l as [|x l IH]; intro acc; simpl.
  - rewrite app_nil_r. reflexivity.
  - rewrite IH, Hstep, app_assoc. reflexivity.
Qed.

Lemma flat_map_const_seq {A : Type} (x : A) (start n : nat) :
  flat_map (fun _ : nat => [x]) (seq start n) = repeat x n.
Proof.
  revert start. induction n as [|n IH]; intro start; simpl;
    [reflexivity | rewrite IH; reflexivity].
Qed.

Lemma skipn_nth_error {A : Type} (l : list A) (a : nat) (x : A) :
  nth_error l a = Some x -> skipn a l = x :: skipn (S a) l.
Proof.
  revert a. induction l as [|y l IH]; intros [|a] H; simpl in *;
    try discriminate.
  - injection H as ->. reflexivity.
  - rewrite (IH a H). reflexivity.
Qed.

(** Reading a list by the indices [a, a+1, ..., a+n-1] visits the
    corresponding segment. *)
Lemma flat_map_seq_nth_error {A B : Type} (g : option A -> list B)
    (l : list A) (n a : nat) :
  a + n <= length l ->
  flat_map (fun i => g (nth_error l i)) (seq a n) =
  flat_map (fun x => g (Some x)) (firstn n (skipn a l)).
Proof.
  revert a. induction n as [|n IH]; intros a H; [reflexivity|].
  destruct (nth_error l a) as [x|] eqn:Hx.
  - rewrite (skipn_nth_error l a x Hx). simpl. rewrite Hx.
    rewrite IH by lia. reflexivity.
  - apply nth_error_None in Hx. lia.
Qed.

(** The two loops of the structural plan, in closed form. *)
Lemma structuralRequests_unfolded (contentLayoutSlideId : jsstring) (N : nat)
    (templateSlides : list Page.t) :
  structuralRequests contentLayoutSlideId N templateSlides =
  repeat (duplicateObject contentLayoutSlideId) (N - 1)
  ++ map deleteObject (pageIds (middlePages templateSlides)).
Proof.
  unfold structuralRequests, push, middlePages, pageIds.
  rewrite (fold_left_appending
             (fun reqs (_ : nat) => reqs ++ [duplicateObject contentLayoutSlideId])
             (fun _ : nat => [duplicateObject contentLayoutSlideId]))
    by reflexivity.
  rewrite flat_map_const_seq. simpl app at 1.
  rewrite (fold_left_appending _
             (fun i => match nth_error templateSlides i with
                       | Some page =>
                           match nonempty (Page.objectId page) with
                           | Some oid => [deleteObject oid]
                           | None => []
                           end
                       | None => []
                       end)).
  2:{ intros acc i. destruct (nth_error templateSlides i) as [page|];
        [|rewrite app_nil_r; reflexivity].
      destruct (nonempty (Page.objectId page));
        [reflexivity | rewrite app_nil_r; reflexivity]. }
  f_equal.
  replace (length templateSlides - 1 - 2) with (length templateSlides - 3) by lia.
  destruct (Nat.le_gt_cases 3 (length templateSlides)) as [Hle|Hlt].
  - rewrite (flat_map_seq_nth_error
               (fun o : option Page.t =>
                  match o with
                  | Some page =>
                      match nonempty (Page.objectId page) with
                      | Some oid => [deleteObject oid]
                      | None => []
                      end
                  | None => []
                  end) templateSlides) by lia.
    induction (firstn (length templateSlides - 3) (skipn 2 templateSlides))
      as [|p ps IH]; [reflexivity|].
    simpl. rewrite map_app, IH.
    destruct (nonempty (Page.objectId p)); reflexivity.
  - replace (length templateSlides - 3) with 0 by lia. reflexivity.
Qed.

(** C2 (amended).  The structural batch is [N - 1] duplications of the
    content layout followed by one deletion for each page at indices 2 to
    [P - 2] that carries a non-empty identifier, in ascending index order;
    a page without identifier is passed over.  With [N = 3] and three
    template pages it is two duplications and no deletion. *)
Theorem structuralRequests_shape (contentLayoutSlideId : jsstring) (N : nat)
    (templateSlides : list Page.t) :
  structuralRequests contentLayoutSlideId N templateSlides =
    repeat (duplicateObject contentLayoutSlideId) (N - 1)
    ++ map deleteObject (pageIds (middlePages templateSlides))
  /\ (forall p0 p1 p2 : Page.t,
        structuralRequests contentLayoutSlideId 3 [p0; p1; p2] =
        [duplicateObject contentLayoutSlideId;
         duplicateObject contentLayoutSlideId]).
Proof.
  split; [apply structuralRequests_unfolded | reflexivity].
Qed.

(** C2, as stated, fails: the third page of this four-page template has no
    identifier, and for one slide the batch holds no deletion at all,
    although one page lies between the content layout and the last page. *)
Lemma structuralRequests_passes_over_unidentified_page :
  length (middlePages Sample.template4) = 1
  /\ structuralRequests (str "p1") 1 Sample.template4 = []
  /\ length (filter isDelete (structuralRequests (str "p1") 1 Sample.template4))
     <> length Sample.template4 - 3.
Proof.
  split; [reflexivity|]. split; [reflexivity|]. vm_compute. discriminate.
Qed.

(** ** The fill batch *)

Lemma fillTitlePage_appends (title : jsstring) (finalSlides : list Page.t)
    (acc : list Request) :
  fillTitlePage title finalSlides acc =
  acc ++ titleOps (getTitleAndBodyPlaceholders (pageElementsAt finalSlides 0)) title.
Proof.
  unfold fillTitlePage, titleOps, replaceText, push.
  destruct (Placeholders.title _);
    [rewrite <- app_assoc; reflexivity | rewrite app_nil_r; reflexivity].
Qed.

Lemma fillContentSlide_appends (slides : list SlideContent.t)
    (finalSlides : list Page.t) (acc : list Request) (i : nat) :
  fillContentSlide slides finalSlides acc i =
  acc ++ contentOps slides finalSlides i.
Proof.
  unfold fillContentSlide, contentOps, titleOps, bodyOps, replaceText, push.
  cbv zeta.
  destruct (Placeholders.title _); destruct (Placeholders.body _);
    try destruct (truthy _);
    repeat rewrite <- app_assoc; simpl; rewrite ?app_nil_r; reflexivity.
Qed.

Lemma fillRequests_decomposed (title : jsstring) (slides : list SlideContent.t)
    (finalSlides : list Page.t) :
  fillRequests title slides finalSlides =
  titleOps (getTitleAndBodyPlaceholders (pageElementsAt finalSlides 0)) title
  ++ flat_map (contentOps slides finalSlides) (seq 0 (length slides)).
Proof.
  unfold fillRequests.
  rewrite (fold_left_appending _ (contentOps slides finalSlides))
    by (intros; apply fillContentSlide_appends).
  rewrite fillTitlePage_appends. reflexivity.
Qed.

Lemma fillFirstPage_appends (title : jsstring) (slides : list SlideContent.t)
    (pageElements : list PageElement.t) (acc : list Request) :
  fillFirstPage title slides pageElements acc =
  acc ++ firstPageOps title slides pageElements.
Proof.
  unfold fillFirstPage, firstPageOps, push.
  destruct (firstPagePlaceholders pageElements) as [t b]. cbn [fst snd].
  destruct (nonempty t); destruct (nonempty b); try destruct (truthy _);
    repeat rewrite <- app_assoc; simpl; rewrite ?app_nil_r; reflexivity.
Qed.

Lemma createContentSlide_appends (slides : list SlideContent.t)
    (acc : list Request) (i : nat) :
  createContentSlide slides acc i =
  acc ++ match nth_error slides i with
         | Some slide => blankSlideOps slide i
         | None => []
         end.
Proof.
  unfold createContentSlide, blankSlideOps, slideTitleOf, optTrim, push.
  destruct (nth_error slides i) as [slide|]; [|rewrite app_nil_r; reflexivity].
  cbv zeta.
  change CONTENT_WIDTH_PT with 640%Z. change TITLE_HEIGHT_PT with 60%Z.
  change MARGIN_PT with 40%Z. change BODY_TOP_PT with 120%Z.
  change (PAGE_HEIGHT_PT - 120 - 40)%Z with 380%Z.
  destruct (truthy match SlideContent.title slide with
                   | Some t => trim t
                   | None => []
                   end);
    destruct (truthy (buildSlideBodyText slide));
    repeat rewrite <- app_assoc; reflexivity.
Qed.

Lemma blankRequests_decomposed (title : jsstring) (slides : list SlideContent.t)
    (pageElements : list PageElement.t) :
  blankRequests title slides pageElements =
  firstPageOps title slides pageElements
  ++ flat_map (fun i => match nth_error slides i with
                        | Some slide => blankSlideOps slide i
                        | None => []
                        end)
              (seq 1 (length slides - 1)).
Proof.
  unfold blankRequests.
  rewrite (fold_left_appending _
             (fun i => match nth_error slides i with
                       | Some slide => blankSlideOps slide i
                       | None => []
                       end))
    by (intros; apply createContentSlide_appends).
  rewrite fillFirstPage_appends. reflexivity.
Qed.

Lemma nonempty_Some (x : option jsstring) (s : jsstring) :
  nonempty x = Some s -> x = Some s.
Proof.
  destruct x as [[|c r]|]; simpl; intro H; try discriminate; exact H.
Qed.

Lemma asPlaceholder_objectId (ty : jsstring) (el : PageElement.t)
    (p : PlaceholderInfo.t) :
  asPlaceholder ty el = Some p ->
  PageElement.objectId el = Some (PlaceholderInfo.objectId p).
Proof.
  unfold asPlaceholder.
  destruct (nonempty (PageElement.objectId el)) as [oid|] eqn:H; [|discriminate].
  intro Hp. injection Hp as <-. simpl. apply nonempty_Some. exact H.
Qed.

(** A resolved title is an element of the page. *)
Lemma resolved_title_in (els : list PageElement.t) (t : PlaceholderInfo.t) :
  Placeholders.title (getTitleAndBodyPlaceholders (Some els)) = Some t ->
  exists el, In el els /\ PageElement.objectId el = Some (PlaceholderInfo.objectId t).
Proof.
  rewrite resolver_title. unfold scanPlaceholders. rewrite scan_title_from.
  unfold findLast. destruct (find _ (rev els)) as [el|] eqn:Hf; [|discriminate].
  intro H. apply find_some in Hf. destruct Hf as [Hin _].
  exists el. split; [apply in_rev; exact Hin|].
  apply (asPlaceholder_objectId _ _ _ H).
Qed.

(** A resolved body is an element of the page. *)
Lemma resolved_body_in (els : list PageElement.t) (b : PlaceholderInfo.t) :
  Placeholders.body (getTitleAndBodyPlaceholders (Some els)) = Some b ->
  exists el, In el els /\ PageElement.objectId el = Some (PlaceholderInfo.objectId b).
Proof.
  rewrite resolver_body. unfold scanPlaceholders. rewrite scan_body_from. simpl.
  destruct (find _ els) as [el|] eqn:Hf.
  - apply find_some in Hf. destruct Hf as [Hin Hid].
    apply andb_prop in Hid. destruct Hid as [Hid _]. unfold identified in Hid.
    destruct (asPlaceholder _ el) as [p|] eqn:Hp.
    + intro H. injection H as <-. exists el. split; [exact Hin|].
      apply (asPlaceholder_objectId _ _ _ Hp).
    + unfold asPlaceholder in Hp.
      destruct (nonempty (PageElement.objectId el)); discriminate.
  - unfold fallbackBody. destruct (nth_error els 1) as [el1|] eqn:H1; [|discriminate].
    intro H. exists el1. split; [apply (nth_error_In _ _ H1)|].
    apply (asPlaceholder_objectId _ _ _ H).
Qed.

Lemma elementIdsAt_intro (finalSlides : list Page.t) (k : nat)
    (els : list PageElement.t) (el : PageElement.t) (oid : jsstring) :
  pageElementsAt finalSlides k = Some els -> In el els ->
  PageElement.objectId el = Some oid -> In oid (elementIdsAt finalSlides k).
Proof.
  intros Hk Hin Hid. unfold elementIdsAt. rewrite Hk. simpl.
  apply in_flat_map. exists el. split; [exact Hin|]. rewrite Hid. left. reflexivity.
Qed.

(** The requests of a content slide address elements of its own page. *)
Lemma contentOps_targets (slides : list SlideContent.t)
    (finalSlides : list Page.t) (i : nat) (r : Request) :
  In r (contentOps slides finalSlides i) ->
  In (target r) (elementIdsAt finalSlides (1 + i)).
Proof.
  unfold contentOps, titleOps, bodyOps, replaceText. cbv zeta.
  destruct (pageElementsAt finalSlides (1 + i)) as [els|] eqn:Hk;
    [|simpl; intros []].
  intro H. apply in_app_or in H. destruct H as [H|H].
  - destruct (Placeholders.title _) as [t|] eqn:Ht; [|destruct H].
    destruct (resolved_title_in els t Ht) as [el [Hin Hid]].
    assert (target r = PlaceholderInfo.objectId t) as ->
      by (destruct H as [<-|[<-|[]]]; reflexivity).
    exact (elementIdsAt_intro finalSlides (1 + i) els el _ Hk Hin Hid).
  - destruct (Placeholders.body _) as [b|] eqn:Hb; [|destruct H].
    destruct (truthy _); [|destruct H].
    destruct (resolved_body_in els b Hb) as [el [Hin Hid]].
    assert (target r = PlaceholderInfo.objectId b) as ->
      by (destruct H as [<-|[<-|[]]]; reflexivity).
    exact (elementIdsAt_intro finalSlides (1 + i) els el _ Hk Hin Hid).
Qed.

(** C3 (amended).  On the template path the fill batch is the title-page
    requests followed by the requests of the content slides.  The
    title-page requests are delete-then-insert of the deck title on the
    title placeholder of page 0, or nothing; they do not depend on any
    slide.  The requests of content slide [i] address elements of page
    [1 + i].  So when no element identifier of page 0 occurs on a content
    page, the only requests of the fill batch that address page 0 are the
    two that write the deck title.  On the blank path page 0 doubles as the
    first content slide: it receives the composed body of [slides[0]] on
    its body element whenever one is resolved and the text is not empty. *)
Theorem title_page_title_only (title : jsstring) (slides : list SlideContent.t)
    (finalSlides : list Page.t) (pageElements : list PageElement.t) :
  fillRequests title slides finalSlides =
    titleOps (getTitleAndBodyPlaceholders (pageElementsAt finalSlides 0)) title
    ++ flat_map (contentOps slides finalSlides) (seq 0 (length slides))
  /\ (forall r : Request,
        (forall i oid, i < length slides ->
                       In oid (elementIdsAt finalSlides 0) ->
                       ~ In oid (elementIdsAt finalSlides (1 + i))) ->
        In r (fillRequests title slides finalSlides) ->
        In (target r) (elementIdsAt finalSlides 0) ->
        exists t : PlaceholderInfo.t,
          Placeholders.title
            (getTitleAndBodyPlaceholders (pageElementsAt finalSlides 0)) = Some t
          /\ In r (replaceText (PlaceholderInfo.objectId t) title))
  /\ fillFirstPage title slides pageElements [] =
     firstPageOps title slides pageElements.
Proof.
  split; [apply fillRequests_decomposed|]. split.
  - intros r Hdisj Hin H0. rewrite fillRequests_decomposed in Hin.
    apply in_app_or in Hin. destruct Hin as [Hin|Hin].
    + unfold titleOps in Hin.
      destruct (Placeholders.title _) as [t|]; [|destruct Hin].
      exists t. split; [reflexivity | exact Hin].
    + apply in_flat_map in Hin. destruct Hin as [i [Hi Hr]].
      apply in_seq in Hi. apply contentOps_targets in Hr.
      exfalso. apply (Hdisj i (target r)); [lia | exact H0 | exact Hr].
  - apply (fillFirstPage_appends title slides pageElements []).
Qed.

Lemma title_page_title_only_witness :
  In (insertText (str "t0") (str "Deck") 0)
     (fillRequests (str "Deck") [Sample.titled "A"]
        [Sample.titlePage; Sample.layoutPage; Sample.closingPage])
  /\ exists t : PlaceholderInfo.t,
       Placeholders.title
         (getTitleAndBodyPlaceholders
            (pageElementsAt [Sample.titlePage; Sample.layoutPage; Sample.closingPage] 0))
       = Some t
       /\ In (insertText (str "t0") (str "Deck") 0)
             (replaceText (PlaceholderInfo.objectId t) (str "Deck")).
Proof.
  split; [right; left; reflexivity|].
  apply (proj1 (proj2 (title_page_title_only (str "Deck") [Sample.titled "A"]
                         [Sample.titlePage; Sample.layoutPage; Sample.closingPage] []))).
  - intros i oid Hi H0 H1. assert (i = 0) as -> by (simpl in Hi; lia).
    vm_compute in H0, H1.
    destruct H0 as [<-|[<-|[]]]; destruct H1 as [H1|[H1|[]]]; discriminate H1.
  - right; left; reflexivity.
  - left; reflexivity.
Defined.

(** C3, as stated, fails on the blank path: the first page, with a TITLE and
    a SUBTITLE placeholder, receives the body text of the first slide. *)
Lemma blank_first_page_receives_body :
  log (fst (createPresentationFromContent (host := Scripted.host)
              Sample.oneSlideDeck false
              (init (Scripted.serving [[Sample.titlePage]]))))
  = [EvCreate (str "Deck") (inr (Some (str "doc")));
     EvGet (str "doc") fieldsSlides (inr (Some [Sample.titlePage]));
     EvBatchUpdate (str "doc")
       [insertText (str "t0") (str "A") 0; insertText (str "s0") (str "x") 0]
       (inr tt)]
  /\ snd (firstPagePlaceholders
            [Sample.tagged "t0" "TITLE"; Sample.tagged "s0" "SUBTITLE"])
     = Some (str "s0").
Proof.
  split; reflexivity.
Qed.

(** C7 (amended).  For a content slide of the template path whose composed
    body text is empty, the body step emits nothing: the slide contributes
    the title requests alone.  Hence no request addresses the body
    placeholder, provided the body placeholder is not the very element that
    was resolved as title. *)
Theorem empty_body_emits_no_body_fill (slides : list SlideContent.t)
    (finalSlides : list Page.t) (acc : list Request) (i : nat) :
  buildSlideBodyText (nullish (nth_error slides i) SlideContent.empty) = [] ->
  fillContentSlide slides finalSlides acc i =
    acc ++ titleOps (getTitleAndBodyPlaceholders (pageElementsAt finalSlides (1 + i)))
                    (slideTitleOf (nth_error slides i))
  /\ (forall b : PlaceholderInfo.t,
        Placeholders.body
          (getTitleAndBodyPlaceholders (pageElementsAt finalSlides (1 + i))) = Some b ->
        (forall t : PlaceholderInfo.t,
           Placeholders.title
             (getTitleAndBodyPlaceholders (pageElementsAt finalSlides (1 + i))) = Some t ->
           PlaceholderInfo.objectId t <> PlaceholderInfo.objectId b) ->
        forall r : Request,
          In r (fillContentSlide slides finalSlides [] i) ->
          target r <> PlaceholderInfo.objectId b).
Proof.
  intro Hempty.
  assert (Hops : contentOps slides finalSlides i =
                 titleOps (getTitleAndBodyPlaceholders
                             (pageElementsAt finalSlides (1 + i)))
                          (slideTitleOf (nth_error slides i))).
  { unfold contentOps, bodyOps. cbv zeta. rewrite Hempty.
    change (truthy []) with false.
    destruct (Placeholders.body _); rewrite app_nil_r; reflexivity. }
  split.
  - rewrite fillContentSlide_appends, Hops. reflexivity.
  - intros b Hb Hdistinct r Hr.
    rewrite fillContentSlide_appends, Hops, app_nil_l in Hr.
    unfold titleOps in Hr.
    destruct (Placeholders.title _) as [t|]; [|destruct Hr].
    specialize (Hdistinct t eq_refl).
    destruct Hr as [<-|[<-|[]]]; exact Hdistinct.
Qed.

Lemma empty_body_emits_no_body_fill_witness :
  buildSlideBodyText
    (nullish (nth_error [Sample.titled "Hello"] 0) SlideContent.empty) = []
  /\ fillContentSlide [Sample.titled "Hello"] Sample.template3 [] 0 =
     [deleteText (str "t1"); insertText (str "t1") (str "Hello") 0].
Proof.
  split; [reflexivity|].
  exact (proj1 (empty_body_emits_no_body_fill [Sample.titled "Hello"]
                  Sample.template3 [] 0 eq_refl)).
Defined.

(** C7, as stated, fails when the positional fallback resolves the body to
    the TITLE element itself: on a layout made of a picture and a title
    placeholder the body placeholder is [t1], and a slide without any body
    content still has [t1] emptied and rewritten. *)
Lemma empty_body_rewrites_fallback_body :
  buildSlideBodyText (Sample.titled "Hello") = []
  /\ Placeholders.body
       (getTitleAndBodyPlaceholders
          (pageElementsAt
             [Sample.titlePage; Sample.titleOnlyLayout; Sample.closingPage] 1))
     = Some (PlaceholderInfo.mk (str "t1") (str "BODY"))
  /\ fillContentSlide [Sample.titled "Hello"]
       [Sample.titlePage; Sample.titleOnlyLayout; Sample.closingPage] [] 0
     = [deleteText (str "t1"); insertText (str "t1") (str "Hello") 0].
Proof.
  repeat split; reflexivity.
Qed.

Lemma existsb_flat_map_false {A B : Type} (p : B -> bool) (f : A -> list B)
    (l : list A) :
  (forall x, existsb p (f x) = false) -> existsb p (flat_map f l) = false.
Proof.
  intro H. induction l as [|x l IH]; [reflexivity|].
  simpl. rewrite existsb_app, H, IH. reflexivity.
Qed.

Lemma firstPageOps_no_deleteText (title : jsstring) (slides : list SlideContent.t)
    (pageElements : list PageElement.t) :
  existsb isDeleteText (firstPageOps title slides pageElements) = false.
Proof.
  unfold firstPageOps. cbv zeta. rewrite existsb_app.
  destruct (nonempty (fst _)); destruct (nonempty (snd _));
    try destruct (truthy _); reflexivity.
Qed.

Lemma blankSlideOps_no_deleteText (slide : SlideContent.t) (i : nat) :
  existsb isDeleteText (blankSlideOps slide i) = false.
Proof.
  unfold blankSlideOps. cbv zeta. rewrite !existsb_app.
  destruct (truthy (optTrim _)); destruct (truthy (buildSlideBodyText _));
    reflexivity.
Qed.

Lemma contentOps_with_title (slides : list SlideContent.t)
    (finalSlides : list Page.t) (i : nat) (t : PlaceholderInfo.t) :
  Placeholders.title
    (getTitleAndBodyPlaceholders (pageElementsAt finalSlides (1 + i))) = Some t ->
  contentOps slides finalSlides i =
  deleteText (PlaceholderInfo.objectId t)
  :: insertText (PlaceholderInfo.objectId t) (slideTitleOf (nth_error slides i)) 0
  :: bodyOps (getTitleAndBodyPlaceholders (pageElementsAt finalSlides (1 + i)))
             (buildSlideBodyText (nullish (nth_error slides i) SlideContent.empty)).
Proof.
  intro Ht. unfold contentOps, titleOps. cbv zeta. rewrite Ht. reflexivity.
Qed.

(** C8 (amended).  On the template path the fill batch is the title-page
    requests followed, for each content slide [i] in order, by
    delete-then-insert of the trimmed slide title (empty when the slide has
    none) on the title placeholder of page [1 + i] if there is one, then by
    the body step.  The body step is delete-then-insert of the composed
    body on the body placeholder exactly when there is a body placeholder
    and the text is not empty, and nothing otherwise.  So, when the body
    placeholder is not the very element resolved as title, the requests of
    the slide that address it are that pair if the text is not empty and
    none if it is; when the positional fallback resolves the body to the
    title element, that element receives the title pair whatever the body
    text.  On the blank path no delete-text is ever emitted: each slide
    [i >= 1] gets a new page with two text boxes, and a box receives an
    insert-text only when its text is not empty. *)
Theorem content_fill_shape (title : jsstring) (slides : list SlideContent.t)
    (finalSlides : list Page.t) (pageElements : list PageElement.t) :
  fillRequests title slides finalSlides =
    titleOps (getTitleAndBodyPlaceholders (pageElementsAt finalSlides 0)) title
    ++ flat_map (contentOps slides finalSlides) (seq 0 (length slides))
  /\ (forall (i : nat) (t : PlaceholderInfo.t),
        i < length slides ->
        Placeholders.title
          (getTitleAndBodyPlaceholders (pageElementsAt finalSlides (1 + i))) = Some t ->
        exists pre post : list Request,
          fillRequests title slides finalSlides =
          pre ++ deleteText (PlaceholderInfo.objectId t)
              :: insertText (PlaceholderInfo.objectId t)
                            (slideTitleOf (nth_error slides i)) 0
              :: post)
  /\ (forall (acc : list Request) (i : nat) (b : PlaceholderInfo.t),
        Placeholders.body
          (getTitleAndBodyPlaceholders (pageElementsAt finalSlides (1 + i))) = Some b ->
        truthy (buildSlideBodyText
                  (nullish (nth_error slides i) SlideContent.empty)) = true ->
        fillContentSlide slides finalSlides acc i =
        acc ++ titleOps (getTitleAndBodyPlaceholders
                           (pageElementsAt finalSlides (1 + i)))
                        (slideTitleOf (nth_error slides i))
            ++ [deleteText (PlaceholderInfo.objectId b);
                insertText (PlaceholderInfo.objectId b)
                           (buildSlideBodyText
                              (nullish (nth_error slides i) SlideContent.empty))
                           0])
  /\ (forall (acc : list Request) (i : nat),
        Placeholders.body
          (getTitleAndBodyPlaceholders (pageElementsAt finalSlides (1 + i))) = None
        \/ truthy (buildSlideBodyText
                     (nullish (nth_error slides i) SlideContent.empty)) = false ->
        fillContentSlide slides finalSlides acc i =
        acc ++ titleOps (getTitleAndBodyPlaceholders
                           (pageElementsAt finalSlides (1 + i)))
                        (slideTitleOf (nth_error slides i)))
  /\ (forall (i : nat) (b : PlaceholderInfo.t),
        Placeholders.body
          (getTitleAndBodyPlaceholders (pageElementsAt finalSlides (1 + i))) = Some b ->
        (forall t : PlaceholderInfo.t,
           Placeholders.title
             (getTitleAndBodyPlaceholders (pageElementsAt finalSlides (1 + i))) = Some t ->
           PlaceholderInfo.objectId t <> PlaceholderInfo.objectId b) ->
        filter (addresses (PlaceholderInfo.objectId b))
               (fillContentSlide slides finalSlides [] i)
        = if truthy (buildSlideBodyText
                       (nullish (nth_error slides i) SlideContent.empty))
          then [deleteText (PlaceholderInfo.objectId b);
                insertText (PlaceholderInfo.objectId b)
                           (buildSlideBodyText
                              (nullish (nth_error slides i) SlideContent.empty))
                           0]
          else [])
  /\ blankRequests title slides pageElements =
     firstPageOps title slides pageElements
     ++ flat_map (fun i => match nth_error slides i with
                           | Some slide => blankSlideOps slide i
                           | None => []
                           end)
                 (seq 1 (length slides - 1))
  /\ existsb isDeleteText (blankRequests title slides pageElements) = false.
Proof.
  split; [apply fillRequests_decomposed|].
  split; [|split; [|split; [|split; [|split]]]].
  - intros i t Hi Ht. rewrite fillRequests_decomposed.
    assert (Hsplit : seq 0 (length slides) =
                     seq 0 i ++ i :: seq (S i) (length slides - S i)).
    { replace (length slides) with (i + S (length slides - S i)) at 1 by lia.
      rewrite seq_app. reflexivity. }
    exists (titleOps (getTitleAndBodyPlaceholders (pageElementsAt finalSlides 0))
                     title
            ++ flat_map (contentOps slides finalSlides) (seq 0 i)).
    exists (bodyOps (getTitleAndBodyPlaceholders (pageElementsAt finalSlides (1 + i)))
                    (buildSlideBodyText
                       (nullish (nth_error slides i) SlideContent.empty))
            ++ flat_map (contentOps slides finalSlides)
                        (seq (S i) (length slides - S i))).
    rewrite Hsplit, flat_map_app, <- app_assoc. f_equal. f_equal.
    change (flat_map (contentOps slides finalSlides)
                     (i :: seq (S i) (length slides - S i)))
      with (contentOps slides finalSlides i
            ++ flat_map (contentOps slides finalSlides)
                        (seq (S i) (length slides - S i))).
    rewrite (contentOps_with_title slides finalSlides i t Ht). reflexivity.
  - intros acc i b Hb Htext.
    rewrite fillContentSlide_appends. unfold contentOps, bodyOps. cbv zeta.
    rewrite Hb, Htext. reflexivity.
  - intros acc i Hnone.
    rewrite fillContentSlide_appends. unfold contentOps, bodyOps. cbv zeta.
    destruct Hnone as [Hnone|Hempty].
    + rewrite Hnone, app_nil_r. reflexivity.
    + rewrite Hempty.
      destruct (Placeholders.body _); rewrite app_nil_r; reflexivity.
  - intros i b Hb Hdistinct.
    rewrite fillContentSlide_appends, app_nil_l.
    unfold contentOps, titleOps, bodyOps, replaceText. cbv zeta.
    rewrite Hb, filter_app.
    assert (Htitle :
              filter (addresses (PlaceholderInfo.objectId b))
                match Placeholders.title
                        (getTitleAndBodyPlaceholders
                           (pageElementsAt finalSlides (1 + i))) with
                | Some t =>
                    [deleteText (PlaceholderInfo.objectId t);
                     insertText (PlaceholderInfo.objectId t)
                                (slideTitleOf (nth_error slides i)) 0]
                | None => []
                end = []).
    { destruct (Placeholders.title _) as [t|]; [|reflexivity].
      specialize (Hdistinct t eq_refl).
      unfold addresses. cbn [filter target].
      destruct (jsstring_eqb (PlaceholderInfo.objectId t)
                             (PlaceholderInfo.objectId b)) eqn:E;
        [apply jsstring_eqb_eq in E; contradiction | reflexivity]. }
    rewrite Htitle, app_nil_l.
    destruct (truthy _); [|reflexivity].
    unfold addresses. cbn [filter target].
    rewrite (proj2 (jsstring_eqb_eq (PlaceholderInfo.objectId b)
                                    (PlaceholderInfo.objectId b)) eq_refl).
    reflexivity.
  - apply blankRequests_decomposed.
  - rewrite blankRequests_decomposed, existsb_app, firstPageOps_no_deleteText.
    simpl. apply existsb_flat_map_false. intro i.
    destruct (nth_error slides i); [apply blankSlideOps_no_deleteText | reflexivity].
Qed.

Lemma content_fill_shape_witness :
  0 < length [Sample.titled "A"]
  /\ (exists pre post : list Request,
        fillRequests (str "Deck") [Sample.titled "A"] Sample.template3 =
        pre ++ deleteText (str "t1") :: insertText (str "t1") (str "A") 0 :: post)
  /\ fillContentSlide [Sample.sxab] Sample.template3 [] 0
     = [deleteText (str "t1"); insertText (str "t1") [] 0;
        deleteText (str "b1");
        insertText (str "b1") (buildSlideBodyText Sample.sxab) 0]
  /\ filter (addresses (str "b1"))
            (fillContentSlide [Sample.titled "A"] Sample.template3 [] 0) = [].
Proof.
  split; [simpl; lia|]. split; [|split].
  - exact (proj1 (proj2 (content_fill_shape (str "Deck") [Sample.titled "A"]
                           Sample.template3 []))
                 0 (PlaceholderInfo.mk (str "t1") (str "TITLE"))
                 (Nat.lt_0_succ 0) eq_refl).
  - exact (proj1 (proj2 (proj2 (content_fill_shape (str "Deck") [Sample.sxab]
                                  Sample.template3 [])))
                 [] 0 (PlaceholderInfo.mk (str "b1") (str "BODY"))
                 eq_refl eq_refl).
  - refine (proj1 (proj2 (proj2 (proj2 (proj2
              (content_fill_shape (str "Deck") [Sample.titled "A"]
                 Sample.template3 [])))))
              0 (PlaceholderInfo.mk (str "b1") (str "BODY")) eq_refl _).
    intros t Ht. injection Ht as <-. discriminate.
Defined.

(** C8, as stated, fails on the blank path: page 1 is created with the
    title box [title_2], and the batch holds neither a delete-text nor, the
    second slide having no title, an insert-text for it. *)
Lemma blank_content_page_not_cleared :
  log (fst (createPresentationFromContent (host := Scripted.host)
              Sample.twoSlideDeck false
              (init (Scripted.serving [[Sample.titlePage]]))))
  = [EvCreate (str "Deck") (inr (Some (str "doc")));
     EvGet (str "doc") fieldsSlides (inr (Some [Sample.titlePage]));
     EvBatchUpdate (str "doc")
       [insertText (str "t0") (str "A") 0;
        createSlide (str "slide_2") 1;
        createShape (str "title_2") (str "slide_2") 640 60 40 40;
        createShape (str "body_2") (str "slide_2") 640 380 40 120]
       (inr tt)].
Proof.
  reflexivity.
Qed.

(** ** Runs of the template path *)

Lemma nonempty_truthy (x : option jsstring) (s : jsstring) :
  nonempty x = Some s -> x = Some s /\ truthy s = true.
Proof.
  destruct x as [[|c r]|]; simpl; intro H; try discriminate.
  injection H as <-. split; reflexivity.
Qed.

Lemma positive_length_not_nil {A : Type} (l : list A) :
  (0 <? length l) = true -> l <> [].
Proof.
  destruct l; [discriminate | intros _ H; discriminate H].
Qed.

(** Closes a goal of [TemplateRun] with constructor [R] once the optional
    batches of [R] are resolved by the tests in the context. *)
Ltac by_run R :=
  let H := fresh in
  pose proof R as H; unfold batchEvents in H;
  repeat match goal with
         | E : (0 <? length _) = _ |- _ => rewrite E in H
         end;
  cbn [app] in H;
  apply H; solve [assumption | lia | apply positive_length_not_nil; assumption].

(** The run from the re-read on: the same after a structural batch and
    after none. *)
Ltac reread_and_fill args tid pid g layout :=
  let e2 := fresh "e" in
  let g2 := fresh "g" in
  let e3 := fresh "e" in
  let Hshort := fresh "Hshort" in
  let Hfill := fresh "Hfill" in
  match goal with
  | |- context [presentations_get pid fieldsSlides ?st] =>
      destruct (presentations_get pid fieldsSlides st) as [?s [e2|g2]];
      cbn [fst snd log store app]
  end;
  [ by_run (run_reread_rejected args tid pid g layout e2)
  | destruct (length (nullish g2 []) <? 1 + length (Args.slides args) + 1)
      eqn:Hshort; cbn [fst snd log store app];
    [ apply Nat.ltb_lt in Hshort;
      by_run (run_reread_short args tid pid g layout g2)
    | apply Nat.ltb_ge in Hshort;
      destruct (0 <? length (fillRequests (Args.title args) (Args.slides args)
                               (nullish g2 []))) eqn:Hfill;
      cbn [fst snd log store app];
      [ match goal with
        | |- context [presentations_batchUpdate pid ?r ?st] =>
            destruct (presentations_batchUpdate pid r st) as [?s [e3|[]]];
            cbn [fst snd log store app]
        end;
        [ by_run (run_fill_rejected args tid pid g layout g2 e3)
        | by_run (run_filled args tid pid g layout g2) ]
      | by_run (run_filled args tid pid g layout g2) ] ] ].

Lemma createFromTemplate_run {Store : Type} {host : Host Store}
    (args : Args.t) (s : Store) :
  TemplateRun args
    (nullish (Args.templatePresentationId args) DEFAULT_TEMPLATE_ID)
    (templateLog args s) (templateResult args s).
Proof.
  unfold templateLog, templateResult, createFromTemplate, bind, copy, get,
    batchUpdateIfAny, batchUpdate, call, init, throw, ret, push.
  cbn [store log].
  set (tid := nullish (Args.templatePresentationId args) DEFAULT_TEMPLATE_ID).
  destruct (drive_files_copy _ _ s) as [s1 [e|a]]; cbn [fst snd log store app].
  { apply run_copy_rejected. }
  destruct (nonempty a) as [pid|] eqn:Ha; cbn [fst snd log store app].
  2: { apply run_copy_without_id; exact Ha. }
  apply nonempty_truthy in Ha. destruct Ha as [-> Hpid].
  destruct (presentations_get pid fieldsSlides s1) as [s2 [e|g]];
    cbn [fst snd log store app].
  { apply run_read_rejected; exact Hpid. }
  destruct (length (nullish g []) <? 3) eqn:Hlen; cbn [fst snd log store app].
  { apply Nat.ltb_lt in Hlen. apply run_template_too_short; assumption. }
  apply Nat.ltb_ge in Hlen.
  fold (layoutIdOf (nullish g [])).
  destruct (layoutIdOf (nullish g [])) as [layout|] eqn:Hlayout;
    cbn [fst snd log store app].
  2: { apply run_layout_without_id; assumption. }
  destruct (0 <? length (structuralRequests layout (length (Args.slides args))
                           (nullish g []))) eqn:Hreq;
    cbn [fst snd log store app].
  - destruct (presentations_batchUpdate pid _ s2) as [s3 [e|[]]];
      cbn [fst snd log store app].
    { by_run (run_structure_rejected args tid pid g layout e). }
    reread_and_fill args tid pid g layout.
  - reread_and_fill args tid pid g layout.
Qed.

Lemma truthy_nonempty (pid : jsstring) :
  truthy pid = true -> nonempty (Some pid) = Some pid.
Proof.
  destruct pid; [discriminate | reflexivity].
Qed.

(** C9.  [createFromTemplate] first copies the template under the title of
    the request.  When the copy answers without a usable identifier the run
    fails with "Drive copy did not return file id" and the copy is the only
    call made.  When the first read shows fewer than three pages the run
    fails with "Default template must have at least 3 slides ..." after
    exactly those two calls: no batch is issued. *)
Theorem template_provisioning_failures {Store : Type} {host : Host Store}
    (args : Args.t) (s : Store) :
  (exists answer,
     nth_error (templateLog args s) 0 =
     Some (EvCopy (nullish (Args.templatePresentationId args) DEFAULT_TEMPLATE_ID)
                  (Args.title args) answer))
  /\ (forall (f n : jsstring) (a : option jsstring),
        nth_error (templateLog args s) 0 = Some (EvCopy f n (inr a)) ->
        nonempty a = None ->
        templateResult args s = inl (Error msgNoFileId)
        /\ templateLog args s = [EvCopy f n (inr a)])
  /\ (forall (pid fl : jsstring) (g : option (list Page.t)),
        nth_error (templateLog args s) 1 = Some (EvGet pid fl (inr g)) ->
        length (nullish g []) < 3 ->
        templateResult args s = inl (Error msgTooFewSlides)
        /\ length (templateLog args s) = 2
        /\ existsb isBatchUpdate (templateLog args s) = false).
Proof.
  pose proof (createFromTemplate_run args s) as R.
  remember (templateLog args s) as l eqn:Hl.
  remember (templateResult args s) as r eqn:Hr.
  clear Hl Hr.
  split; [destruct R; eexists; reflexivity|]. split.
  - intros f n a H0 Ha.
    destruct R; cbn [app nth_error] in H0; try discriminate H0;
      injection H0 as <- <- <-;
      try (rewrite truthy_nonempty in Ha by assumption; discriminate Ha).
    split; reflexivity.
  - intros pid' fl g' H1 Hg.
    destruct R; cbn [app nth_error] in H1; try discriminate H1;
      injection H1 as <- <- <-; try lia.
    repeat split.
Qed.

Lemma template_provisioning_failures_witness :
  (nonempty (@None jsstring) = None
   /\ templateResult (host := Scripted.host) Sample.oneSlideDeck
        Sample.copyWithoutId = inl (Error msgNoFileId))
  /\ (length [Sample.titlePage; Sample.closingPage] < 3
      /\ templateResult (host := Scripted.host) Sample.oneSlideDeck
           (Scripted.serving [[Sample.titlePage; Sample.closingPage]])
         = inl (Error msgTooFewSlides)
      /\ existsb isBatchUpdate
           (templateLog (host := Scripted.host) Sample.oneSlideDeck
              (Scripted.serving [[Sample.titlePage; Sample.closingPage]]))
         = false).
Proof.
  split.
  - split; [reflexivity|].
    exact (proj1 (proj1 (proj2 (template_provisioning_failures
                                  (host := Scripted.host)
                                  Sample.oneSlideDeck Sample.copyWithoutId))
                        (str "<YOUR_TEMPLATE_ID>") (str "Deck") None
                        eq_refl eq_refl)).
  - split; [simpl; lia|].
    pose proof (proj2 (proj2 (template_provisioning_failures
                                (host := Scripted.host) Sample.oneSlideDeck
                                (Scripted.serving
                                   [[Sample.titlePage; Sample.closingPage]])))
                      (str "doc") fieldsSlides
                      (Some [Sample.titlePage; Sample.closingPage])
                      eq_refl (Nat.lt_succ_diag_r 2)) as H.
    exact (conj (proj1 H) (proj2 (proj2 H))).
Defined.






Lemma middlePages_length (templateSlides : list Page.t) :
  length (middlePages templateSlides) = length templateSlides - 3.
Proof.
  unfold middlePages. rewrite length_firstn, length_skipn. lia.
Qed.




(** * Further properties *)

(** ** The body text and the resolver *)

Lemma truthy_true_iff (s : jsstring) : truthy s = true <-> s <> [].
Proof.
  destruct s; simpl; split; intro H; try discriminate; try reflexivity.
  exfalso. apply H. reflexivity.
Qed.

Lemma join_cons_nonempty (sep p : jsstring) (rest : list jsstring) :
  p <> [] -> join sep (p :: rest) <> [].
Proof.
  intros Hp. destruct p as [|c p]; [exfalso; apply Hp; reflexivity|].
  destruct rest; simpl; discriminate.
Qed.

(** X1.  The composed body text is empty exactly when the slide has nothing
    to say: the subtitle and the body are missing or made of white space
    only, and there is no bullet.  A single bullet, even a blank one, makes
    the text non-empty. *)
Theorem buildSlideBodyText_empty_iff (slide : SlideContent.t) :
  buildSlideBodyText slide = [] <->
  optTrim (SlideContent.subtitle slide) = []
  /\ optTrim (SlideContent.body slide) = []
  /\ nullish (SlideContent.bullets slide) [] = [].
Proof.
  rewrite buildSlideBodyText_composed. unfold composedBody, optTrim.
  destruct slide as [n t st bd bl nt].
  cbn [SlideContent.subtitle SlideContent.body SlideContent.bullets].
  assert (Hpart : forall x : option jsstring,
            (match x with
             | Some s => if truthy (trim s) then [trim s] else []
             | None => []
             end = []
             /\ match x with Some s => trim s | None => [] end = [])
            \/ (exists p, p <> []
                /\ match x with
                   | Some s => if truthy (trim s) then [trim s] else []
                   | None => []
                   end = [p]
                /\ match x with Some s => trim s | None => [] end = p)).
  { intros [s|]; [|left; split; reflexivity].
    destruct (trim s) as [|c r] eqn:Hs; simpl.
    - left; split; reflexivity.
    - right. exists (c :: r). repeat split. discriminate. }
  assert (Hbul : (match bl with
                  | Some (b :: bs) =>
                      [join LF (map (fun b0 => bulletPrefix ++ trim b0) (b :: bs))]
                  | _ => []
                  end = [] /\ nullish bl [] = [])
                 \/ (exists p, p <> []
                     /\ match bl with
                        | Some (b :: bs) =>
                            [join LF (map (fun b0 => bulletPrefix ++ trim b0) (b :: bs))]
                        | _ => []
                        end = [p]
                     /\ nullish bl [] <> [])).
  { destruct bl as [[|b bs]|]; try (left; split; reflexivity).
    right. eexists. split; [|split; [reflexivity|discriminate]].
    simpl map. apply join_cons_nonempty. discriminate. }
  destruct (Hpart st) as [[-> ->]|[p [Hp [-> ->]]]];
    destruct (Hpart bd) as [[-> ->]|[q [Hq [-> ->]]]];
    destruct Hbul as [[-> ->]|[u [Hu [-> Hbl]]]];
    cbn [app]; split;
    try (intros _; repeat split; reflexivity);
    try (intro H; exfalso; revert H; apply join_cons_nonempty; assumption);
    try (intros [H1 [H2 H3]]; exfalso;
         solve [apply Hp; assumption | apply Hq; assumption | apply Hbl; assumption]).
Qed.

Lemma asPlaceholder_inv (ty : jsstring) (el : PageElement.t)
    (p : PlaceholderInfo.t) :
  asPlaceholder ty el = Some p ->
  truthy (PlaceholderInfo.objectId p) = true /\ PlaceholderInfo.type p = ty.
Proof.
  unfold asPlaceholder.
  destruct (nonempty (PageElement.objectId el)) as [oid|] eqn:H; [|discriminate].
  intro Hp. injection Hp as <-. simpl. split; [|reflexivity].
  apply nonempty_truthy in H. apply H.
Qed.

Lemma typeIs_eq (ty : option jsstring) (lit : string) :
  typeIs ty lit = true -> ty = Some (str lit).
Proof.
  destruct ty as [s|]; simpl; [|discriminate].
  intro H. apply jsstring_eqb_eq in H. rewrite H. reflexivity.
Qed.

Lemma resolved_title_wellformed (pageElements : option (list PageElement.t))
    (p : PlaceholderInfo.t) :
  Placeholders.title (getTitleAndBodyPlaceholders pageElements) = Some p ->
  truthy (PlaceholderInfo.objectId p) = true
  /\ PlaceholderInfo.type p = str "TITLE".
Proof.
  destruct pageElements as [els|]; [|discriminate].
  rewrite resolver_title. unfold scanPlaceholders. rewrite scan_title_from.
  destruct (findLast _ els) as [el|]; [|discriminate].
  apply asPlaceholder_inv.
Qed.

Lemma resolved_body_wellformed (pageElements : option (list PageElement.t))
    (p : PlaceholderInfo.t) :
  Placeholders.body (getTitleAndBodyPlaceholders pageElements) = Some p ->
  truthy (PlaceholderInfo.objectId p) = true
  /\ (PlaceholderInfo.type p = str "BODY"
      \/ PlaceholderInfo.type p = str "SUBTITLE").
Proof.
  destruct pageElements as [els|]; [|discriminate].
  rewrite resolver_body. unfold scanPlaceholders. rewrite scan_body_from.
  cbn [Placeholders.body].
  destruct (find _ els) as [el|] eqn:Hf.
  - apply find_some in Hf. destruct Hf as [_ Hel].
    apply andb_prop in Hel. destruct Hel as [Hid Hhint].
    unfold identified in Hid. unfold bodyHint in Hhint.
    destruct (asPlaceholder _ el) as [q|] eqn:Hq.
    + intro H. injection H as <-. apply asPlaceholder_inv in Hq.
      destruct Hq as [Ht Hty]. split; [exact Ht|]. rewrite Hty.
      apply orb_prop in Hhint. destruct Hhint as [H|H];
        apply typeIs_eq in H; rewrite H; [left|right]; reflexivity.
    + unfold asPlaceholder in Hq.
      destruct (nonempty (PageElement.objectId el)); discriminate.
  - unfold fallbackBody. destruct (nth_error els 1) as [el1|]; [|discriminate].
    intro H. apply asPlaceholder_inv in H. destruct H as [Ht Hty].
    split; [exact Ht | left; exact Hty].
Qed.

(** X2.  Whatever the page, a placeholder that the resolver returns carries
    a non-empty identifier; a title has type TITLE and a body has type BODY
    or SUBTITLE (BODY when it comes from the positional fallback). *)
Theorem resolved_placeholders_wellformed
    (pageElements : option (list PageElement.t)) (p : PlaceholderInfo.t) :
  (Placeholders.title (getTitleAndBodyPlaceholders pageElements) = Some p ->
   truthy (PlaceholderInfo.objectId p) = true
   /\ PlaceholderInfo.type p = str "TITLE")
  /\ (Placeholders.body (getTitleAndBodyPlaceholders pageElements) = Some p ->
      truthy (PlaceholderInfo.objectId p) = true
      /\ (PlaceholderInfo.type p = str "BODY"
          \/ PlaceholderInfo.type p = str "SUBTITLE")).
Proof.
  split; [apply resolved_title_wellformed | apply resolved_body_wellformed].
Qed.

Lemma resolved_placeholders_wellformed_witness :
  Placeholders.body
    (getTitleAndBodyPlaceholders (Some Sample.untaggedPair))
  = Some (PlaceholderInfo.mk (str "b") (str "BODY"))
  /\ truthy (str "b") = true.
Proof.
  split; [reflexivity|].
  exact (proj1 (proj2 (resolved_placeholders_wellformed
                         (Some Sample.untaggedPair)
                         (PlaceholderInfo.mk (str "b") (str "BODY")))
                      eq_refl)).
Defined.

Lemma Permutation_filter_compat {A : Type} (p : A -> bool) (l l' : list A) :
  Permutation l l' -> Permutation (filter p l) (filter p l').
Proof.
  induction 1 as [|x l l' _ IH|x y l|l l' l'' _ IH1 _ IH2]; simpl.
  - constructor.
  - destruct (p x); [constructor|]; exact IH.
  - destruct (p x); destruct (p y); try apply Permutation_refl.
    apply perm_swap.
  - exact (Permutation_trans IH1 IH2).
Qed.

Lemma find_filter_singleton {A : Type} (p : A -> bool) (l : list A) (x : A) :
  filter p l = [x] -> find p l = Some x /\ findLast p l = Some x.
Proof.
  intro H. split.
  - induction l as [|a l IH]; simpl in *; [discriminate|].
    destruct (p a); [injection H as -> _; reflexivity | exact (IH H)].
  - unfold findLast.
    assert (Hr : filter p (rev l) = [x]) by (rewrite filter_rev, H; reflexivity).
    clear H. induction (rev l) as [|a r IH]; simpl in *; [discriminate|].
    destruct (p a); [injection Hr as -> _; reflexivity | exact (IH Hr)].
Qed.

(** X3.  On a page with exactly one identified TITLE element and exactly
    one identified BODY-or-SUBTITLE element the resolver returns these two,
    wherever they stand: every reordering of the elements gives the same
    answer. *)
Theorem resolver_position_independent (els els' : list PageElement.t)
    (t b : PageElement.t) :
  Permutation els els' ->
  filter (fun el => identified el && titleHint el) els = [t] ->
  filter (fun el => identified el && bodyHint el) els = [b] ->
  getTitleAndBodyPlaceholders (Some els') =
  Placeholders.mk
    (asPlaceholder (str "TITLE") t)
    (asPlaceholder (nullish (PageElement.placeholderType b) (str "BODY")) b).
Proof.
  intros Hperm Ht Hb.
  assert (Ht' : filter (fun el => identified el && titleHint el) els' = [t]).
  { apply Permutation_length_1_inv. rewrite <- Ht.
    apply Permutation_filter_compat. exact Hperm. }
  assert (Hb' : filter (fun el => identified el && bodyHint el) els' = [b]).
  { apply Permutation_length_1_inv. rewrite <- Hb.
    apply Permutation_filter_compat. exact Hperm. }
  apply find_filter_singleton in Ht'. destruct Ht' as [_ Hlast].
  apply find_filter_singleton in Hb'. destruct Hb' as [Hfirst _].
  pose proof (resolver_title els') as Htitle.
  unfold scanPlaceholders in Htitle. rewrite scan_title_from, Hlast in Htitle.
  pose proof (resolver_body els') as Hbody.
  unfold scanPlaceholders in Hbody. rewrite scan_body_from in Hbody.
  cbn [Placeholders.body] in Hbody. rewrite Hfirst in Hbody.
  assert (Hsome : exists q, asPlaceholder
                              (nullish (PageElement.placeholderType b) (str "BODY")) b
                            = Some q).
  { apply find_some in Hfirst. destruct Hfirst as [_ Hid].
    apply andb_prop in Hid. destruct Hid as [Hid _].
    unfold identified in Hid. unfold asPlaceholder.
    destruct (nonempty (PageElement.objectId b)); [eexists; reflexivity|discriminate]. }
  destruct Hsome as [q Hq]. rewrite Hq in Hbody. rewrite Hq.
  rewrite <- Htitle, <- Hbody.
  destruct (getTitleAndBodyPlaceholders (Some els')); reflexivity.
Qed.

Lemma resolver_position_independent_witness :
  getTitleAndBodyPlaceholders
    (Some [Sample.tagged "b1" "SUBTITLE"; Sample.untagged "x";
           Sample.tagged "t1" "TITLE"])
  = Placeholders.mk (Some (PlaceholderInfo.mk (str "t1") (str "TITLE")))
                    (Some (PlaceholderInfo.mk (str "b1") (str "SUBTITLE"))).
Proof.
  exact (resolver_position_independent
           [Sample.untagged "x"; Sample.tagged "b1" "SUBTITLE";
            Sample.tagged "t1" "TITLE"]
           [Sample.tagged "b1" "SUBTITLE"; Sample.untagged "x";
            Sample.tagged "t1" "TITLE"]
           (Sample.tagged "t1" "TITLE") (Sample.tagged "b1" "SUBTITLE")
           (perm_swap _ _ _) eq_refl eq_refl).
Defined.

(** ** The structural batch *)

Lemma pageIds_in_middle (templateSlides : list Page.t) (oid : jsstring) :
  In oid (pageIds (middlePages templateSlides)) ->
  exists (i : nat) (page : Page.t),
    2 <= i /\ i + 1 < length templateSlides
    /\ nth_error templateSlides i = Some page
    /\ Page.objectId page = Some oid.
Proof.
  unfold pageIds, middlePages. intro H.
  apply in_flat_map in H. destruct H as [page [Hin Hoid]].
  apply In_nth_error in Hin. destruct Hin as [j Hj].
  assert (Hlt : j < length templateSlides - 3).
  { assert (Hn : nth_error (firstn (length templateSlides - 3)
                                   (skipn 2 templateSlides)) j <> None)
      by (rewrite Hj; discriminate).
    apply nth_error_Some in Hn. rewrite length_firstn in Hn. lia. }
  rewrite nth_error_firstn in Hj.
  destruct (Nat.ltb_spec j (length templateSlides - 3)); [|lia].
  rewrite nth_error_skipn in Hj.
  exists (2 + j), page. repeat split; try lia; [exact Hj|].
  destruct (nonempty (Page.objectId page)) as [o|] eqn:Ho; [|destruct Hoid].
  destruct Hoid as [<-|[]]. apply nonempty_Some. exact Ho.
Qed.

(** X4.  The structural batch only ever duplicates the content layout and
    only ever deletes pages that lie strictly between the content layout
    and the last page: the title page (index 0), the content layout
    (index 1) and the closing page (index P - 1) are never named in a
    deletion, and the batch holds no other kind of request. *)
Theorem structuralRequests_confined (contentLayoutSlideId : jsstring) (N : nat)
    (templateSlides : list Page.t) (r : Request) :
  In r (structuralRequests contentLayoutSlideId N templateSlides) ->
  r = duplicateObject contentLayoutSlideId
  \/ exists (i : nat) (page : Page.t) (oid : jsstring),
       r = deleteObject oid
       /\ 2 <= i /\ i + 1 < length templateSlides
       /\ nth_error templateSlides i = Some page
       /\ Page.objectId page = Some oid.
Proof.
  rewrite structuralRequests_unfolded. intro H.
  apply in_app_or in H. destruct H as [H|H].
  - left. apply repeat_spec in H. exact H.
  - right. apply in_map_iff in H. destruct H as [oid [<- Hoid]].
    destruct (pageIds_in_middle templateSlides oid Hoid) as [i [page Hi]].
    exists i, page, oid. split; [reflexivity | exact Hi].
Qed.

Lemma structuralRequests_confined_witness :
  In (deleteObject (str "px"))
     (structuralRequests (str "p1") 2
        [Sample.titlePage; Sample.layoutPage; Sample.page "px" [];
         Sample.closingPage])
  /\ (deleteObject (str "px") = duplicateObject (str "p1")
      \/ exists (i : nat) (page : Page.t) (oid : jsstring),
           deleteObject (str "px") = deleteObject oid
           /\ 2 <= i
           /\ i + 1 < length [Sample.titlePage; Sample.layoutPage;
                              Sample.page "px" []; Sample.closingPage]
           /\ nth_error [Sample.titlePage; Sample.layoutPage;
                         Sample.page "px" []; Sample.closingPage] i = Some page
           /\ Page.objectId page = Some oid).
Proof.
  assert (H : In (deleteObject (str "px"))
                 (structuralRequests (str "p1") 2
                    [Sample.titlePage; Sample.layoutPage; Sample.page "px" [];
                     Sample.closingPage]))
    by (right; left; reflexivity).
  split; [exact H|].
  exact (structuralRequests_confined (str "p1") 2 _ _ H).
Defined.

(** ** The fill batch *)

Lemma Paired_app (l1 l2 : list Request) :
  Paired l1 -> Paired l2 -> Paired (l1 ++ l2).
Proof.
  induction 1 as [|oid text rest _ IH]; intro H2; [exact H2|].
  simpl. constructor. apply IH. exact H2.
Qed.

Lemma Paired_flat_map {A : Type} (f : A -> list Request) (l : list A) :
  (forall x, Paired (f x)) -> Paired (flat_map f l).
Proof.
  intro H. induction l as [|x l IH]; simpl; [constructor|].
  apply Paired_app; [apply H | exact IH].
Qed.

Lemma Paired_titleOps (ph : Placeholders.t) (text : jsstring) :
  Paired (titleOps ph text).
Proof.
  unfold titleOps, replaceText.
  destruct (Placeholders.title ph); repeat constructor.
Qed.

Lemma Paired_bodyOps (ph : Placeholders.t) (text : jsstring) :
  Paired (bodyOps ph text).
Proof.
  unfold bodyOps, replaceText.
  destruct (Placeholders.body ph); [destruct (truthy text)|]; repeat constructor.
Qed.

(** X5.  The fill batch of the template path is a sequence of pairs: every
    insertion is at index 0 and comes right after the deletion of the whole
    text of the same element, and nothing else is in the batch.  So each
    placeholder that is written is first emptied, and none is emptied
    without being written. *)
Theorem fillRequests_paired (title : jsstring) (slides : list SlideContent.t)
    (finalSlides : list Page.t) :
  Paired (fillRequests title slides finalSlides).
Proof.
  rewrite fillRequests_decomposed.
  apply Paired_app; [apply Paired_titleOps|].
  apply Paired_flat_map. intro i. unfold contentOps. cbv zeta.
  apply Paired_app; [apply Paired_titleOps | apply Paired_bodyOps].
Qed.

(** X6.  Every request of the fill batch addresses an element of one of the
    pages 0 to N of the re-read document, through a non-empty identifier.
    Pages beyond index N, the closing page among them, are not read, so
    their elements are addressed only if they share an identifier with an
    earlier page. *)
Theorem fillRequests_targets (title : jsstring) (slides : list SlideContent.t)
    (finalSlides : list Page.t) (r : Request) :
  In r (fillRequests title slides finalSlides) ->
  truthy (target r) = true
  /\ exists k : nat,
       k <= length slides /\ In (target r) (elementIdsAt finalSlides k).
Proof.
  rewrite fillRequests_decomposed. intro H.
  apply in_app_or in H. destruct H as [H|H].
  - unfold titleOps in H.
    destruct (pageElementsAt finalSlides 0) as [els|] eqn:H0;
      [|simpl in H; destruct H].
    destruct (Placeholders.title _) as [t|] eqn:Ht; [|destruct H].
    assert (target r = PlaceholderInfo.objectId t) as ->
      by (destruct H as [<-|[<-|[]]]; reflexivity).
    split.
    + exact (proj1 (resolved_title_wellformed (Some els) t Ht)).
    + exists 0. split; [lia|].
      destruct (resolved_title_in els t Ht) as [el [Hin Hid]].
      exact (elementIdsAt_intro finalSlides 0 els el _ H0 Hin Hid).
  - apply in_flat_map in H. destruct H as [i [Hi Hr]].
    apply in_seq in Hi. split.
    + unfold contentOps, titleOps, bodyOps in Hr. cbv zeta in Hr.
      apply in_app_or in Hr. destruct Hr as [Hr|Hr].
      * destruct (Placeholders.title _) as [t|] eqn:Ht; [|destruct Hr].
        assert (target r = PlaceholderInfo.objectId t) as ->
          by (destruct Hr as [<-|[<-|[]]]; reflexivity).
        exact (proj1 (resolved_title_wellformed _ t Ht)).
      * destruct (Placeholders.body _) as [b|] eqn:Hb; [|destruct Hr].
        destruct (truthy _); [|destruct Hr].
        assert (target r = PlaceholderInfo.objectId b) as ->
          by (destruct Hr as [<-|[<-|[]]]; reflexivity).
        exact (proj1 (resolved_body_wellformed _ b Hb)).
    + exists (1 + i). split; [lia|]. apply contentOps_targets in Hr. exact Hr.
Qed.

Lemma flat_map_length_le {A B : Type} (f : A -> list B) (k : nat) (l : list A) :
  (forall x, length (f x) <= k) -> length (flat_map f l) <= k * length l.
Proof.
  intro H. induction l as [|x l IH]; simpl; [lia|].
  rewrite length_app. specialize (H x). lia.
Qed.

(** X13.  The batches are bounded by the size of the request: the
    structural batch holds at most (N - 1) + (P - 3) requests, the fill
    batch at most 4 N + 2, and the batch of the blank path at most
    5 (N - 1) + 2. *)
Theorem batch_sizes (title layout : jsstring) (slides : list SlideContent.t)
    (templateSlides finalSlides : list Page.t)
    (pageElements : list PageElement.t) :
  length (structuralRequests layout (length slides) templateSlides)
    <= (length slides - 1) + (length templateSlides - 3)
  /\ length (fillRequests title slides finalSlides) <= 4 * length slides + 2
  /\ length (blankRequests title slides pageElements)
     <= 5 * (length slides - 1) + 2.
Proof.
  split; [|split].
  - rewrite structuralRequests_unfolded, length_app, repeat_length, length_map.
    assert (H : length (pageIds (middlePages templateSlides))
                <= length (middlePages templateSlides)).
    { unfold pageIds. induction (middlePages templateSlides) as [|p ps IH];
        simpl; [lia|].
      rewrite length_app. destruct (nonempty (Page.objectId p)); simpl; lia. }
    rewrite middlePages_length in H. lia.
  - rewrite fillRequests_decomposed, length_app.
    assert (H0 : length (titleOps (getTitleAndBodyPlaceholders
                                     (pageElementsAt finalSlides 0)) title) <= 2).
    { unfold titleOps. destruct (Placeholders.title _); simpl; lia. }
    pose proof (flat_map_length_le (contentOps slides finalSlides) 4
                  (seq 0 (length slides))) as H.
    rewrite length_seq in H.
    assert (Hk : forall i, length (contentOps slides finalSlides i) <= 4).
    { intro i. unfold contentOps, titleOps, bodyOps. cbv zeta.
      rewrite length_app.
      destruct (Placeholders.title _); destruct (Placeholders.body _);
        try destruct (truthy _); simpl; lia. }
    specialize (H Hk). lia.
  - rewrite blankRequests_decomposed, length_app.
    assert (H0 : length (firstPageOps title slides pageElements) <= 2).
    { unfold firstPageOps. cbv zeta. rewrite length_app.
      destruct (nonempty (fst _)); destruct (nonempty (snd _));
        try destruct (truthy _); simpl; lia. }
    pose proof (flat_map_length_le
                  (fun i => match nth_error slides i with
                            | Some slide => blankSlideOps slide i
                            | None => []
                            end) 5 (seq 1 (length slides - 1))) as H.
    rewrite length_seq in H.
    assert (Hk : forall i, length match nth_error slides i with
                                  | Some slide => blankSlideOps slide i
                                  | None => []
                                  end <= 5).
    { intro i. destruct (nth_error slides i) as [slide|]; [|simpl; lia].
      unfold blankSlideOps. cbv zeta. rewrite !length_app.
      destruct (truthy (optTrim _)); destruct (truthy (buildSlideBodyText _));
        simpl; lia. }
    specialize (H Hk). lia.
Qed.

Lemma fillRequests_targets_witness :
  In (insertText (str "b1") (str "x") 0)
     (fillRequests (str "Deck") (Args.slides Sample.oneSlideDeck) Sample.template3)
  /\ truthy (str "b1") = true.
Proof.
  assert (H : In (insertText (str "b1") (str "x") 0)
                 (fillRequests (str "Deck") (Args.slides Sample.oneSlideDeck)
                    Sample.template3))
    by (do 5 right; left; reflexivity).
  split; [exact H|].
  exact (proj1 (fillRequests_targets (str "Deck")
                  (Args.slides Sample.oneSlideDeck) Sample.template3
                  (insertText (str "b1") (str "x") 0) H)).
Defined.

(** ** The batch of the blank path *)

Lemma str_inj (a b : string) : str a = str b -> a = b.
Proof.
  unfold str. intro H.
  rewrite <- (string_of_list_ascii_of_string a),
          <- (string_of_list_ascii_of_string b).
  f_equal. revert H.
  generalize (list_ascii_of_string a) (list_ascii_of_string b).
  induction l as [|x l IH]; intros [|y l'] H; simpl in H; try discriminate;
    [reflexivity|].
  injection H as Hxy Hl. f_equal; [|exact (IH l' Hl)].
  rewrite <- (ascii_N_embedding x), <- (ascii_N_embedding y), Hxy. reflexivity.
Qed.

(** [String(n)] tells numbers apart. *)
Lemma decimal_inj (a b : nat) : decimal a = decimal b -> a = b.
Proof.
  unfold decimal. intro H. apply str_inj in H.
  apply Unsigned.to_uint_inj.
  assert (Hs : NilEmpty.uint_of_string (NilEmpty.string_of_uint (Nat.to_uint a))
               = NilEmpty.uint_of_string (NilEmpty.string_of_uint (Nat.to_uint b)))
    by (rewrite H; reflexivity).
  rewrite !NilEmpty.usu in Hs. injection Hs as Hs. exact Hs.
Qed.

Lemma jsstring_eqb_refl (a : jsstring) : jsstring_eqb a a = true.
Proof. apply jsstring_eqb_eq. reflexivity. Qed.

Lemma memberOf_intro (x : jsstring) (l : list jsstring) :
  In x l -> memberOf x l = true.
Proof.
  intro H. unfold memberOf. apply existsb_exists.
  exists x. split; [exact H | apply jsstring_eqb_refl].
Qed.

Lemma memberOf_absent (x : jsstring) (l : list jsstring) :
  (forall y, In y l -> y <> x) -> memberOf x l = false.
Proof.
  intro H. unfold memberOf.
  destruct (existsb (jsstring_eqb x) l) eqn:E; [|reflexivity].
  apply existsb_exists in E. destruct E as [y [Hin Heq]].
  apply jsstring_eqb_eq in Heq. exfalso. apply (H y Hin). symmetry. exact Heq.
Qed.

Lemma replay_app (existing : list jsstring) (l1 l2 : list Request) (made : Made) :
  replay existing made (l1 ++ l2) =
  match replay existing made l1 with
  | Some made' => replay existing made' l2
  | None => None
  end.
Proof.
  revert made. induction l1 as [|r l1 IH]; intro made; [reflexivity|].
  destruct r; simpl; try reflexivity;
    match goal with
    | |- context [if ?c then _ else _] => destruct c
    end; try reflexivity; apply IH.
Qed.

(** The identifiers that slide [i] of the blank path introduces. *)
Lemma slideId_not_box (a b : nat) :
  str "slide_" ++ decimal a <> str "title_" ++ decimal b
  /\ str "slide_" ++ decimal a <> str "body_" ++ decimal b
  /\ str "title_" ++ decimal a <> str "body_" ++ decimal b.
Proof.
  repeat split; intro H; cbv [str list_ascii_of_string map N_of_ascii N_of_digits app] in H;
    discriminate H.
Qed.

Lemma prefixed_decimal_inj (prefix : jsstring) (a b : nat) :
  prefix ++ decimal a = prefix ++ decimal b -> a = b.
Proof.
  intro H. apply app_inv_head in H. apply decimal_inj. exact H.
Qed.

Lemma replay_blankSlideOps (existing : list jsstring) (made : Made)
    (slide : SlideContent.t) (i : nat) :
  madeBelow i made ->
  replay existing made (blankSlideOps slide i) =
  Some (mkMade ((str "slide_" ++ decimal (i + 1)) :: pagesMade made)
               ((str "body_" ++ decimal (i + 1))
                :: (str "title_" ++ decimal (i + 1)) :: shapesMade made)).
Proof.
  intros [Hpages Hshapes].
  set (slideId := str "slide_" ++ decimal (i + 1)).
  set (titleId := str "title_" ++ decimal (i + 1)).
  set (bodyId := str "body_" ++ decimal (i + 1)).
  assert (Hfresh_page : forall y, In y (pagesMade made) ->
            y <> slideId /\ y <> titleId /\ y <> bodyId).
  { intros y Hy. destruct (Hpages y Hy) as [j [Hj ->]].
    destruct (slideId_not_box (j + 1) (i + 1)) as [H1 [H2 _]].
    repeat split; try assumption.
    intro H. apply prefixed_decimal_inj in H. lia. }
  assert (Hfresh_shape : forall y, In y (shapesMade made) ->
            y <> slideId /\ y <> titleId /\ y <> bodyId).
  { intros y Hy. destruct (Hshapes y Hy) as [j [Hj [->| ->]]].
    - destruct (slideId_not_box (i + 1) (j + 1)) as [H1 _].
      destruct (slideId_not_box (j + 1) (i + 1)) as [_ [_ H3]].
      repeat split; try assumption.
      + intro H. apply H1. symmetry. exact H.
      + intro H. apply prefixed_decimal_inj in H. lia.
    - destruct (slideId_not_box (i + 1) (j + 1)) as [_ [H2 H3]].
      repeat split.
      + intro H. apply H2. symmetry. exact H.
      + intro H. apply H3. symmetry. exact H.
      + intro H. apply prefixed_decimal_inj in H. lia. }
  destruct (slideId_not_box (i + 1) (i + 1)) as [Hst [Hsb Htb]].
  fold slideId titleId bodyId in Hst, Hsb, Htb.
  assert (H1 : memberOf slideId (pagesMade made ++ shapesMade made) = false).
  { apply memberOf_absent. intros y Hy. apply in_app_or in Hy.
    destruct Hy as [Hy|Hy]; [apply (Hfresh_page y Hy) | apply (Hfresh_shape y Hy)]. }
  assert (H2 : memberOf slideId (@cons jsstring slideId (pagesMade made)) = true)
    by (apply memberOf_intro; left; reflexivity).
  assert (H3 : memberOf titleId (@cons jsstring slideId (pagesMade made ++ shapesMade made))
               = false).
  { apply memberOf_absent. intros y Hy.
    change (In y ((slideId :: pagesMade made) ++ shapesMade made)) in Hy.
    apply in_app_or in Hy.
    destruct Hy as [[<-|Hy]|Hy];
      [exact Hst | apply (Hfresh_page y Hy) | apply (Hfresh_shape y Hy)]. }
  assert (H4 : memberOf bodyId
                 (@cons jsstring slideId
                    (pagesMade made ++ @cons jsstring titleId (shapesMade made)))
               = false).
  { apply memberOf_absent. intros y Hy.
    change (In y ((slideId :: pagesMade made) ++ titleId :: shapesMade made)) in Hy.
    apply in_app_or in Hy.
    destruct Hy as [[<-|Hy]|[<-|Hy]];
      [exact Hsb | apply (Hfresh_page y Hy) | exact Htb
       | apply (Hfresh_shape y Hy)]. }
  assert (H5 : memberOf titleId
                 (@cons jsstring bodyId (@cons jsstring titleId (shapesMade made)))
               = true)
    by (apply memberOf_intro; right; left; reflexivity).
  assert (H6 : memberOf bodyId
                 (@cons jsstring bodyId (@cons jsstring titleId (shapesMade made)))
               = true)
    by (apply memberOf_intro; left; reflexivity).
  unfold blankSlideOps. cbv zeta. fold slideId titleId bodyId.
  cbn [app replay pagesMade shapesMade].
  rewrite H1. cbn [replay pagesMade shapesMade app].
  rewrite H2, H3, H4. cbn [andb negb].
  destruct (truthy (optTrim (SlideContent.title slide)));
    destruct (truthy (buildSlideBodyText slide));
    cbn [app replay pagesMade shapesMade];
    rewrite ?H5, ?H6; reflexivity.
Qed.

Lemma replay_blank_slides (existing : list jsstring)
    (slides : list SlideContent.t) (len start : nat) (made : Made) :
  madeBelow start made ->
  start + len <= length slides ->
  exists made' : Made,
    replay existing made
      (flat_map (fun i => match nth_error slides i with
                          | Some slide => blankSlideOps slide i
                          | None => []
                          end) (seq start len)) = Some made'
    /\ madeBelow (start + len) made'
    /\ length (pagesMade made') = length (pagesMade made) + len
    /\ length (shapesMade made') = length (shapesMade made) + 2 * len.
Proof.
  revert start made. induction len as [|len IH]; intros start made Hinv Hlen.
  - exists made. simpl. rewrite Nat.add_0_r. repeat split; try lia; apply Hinv.
  - cbn [seq flat_map].
    destruct (nth_error slides start) as [slide|] eqn:Hs.
    2: { apply nth_error_None in Hs. lia. }
    rewrite replay_app, (replay_blankSlideOps existing made slide start Hinv).
    destruct (IH (S start)
                 (mkMade ((str "slide_" ++ decimal (start + 1)) :: pagesMade made)
                         ((str "body_" ++ decimal (start + 1))
                          :: (str "title_" ++ decimal (start + 1))
                          :: shapesMade made)))
      as [made' [Hr [Hinv' [Hp Hsh]]]].
    + destruct Hinv as [Hpages Hshapes]. split; cbn [pagesMade shapesMade].
      * intros x [<-|Hx]; [exists start; split; [lia | reflexivity]|].
        destruct (Hpages x Hx) as [j [Hj ->]]. exists j. split; [lia | reflexivity].
      * intros x [<-|[<-|Hx]];
          [exists start; split; [lia | right; reflexivity]
          |exists start; split; [lia | left; reflexivity]|].
        destruct (Hshapes x Hx) as [j [Hj Hx']]. exists j. split; [lia | exact Hx'].
    + lia.
    + exists made'. split; [exact Hr|].
      cbn [pagesMade shapesMade length] in Hp, Hsh.
      replace (start + S len) with (S start + len) by lia.
      repeat split; try apply Hinv'; lia.
Qed.

Lemma elementIds_intro (els : list PageElement.t) (el : PageElement.t)
    (oid : jsstring) :
  In el els -> PageElement.objectId el = Some oid -> In oid (elementIds els).
Proof.
  intros Hin Hid. unfold elementIds. apply in_flat_map.
  exists el. split; [exact Hin|]. rewrite Hid. left. reflexivity.
Qed.

Lemma findLast_in {A : Type} (p : A -> bool) (l : list A) (x : A) :
  findLast p l = Some x -> In x l.
Proof.
  unfold findLast. intro H. apply find_some in H. apply in_rev. apply H.
Qed.

(** The two identifiers that the scan of the first page answers belong to
    elements of that page. *)
Lemma firstPagePlaceholders_in (els : list PageElement.t) (oid : jsstring) :
  fst (firstPagePlaceholders els) = Some oid
  \/ snd (firstPagePlaceholders els) = Some oid ->
  In oid (elementIds els).
Proof.
  unfold firstPagePlaceholders. cbv zeta.
  pose proof (scan_first_title_from els (None, None)) as Ht.
  pose proof (scan_first_body_from els (None, None)) as Hb.
  destruct (fold_left classifyFirst els (None, None)) as [t b].
  cbn [fst snd] in *.
  assert (Htin : t = Some oid -> In oid (elementIds els)).
  { intro H. rewrite H in Ht.
    destruct (findLast titleHint els) as [el|] eqn:Hf; [|discriminate].
    apply (elementIds_intro els el); [exact (findLast_in _ _ _ Hf) | congruence]. }
  assert (Hbin : b = Some oid -> In oid (elementIds els)).
  { intro H. rewrite H in Hb. clear Ht Htin.
    destruct (findLast _ els) as [el|] eqn:Hf; [|discriminate].
    apply (elementIds_intro els el); [exact (findLast_in _ _ _ Hf) | congruence]. }
  destruct (nonempty b); [intros [H|H]; auto|].
  destruct (nth_error els 1) as [el1|] eqn:H1; cbn [fst snd];
    [|intros [H|H]; auto].
  intros [H|H]; [auto|].
  exact (elementIds_intro els el1 oid (nth_error_In _ _ H1) H).
Qed.

Lemma replay_firstPageOps (title : jsstring) (slides : list SlideContent.t)
    (els : list PageElement.t) (made : Made) :
  replay (elementIds els) made (firstPageOps title slides els) = Some made.
Proof.
  unfold firstPageOps. cbv zeta.
  assert (Hin : forall x oid, nonempty x = Some oid ->
                  x = fst (firstPagePlaceholders els)
                  \/ x = snd (firstPagePlaceholders els) ->
                  memberOf oid (shapesMade made) || memberOf oid (elementIds els)
                  = true).
  { intros x oid Hx Hor. apply nonempty_Some in Hx.
    rewrite (memberOf_intro oid (elementIds els)), orb_true_r; [reflexivity|].
    apply firstPagePlaceholders_in. destruct Hor as [<-|<-]; [left|right]; exact Hx. }
  destruct (nonempty (fst (firstPagePlaceholders els))) as [t|] eqn:Ht;
    destruct (nonempty (snd (firstPagePlaceholders els))) as [b|] eqn:Hb;
    try destruct (truthy _); cbn [app replay];
    rewrite ?(Hin _ t Ht (or_introl eq_refl)), ?(Hin _ b Hb (or_intror eq_refl));
    reflexivity.
Qed.

(** X7.  The batch of the blank path can be replayed from first to last:
    no page or shape is created twice, every shape is created on a page
    that an earlier request of the batch created, and every text goes into
    a shape created earlier or into an element of the first page as it was
    read.  The batch creates N - 1 pages and 2 (N - 1) text boxes. *)
Theorem blankRequests_replay (title : jsstring) (slides : list SlideContent.t)
    (pageElements : list PageElement.t) :
  exists made : Made,
    replay (elementIds pageElements) (mkMade [] [])
           (blankRequests title slides pageElements) = Some made
    /\ length (pagesMade made) = length slides - 1
    /\ length (shapesMade made) = 2 * (length slides - 1).
Proof.
  rewrite blankRequests_decomposed, replay_app, replay_firstPageOps.
  destruct slides as [|slide0 slides'] eqn:Hslides.
  { exists (mkMade [] []). repeat split. }
  rewrite <- Hslides.
  destruct (replay_blank_slides (elementIds pageElements) slides
              (length slides - 1) 1 (mkMade [] []))
    as [made [Hr [_ [Hp Hs]]]].
  - split; intros x [].
  - rewrite Hslides. simpl. lia.
  - exists made. split; [exact Hr|]. split; [exact Hp | exact Hs].
Qed.

(** ** Runs of the blank path *)

Lemma createBlank_run {Store : Type} {host : Host Store}
    (args : Args.t) (s : Store) :
  BlankRun args (fun error => handleGoogleApiError error toolName)
    (blankLog args s) (blankResult args s).
Proof.
  unfold blankLog, blankResult, createPresentationFromContent, rethrow,
    createBlank, bind, create, get, batchUpdateIfAny, batchUpdate, call, init,
    throw, ret, push.
  cbn [store log].
  destruct (presentations_create _ s) as [s1 [e|a]]; cbn [fst snd log store app].
  { apply blank_create_rejected. }
  destruct (nonempty a) as [pid|] eqn:Ha; cbn [fst snd log store app].
  2: { apply blank_create_without_id; exact Ha. }
  apply nonempty_truthy in Ha. destruct Ha as [-> Hpid].
  destruct (presentations_get pid fieldsSlides s1) as [s2 [e|g]];
    cbn [fst snd log store app].
  { apply blank_read_rejected; exact Hpid. }
  fold (firstPageElements g).
  destruct (0 <? length (blankRequests (Args.title args) (Args.slides args)
                           (firstPageElements g))) eqn:Hreq;
    cbn [fst snd log store app].
  - destruct (presentations_batchUpdate pid _ s2) as [s3 [e|[]]];
      cbn [fst snd log store app].
    + apply blank_batch_rejected;
        [exact Hpid | apply positive_length_not_nil; exact Hreq].
    + pose proof (blank_done args (fun error => handleGoogleApiError error toolName)
                    pid g Hpid) as R.
      unfold batchEvents in R. rewrite Hreq in R. exact R.
  - pose proof (blank_done args (fun error => handleGoogleApiError error toolName)
                  pid g Hpid) as R.
    unfold batchEvents in R. rewrite Hreq in R. exact R.
Qed.

(** Resolves the optional batches of a log both ways. *)
Ltac split_batches :=
  unfold batchEvents in *;
  repeat match goal with
         | |- context [0 <? ?n] => destruct (0 <? n)
         | H : context [0 <? ?n] |- _ => destruct (0 <? n)
         end.

(** X8.  Every failure of the blank path reaches the caller through
    [handleGoogleApiError] with the tool name
    [create_presentation_from_content]; what is handled is either the
    rejection of the last remote call, unchanged, or the engine's own error
    "Google API did not return presentationId". *)
Theorem blank_failures_handled {Store : Type} {host : Host Store}
    (args : Args.t) (s : Store) (x : Exn) :
  blankResult args s = inl x ->
  exists e : Exn,
    x = handleGoogleApiError e toolName
    /\ (e = Error msgNoPresentationId
        \/ exists (pre : list Event) (ev : Event),
             blankLog args s = pre ++ [ev] /\ rejection ev = Some e).
Proof.
  pose proof (createBlank_run args s) as R.
  remember (blankLog args s) as l eqn:Hl.
  remember (blankResult args s) as r eqn:Hr.
  clear Hl Hr. intro Hx.
  destruct R; try discriminate Hx; injection Hx as <-.
  - exists e. split; [reflexivity|]. right.
    exists [], (EvCreate (Args.title args) (inl e)). split; reflexivity.
  - eexists. split; [reflexivity|]. left. reflexivity.
  - exists e. split; [reflexivity|]. right.
    exists [EvCreate (Args.title args) (inr (Some pid))],
           (EvGet pid fieldsSlides (inl e)).
    split; reflexivity.
  - exists e. split; [reflexivity|]. right.
    eexists [_; _], _. split; reflexivity.
Qed.

Lemma blank_failures_handled_witness :
  blankResult (host := Scripted.host) Sample.oneSlideDeck Sample.copyWithoutId
  = inl (Handled (Error msgNoPresentationId) toolName)
  /\ exists e : Exn,
       Handled (Error msgNoPresentationId) toolName
       = handleGoogleApiError (Host := Scripted.host) e toolName
       /\ (e = Error msgNoPresentationId
           \/ exists (pre : list Event) (ev : Event),
                blankLog (host := Scripted.host) Sample.oneSlideDeck
                  Sample.copyWithoutId = pre ++ [ev]
                /\ rejection ev = Some e).
Proof.
  split; [reflexivity|].
  exact (blank_failures_handled (host := Scripted.host) Sample.oneSlideDeck
           Sample.copyWithoutId
           (Handled (Error msgNoPresentationId) toolName) eq_refl).
Defined.

(** X9.  The blank path makes at most three remote calls: it creates the
    presentation under the title of the request, reads it, and sends at
    most one batch.  It never copies a file, and it reads and updates only
    the presentation that the create call returned. *)
Theorem blank_run_calls {Store : Type} {host : Host Store}
    (args : Args.t) (s : Store) :
  (exists a, nth_error (blankLog args s) 0 = Some (EvCreate (Args.title args) a))
  /\ length (blankLog args s) <= 3
  /\ existsb isCopy (blankLog args s) = false
  /\ length (filter isBatchUpdate (blankLog args s)) <= 1
  /\ (forall (ev : Event) (p : jsstring),
        In ev (blankLog args s) -> addressed ev = Some p ->
        nth_error (blankLog args s) 0
        = Some (EvCreate (Args.title args) (inr (Some p)))).
Proof.
  pose proof (createBlank_run args s) as R.
  remember (blankLog args s) as l eqn:Hl.
  remember (blankResult args s) as r eqn:Hr.
  clear Hl Hr.
  destruct R; split_batches;
    cbn [app nth_error length existsb isCopy filter isBatchUpdate orb];
    (split; [eexists; reflexivity|]);
    (split; [lia|]); (split; [reflexivity|]); (split; [lia|]);
    intros ev p Hin Hp;
    repeat (destruct Hin as [<-|Hin]; [try discriminate Hp|]);
    try destruct Hin;
    cbn [addressed] in Hp; injection Hp as <-; reflexivity.
Qed.

Lemma blank_run_calls_witness :
  In (EvGet (str "doc") fieldsSlides (inr (Some [Sample.titlePage])))
     (blankLog (host := Scripted.host) Sample.oneSlideDeck
        (Scripted.serving [[Sample.titlePage]]))
  /\ nth_error (blankLog (host := Scripted.host) Sample.oneSlideDeck
                  (Scripted.serving [[Sample.titlePage]])) 0
     = Some (EvCreate (Args.title Sample.oneSlideDeck) (inr (Some (str "doc")))).
Proof.
  assert (H : In (EvGet (str "doc") fieldsSlides (inr (Some [Sample.titlePage])))
                 (blankLog (host := Scripted.host) Sample.oneSlideDeck
                    (Scripted.serving [[Sample.titlePage]])))
    by (right; left; reflexivity).
  split; [exact H|].
  exact (proj2 (proj2 (proj2 (proj2
           (blank_run_calls (host := Scripted.host) Sample.oneSlideDeck
              (Scripted.serving [[Sample.titlePage]])))))
           _ (str "doc") H eq_refl).
Defined.

(** ** Runs of the template path, continued *)

(** X10.  The template path makes at most five remote calls and sends at
    most two batches.  It never creates a blank presentation, and every
    read and every batch addresses the presentation that the copy call
    returned: the template itself is only ever copied. *)
Theorem template_run_calls {Store : Type} {host : Host Store}
    (args : Args.t) (s : Store) :
  length (templateLog args s) <= 5
  /\ existsb isCreate (templateLog args s) = false
  /\ length (filter isBatchUpdate (templateLog args s)) <= 2
  /\ (forall (ev : Event) (p : jsstring),
        In ev (templateLog args s) -> addressed ev = Some p ->
        nth_error (templateLog args s) 0
        = Some (EvCopy (nullish (Args.templatePresentationId args)
                                DEFAULT_TEMPLATE_ID)
                       (Args.title args) (inr (Some p)))).
Proof.
  pose proof (createFromTemplate_run args s) as R.
  remember (templateLog args s) as l eqn:Hl.
  remember (templateResult args s) as r eqn:Hr.
  clear Hl Hr.
  destruct R; split_batches;
    cbn [app nth_error length existsb isCreate filter isBatchUpdate orb];
    (split; [lia|]); (split; [reflexivity|]); (split; [lia|]);
    intros ev p Hin Hp;
    repeat (destruct Hin as [<-|Hin]; [try discriminate Hp|]);
    try destruct Hin;
    cbn [addressed] in Hp; injection Hp as <-; reflexivity.
Qed.

Lemma template_run_calls_witness :
  In (EvBatchUpdate (str "doc")
        [duplicateObject (str "p1"); duplicateObject (str "p1")] (inr tt))
     (templateLog (host := Scripted.host) Sample.threeSlideDeck
        (Scripted.serving [Sample.template3; Sample.restructured3]))
  /\ nth_error (templateLog (host := Scripted.host) Sample.threeSlideDeck
                  (Scripted.serving [Sample.template3; Sample.restructured3])) 0
     = Some (EvCopy (str "<YOUR_TEMPLATE_ID>") (str "Deck")
                    (inr (Some (str "doc")))).
Proof.
  assert (H : In (EvBatchUpdate (str "doc")
                    [duplicateObject (str "p1"); duplicateObject (str "p1")]
                    (inr tt))
                 (templateLog (host := Scripted.host) Sample.threeSlideDeck
                    (Scripted.serving [Sample.template3; Sample.restructured3])))
    by (right; right; left; reflexivity).
  split; [exact H|].
  exact (proj2 (proj2 (proj2
           (template_run_calls (host := Scripted.host) Sample.threeSlideDeck
              (Scripted.serving [Sample.template3; Sample.restructured3]))))
           _ (str "doc") H eq_refl).
Defined.

(** X11.  A failure of the template path is either one of the four errors
    the engine raises itself (no file id from the copy, fewer than three
    template pages, content layout without identifier, too few pages after
    restructuring) or the rejection of its last remote call, passed on
    unchanged: the [catch] block of [createPresentationFromContent] does
    not see it. *)
Theorem template_failures {Store : Type} {host : Host Store}
    (args : Args.t) (s : Store) (x : Exn) :
  snd (createPresentationFromContent args true (init s)) = inl x ->
  In x [Error msgNoFileId; Error msgTooFewSlides; Error msgNoLayoutId;
        Error msgNotEnoughSlides]
  \/ exists (pre : list Event) (ev : Event),
       templateLog args s = pre ++ [ev] /\ rejection ev = Some x.
Proof.
  change (snd (createPresentationFromContent args true (init s)))
    with (templateResult args s).
  pose proof (createFromTemplate_run args s) as R.
  remember (templateLog args s) as l eqn:Hl.
  remember (templateResult args s) as r eqn:Hr.
  clear Hl Hr. intro Hx.
  destruct R; try discriminate Hx; injection Hx as <-;
    try (left; cbn [In]; tauto);
    right; split_batches; cbn [app].
  - eexists [], _. split; reflexivity.
  - eexists [_], _. split; reflexivity.
  - eexists [_; _], _. split; reflexivity.
  - eexists [_; _; _], _. split; reflexivity.
  - eexists [_; _], _. split; reflexivity.
  - eexists [_; _; _; _], _. split; reflexivity.
  - eexists [_; _; _], _. split; reflexivity.
Qed.

Lemma template_failures_witness :
  snd (createPresentationFromContent (host := Scripted.host)
         Sample.threeSlideDeck true
         (init (Scripted.serving [Sample.template3; Sample.template3])))
  = inl (Error msgNotEnoughSlides)
  /\ (In (Error msgNotEnoughSlides)
         [Error msgNoFileId; Error msgTooFewSlides; Error msgNoLayoutId;
          Error msgNotEnoughSlides]
      \/ exists (pre : list Event) (ev : Event),
           templateLog (host := Scripted.host) Sample.threeSlideDeck
             (Scripted.serving [Sample.template3; Sample.template3])
           = pre ++ [ev]
           /\ rejection ev = Some (Error msgNotEnoughSlides)).
Proof.
  split; [reflexivity|].
  exact (template_failures (host := Scripted.host) Sample.threeSlideDeck
           (Scripted.serving [Sample.template3; Sample.template3])
           (Error msgNotEnoughSlides) eq_refl).
Defined.

(** X12.  In either mode a successful call returns the identifier that the
    first remote call (the copy or the create) answered with, which is not
    empty, the edit URL built from that identifier alone, and the title of
    the request unchanged. *)
Theorem created_result {Store : Type} {host : Host Store}
    (args : Args.t) (hasDrive : bool) (s : Store) (c : Created.t) :
  snd (createPresentationFromContent args hasDrive (init s)) = inr c ->
  truthy (Created.presentationId c) = true
  /\ Created.editUrl c =
     str "https://docs.google.com/presentation/d/"
     ++ Created.presentationId c ++ str "/edit"
  /\ Created.title c = Args.title args
  /\ exists ev : Event,
       nth_error (log (fst (createPresentationFromContent args hasDrive (init s)))) 0
       = Some ev
       /\ returnedId ev = Some (Created.presentationId c).
Proof.
  destruct hasDrive.
  - change (snd (createPresentationFromContent args true (init s)))
      with (templateResult args s).
    change (log (fst (createPresentationFromContent args true (init s))))
      with (templateLog args s).
    pose proof (createFromTemplate_run args s) as R.
    remember (templateLog args s) as l eqn:Hl.
    remember (templateResult args s) as r eqn:Hr.
    clear Hl Hr. intro Hc.
    destruct R; try discriminate Hc; injection Hc as <-.
    cbn [Created.presentationId Created.editUrl Created.title app nth_error].
    repeat split; [assumption|]. eexists. split; reflexivity.
  - change (snd (createPresentationFromContent args false (init s)))
      with (blankResult args s).
    change (log (fst (createPresentationFromContent args false (init s))))
      with (blankLog args s).
    pose proof (createBlank_run args s) as R.
    remember (blankLog args s) as l eqn:Hl.
    remember (blankResult args s) as r eqn:Hr.
    clear Hl Hr. intro Hc.
    destruct R; try discriminate Hc; injection Hc as <-.
    cbn [Created.presentationId Created.editUrl Created.title app nth_error].
    repeat split; [assumption|]. eexists. split; reflexivity.
Qed.

Lemma created_result_witness :
  snd (createPresentationFromContent (host := Scripted.host)
         Sample.oneSlideDeck false
         (init (Scripted.serving [[Sample.titlePage]])))
  = inr (Created.mk (str "doc") (editUrlOf (str "doc")) (str "Deck"))
  /\ truthy (str "doc") = true.
Proof.
  split; [reflexivity|].
  exact (proj1 (created_result (host := Scripted.host) Sample.oneSlideDeck false
                  (Scripted.serving [[Sample.titlePage]])
                  (Created.mk (str "doc") (editUrlOf (str "doc")) (str "Deck"))
                  eq_refl)).
Defined.

(** ** The tool registry *)

(** X14.  The registry and the dispatcher agree.  A name that is not the
    name of one of [TOOLS] is answered by [callTool] with the error result
    "Unknown tool: name", without any remote call and without throwing; a
    name of [TOOLS] other than [create_presentation_from_content] is handed
    to [executeTool] with one of the five other tools. *)
Theorem callTool_serves_the_registry {Store : Type} {host : Host Store}
    {runtime : Runtime Store} (name : jsstring) (args : Value) (drive : bool) :
  (advertised name = false ->
   forall w : World,
     callTool name args drive w
     = (w, inr (textResult (str "Unknown tool: " ++ name) (Some true))))
  /\ (advertised name = true ->
      name <> toolName ->
      exists tool : Tool, callTool name args drive = executeTool tool name args).
Proof.
  unfold advertised, callTool, toolName.
  cbn [TOOLS existsb ToolDefinition.name].
  destruct (jsstring_eqb name (str "create_presentation")) eqn:E1;
    destruct (jsstring_eqb name (str "create_presentation_from_content")) eqn:E2;
    destruct (jsstring_eqb name (str "get_presentation")) eqn:E3;
    destruct (jsstring_eqb name (str "batch_update_presentation")) eqn:E4;
    destruct (jsstring_eqb name (str "get_page")) eqn:E5;
    destruct (jsstring_eqb name (str "summarize_presentation")) eqn:E6;
    cbn [orb]; (split; [intro H; try discriminate H; intro w; reflexivity|]);
    intros H Hne; try discriminate H;
    try (apply jsstring_eqb_eq in E2; contradiction);
    eexists; reflexivity.
Qed.

Lemma callTool_serves_the_registry_witness :
  advertised (str "delete_presentation") = false
  /\ callTool (host := Scripted.host) (runtime := Stub.runtime)
       (str "delete_presentation") VUndefined true (init Sample.copyWithoutId)
     = (init Sample.copyWithoutId,
        inr (textResult (str "Unknown tool: delete_presentation") (Some true))).
Proof.
  split; [reflexivity|].
  exact (proj1 (callTool_serves_the_registry (host := Scripted.host)
                  (runtime := Stub.runtime)
                  (str "delete_presentation") VUndefined true)
               eq_refl (init Sample.copyWithoutId)).
Defined.

(** ** The MCP handler *)

Lemma getProp_defined (v : Value) (key : string) :
  v <> VNull -> v <> VUndefined -> getProp v key = inr (member v key).
Proof.
  intros H1 H2. destruct v; try reflexivity; contradiction.
Qed.

(** X15.  [handleMcpRequest] rejects, that is throws instead of answering,
    in exactly two situations, and in both before any remote call.  The
    method is [tools/call] and [params] is [null]: the TypeError of reading
    [name] from [null] is thrown.  Or the method is none of the four known
    ones and cannot be converted to a string for the "Method not found"
    message, as an object with an own [toString] key cannot: the TypeError
    of that conversion is thrown.  In every other case it answers. *)
Theorem handleMcpRequest_rejections {Store : Type}
    {host : Host Store} {runtime : Runtime Store}
    (body : Value) (drive : bool) (w : World) :
  (isJsonRpcBody body = true ->
   isString (member body "method") "tools/call" = true ->
   member body "params" = VNull ->
   handleMcpRequest body drive w
   = (w, inl (Error (str "Cannot read properties of null (reading 'name')"))))
  /\ (forall e : Exn,
        isJsonRpcBody body = true ->
        knownMethod (member body "method") = false ->
        toText (member body "method") = inl e ->
        handleMcpRequest body drive w = (w, inl e))
  /\ (forall e : Exn,
        snd (handleMcpRequest body drive w) = inl e ->
        fst (handleMcpRequest body drive w) = w
        /\ isJsonRpcBody body = true
        /\ ((isString (member body "method") "tools/call" = true
             /\ member body "params" = VNull
             /\ e = Error (str "Cannot read properties of null (reading 'name')"))
            \/ (knownMethod (member body "method") = false
                /\ toText (member body "method") = inl e))).
Proof.
  unfold handleMcpRequest, knownMethod.
  destruct (isJsonRpcBody body) eqn:Hrpc; cbn [negb].
  2: { split; [discriminate|]. split; [discriminate|].
       intros e H. discriminate H. }
  assert (Hcall : isString (member body "method") "tools/call" = true ->
                  isString (member body "method") "initialize" = false
                  /\ isString (member body "method") "notifications/initialized" = false
                  /\ isString (member body "method") "tools/list" = false).
  { unfold isString. destruct (member body "method") as [| | | |m| |];
      try discriminate.
    intro H. apply jsstring_eqb_eq in H. subst m. repeat split. }
  split; [|split].
  - intros _ Hm Hp. destruct (Hcall Hm) as [H1 [H2 H3]].
    rewrite H1, H2, H3, Hm, Hp. reflexivity.
  - intros e _ Hknown Htext.
    apply orb_false_elim in Hknown. destruct Hknown as [Hknown H4].
    apply orb_false_elim in Hknown. destruct Hknown as [Hknown H3].
    apply orb_false_elim in Hknown. destruct Hknown as [H1 H2].
    rewrite H1, H2, H3, H4.
    unfold bind, attempt. rewrite Htext. reflexivity.
  - intros e.
    destruct (isString (member body "method") "initialize");
      [intro H; discriminate H|].
    destruct (isString (member body "method") "notifications/initialized");
      [intro H; discriminate H|].
    destruct (isString (member body "method") "tools/list");
      [intro H; discriminate H|].
    destruct (isString (member body "method") "tools/call").
    2: { unfold bind, attempt, ret.
         destruct (toText (member body "method")) as [e'|text];
           cbn [fst snd]; intro H; [|discriminate H].
         injection H as <-. split; [reflexivity|]. split; [reflexivity|].
         right. split; reflexivity. }
    unfold bind, attempt, tryCatch, ret.
    destruct (member body "params") as [| | | | | |fields] eqn:Hp;
      cbn [getProp member fst snd];
      try (intro H; injection H as <-; repeat split; left; repeat split);
      try (intro H; discriminate H).
    all: match goal with
         | |- context [lookup ?f "name"] =>
             destruct (lookup f "name") as [| | | |[|c n]| |]
         end;
      try (intro H; discriminate H);
      match goal with
      | |- context [callTool ?a ?b ?d ?x] =>
          destruct (callTool a b d x) as [w' [err|r]]
      end;
      intro H; discriminate H.
Qed.

Lemma handleMcpRequest_rejections_witness :
  handleMcpRequest (host := Scripted.host) (runtime := Stub.runtime)
    (Stub.rpc (VString (str "1")) "tools/call" VNull) true
    (init Sample.copyWithoutId)
  = (init Sample.copyWithoutId,
     inl (Error (str "Cannot read properties of null (reading 'name')")))
  /\ handleMcpRequest (host := Scripted.host) (runtime := Stub.runtime)
       (VObject [(str "id", VNumber (QArith_base.inject_Z 1));
                 (str "method",
                  VObject [(str "toString", VNumber (QArith_base.inject_Z 1))])])
       true (init Sample.copyWithoutId)
     = (init Sample.copyWithoutId,
        inl (Error (str "Cannot convert object to primitive value"))).
Proof.
  split.
  - exact (proj1 (handleMcpRequest_rejections (host := Scripted.host)
                    (runtime := Stub.runtime)
                    (Stub.rpc (VString (str "1")) "tools/call" VNull) true
                    (init Sample.copyWithoutId))
                 eq_refl eq_refl eq_refl).
  - exact (proj1 (proj2 (handleMcpRequest_rejections (host := Scripted.host)
                           (runtime := Stub.runtime)
                           (VObject
                              [(str "id", VNumber (QArith_base.inject_Z 1));
                               (str "method",
                                VObject [(str "toString",
                                          VNumber (QArith_base.inject_Z 1))])])
                           true (init Sample.copyWithoutId)))
                 _ eq_refl eq_refl eq_refl).
Defined.

(** X16.  Whatever [handleMcpRequest] answers is either the empty 202
    answer (to [notifications/initialized]) or a JSON-RPC 2.0 object that
    carries the [id] of the request ([null] when the request has none or is
    not a JSON-RPC body) and exactly one of [result], with status 200, and
    [error], with status 400 and one of the codes -32600, -32601, -32602. *)
Theorem handleMcpRequest_answers {Store : Type} {host : Host Store}
    {runtime : Runtime Store} (body : Value) (drive : bool) (w : World)
    (resp : Response.t) :
  snd (handleMcpRequest body drive w) = inr resp ->
  resp = Response.mk 202 None
  \/ exists v : Value,
       Response.body resp = Some v
       /\ member v "jsonrpc" = VString (str "2.0")
       /\ member v "id" = (if isJsonRpcBody body then requestId body else VNull)
       /\ ((Response.status resp = 200%Z
            /\ member v "error" = VUndefined
            /\ exists fields, member v "result" = VObject fields)
           \/ (Response.status resp = 400%Z
               /\ member v "result" = VUndefined
               /\ exists (code : Z) (message : jsstring),
                    member v "error"
                    = VObject [(str "code", VNumber (QArith_base.inject_Z code));
                               (str "message", VString message)]
                    /\ In code [-32600; -32601; -32602]%Z)).
Proof.
  assert (Hok : forall id fields,
    exists v : Value,
      Response.body (sendJsonRpcResponse id (VObject fields)) = Some v
      /\ member v "jsonrpc" = VString (str "2.0")
      /\ member v "id" = id
      /\ ((Response.status (sendJsonRpcResponse id (VObject fields)) = 200%Z
           /\ member v "error" = VUndefined
           /\ exists fields', member v "result" = VObject fields')
          \/ (Response.status (sendJsonRpcResponse id (VObject fields)) = 400%Z
              /\ member v "result" = VUndefined
              /\ exists (code : Z) (message : jsstring),
                   member v "error"
                   = VObject [(str "code", VNumber (QArith_base.inject_Z code));
                              (str "message", VString message)]
                   /\ In code [-32600; -32601; -32602]%Z))).
  { intros id fields. eexists. split; [reflexivity|].
    split; [reflexivity|]. split; [reflexivity|]. left.
    split; [reflexivity|]. split; [reflexivity|]. eexists. reflexivity. }
  assert (Herr : forall id code message,
    In code [-32600; -32601; -32602]%Z ->
    exists v : Value,
      Response.body (sendJsonRpcError id code message) = Some v
      /\ member v "jsonrpc" = VString (str "2.0")
      /\ member v "id" = id
      /\ ((Response.status (sendJsonRpcError id code message) = 200%Z
           /\ member v "error" = VUndefined
           /\ exists fields', member v "result" = VObject fields')
          \/ (Response.status (sendJsonRpcError id code message) = 400%Z
              /\ member v "result" = VUndefined
              /\ exists (code' : Z) (message' : jsstring),
                   member v "error"
                   = VObject [(str "code", VNumber (QArith_base.inject_Z code'));
                              (str "message", VString message')]
                   /\ In code' [-32600; -32601; -32602]%Z))).
  { intros id code message Hcode. eexists. split; [reflexivity|].
    split; [reflexivity|]. split; [reflexivity|]. right.
    split; [reflexivity|]. split; [reflexivity|].
    exists code, message. split; [reflexivity | exact Hcode]. }
  unfold handleMcpRequest. fold (requestId body).
  destruct (isJsonRpcBody body); cbn [negb].
  2: { intro H. injection H as <-. right. apply Herr. left. reflexivity. }
  destruct (isString (member body "method") "initialize").
  { intro H. injection H as <-. right. apply Hok. }
  destruct (isString (member body "method") "notifications/initialized").
  { intro H. injection H as <-. left. reflexivity. }
  destruct (isString (member body "method") "tools/list").
  { intro H. injection H as <-. right. apply Hok. }
  destruct (isString (member body "method") "tools/call").
  2: { unfold bind, attempt, ret.
       destruct (toText (member body "method")) as [e|text]; cbn [fst snd];
         intro H; [discriminate H|].
       injection H as <-. right. apply Herr. right. left. reflexivity. }
  unfold bind, attempt, tryCatch, ret.
  destruct (getProp _ "name") as [e|name]; cbn [fst snd];
    [intro H; discriminate H|].
  destruct (getProp _ "arguments") as [e|args]; cbn [fst snd];
    [intro H; discriminate H|].
  destruct name as [| | | |[|c n]| |];
    try (intro H; injection H as <-; right; apply Herr; right; right; left;
         reflexivity).
  destruct (callTool (c :: n) args drive w) as [w' [err|r]]; cbn [fst snd];
    intro H; injection H as <-; right; apply Hok.
Qed.

Lemma handleMcpRequest_answers_witness :
  snd (handleMcpRequest (host := Scripted.host) (runtime := Stub.runtime)
         (Stub.rpc (VString (str "7")) "resources/list" VUndefined) true
         (init Sample.copyWithoutId))
  = inr (sendJsonRpcError (VString (str "7")) (-32601)
           (str "Method not found: resources/list"))
  /\ (sendJsonRpcError (VString (str "7")) (-32601)
        (str "Method not found: resources/list") = Response.mk 202 None
      \/ exists v : Value,
           Response.body (sendJsonRpcError (VString (str "7")) (-32601)
                            (str "Method not found: resources/list")) = Some v
           /\ member v "jsonrpc" = VString (str "2.0")
           /\ member v "id"
              = (if isJsonRpcBody
                      (Stub.rpc (VString (str "7")) "resources/list" VUndefined)
                 then requestId
                        (Stub.rpc (VString (str "7")) "resources/list" VUndefined)
                 else VNull)
           /\ ((Response.status (sendJsonRpcError (VString (str "7")) (-32601)
                                   (str "Method not found: resources/list"))
                = 200%Z
                /\ member v "error" = VUndefined
                /\ exists fields, member v "result" = VObject fields)
               \/ (Response.status (sendJsonRpcError (VString (str "7")) (-32601)
                                      (str "Method not found: resources/list"))
                   = 400%Z
                   /\ member v "result" = VUndefined
                   /\ exists (code : Z) (message : jsstring),
                        member v "error"
                        = VObject [(str "code", VNumber (QArith_base.inject_Z code));
                                   (str "message", VString message)]
                        /\ In code [-32600; -32601; -32602]%Z))).
Proof.
  split; [reflexivity|].
  exact (handleMcpRequest_answers (host := Scripted.host)
           (runtime := Stub.runtime)
           (Stub.rpc (VString (str "7")) "resources/list" VUndefined) true
           (init Sample.copyWithoutId) _ eq_refl).
Defined.

Lemma handleMcpRequest_tools_call {Store : Type} {host : Host Store}
    {runtime : Runtime Store} (body : Value) (drive : bool) (w : World)
    (c : code_unit) (n : jsstring) :
  isJsonRpcBody body = true ->
  isString (member body "method") "tools/call" = true ->
  getProp (requestParams body) "name" = inr (VString (c :: n)) ->
  handleMcpRequest body drive w
  = match callTool (c :: n) (member (requestParams body) "arguments") drive w with
    | (w', inl err) =>
        (w', inr (sendJsonRpcResponse (requestId body)
                    (VObject
                       [(str "content",
                         contentValue [ContentItem.mk (str "text") (errorMessage err)]);
                        (str "isError", VBool true)])))
    | (w', inr result) =>
        (w', inr (sendJsonRpcResponse (requestId body)
                    (VObject
                       [(str "content", contentValue (McpToolResult.content result));
                        (str "isError",
                         VBool (nullish (McpToolResult.isError result) false))])))
    end.
Proof.
  intros Hrpc Hm Hname.
  assert (Hcall : isString (member body "method") "initialize" = false
                  /\ isString (member body "method") "notifications/initialized" = false
                  /\ isString (member body "method") "tools/list" = false).
  { unfold isString in *. destruct (member body "method") as [| | | |m| |];
      try discriminate.
    apply jsstring_eqb_eq in Hm. subst m. repeat split. }
  destruct Hcall as [H1 [H2 H3]].
  unfold handleMcpRequest. fold (requestId body) (requestParams body).
  rewrite Hrpc, H1, H2, H3, Hm. cbn [negb].
  unfold bind, attempt, tryCatch, ret. rewrite Hname. cbn [fst snd].
  assert (Hargs : getProp (requestParams body) "arguments"
                  = inr (member (requestParams body) "arguments")).
  { destruct (requestParams body); try reflexivity; discriminate Hname. }
  rewrite Hargs.
  destruct (callTool (c :: n) _ drive w) as [w' [err|r]]; reflexivity.
Qed.

(** X17.  A [tools/call] request with a non-empty string [name] is always
    answered with status 200 and a JSON-RPC result made of [content] and
    [isError]: when [callTool] throws, the content is the message of the
    thrown value and [isError] is true; otherwise the content is the
    tool's and [isError] is the tool's, false if absent.  A failure of a
    tool is never a JSON-RPC error and never a rejection of the handler. *)
Theorem tool_failures_answered_in_band {Store : Type} {host : Host Store}
    {runtime : Runtime Store} (body : Value) (drive : bool) (w : World)
    (c : code_unit) (n : jsstring) :
  isJsonRpcBody body = true ->
  isString (member body "method") "tools/call" = true ->
  getProp (requestParams body) "name" = inr (VString (c :: n)) ->
  handleMcpRequest body drive w
  = match callTool (c :: n) (member (requestParams body) "arguments") drive w with
    | (w', inl err) =>
        (w', inr (sendJsonRpcResponse (requestId body)
                    (VObject
                       [(str "content",
                         contentValue [ContentItem.mk (str "text") (errorMessage err)]);
                        (str "isError", VBool true)])))
    | (w', inr result) =>
        (w', inr (sendJsonRpcResponse (requestId body)
                    (VObject
                       [(str "content", contentValue (McpToolResult.content result));
                        (str "isError",
                         VBool (nullish (McpToolResult.isError result) false))])))
    end.
Proof.
  apply handleMcpRequest_tools_call.
Qed.

Lemma tool_failures_answered_in_band_witness :
  handleMcpRequest (host := Scripted.host) (runtime := Stub.runtime)
    (Stub.rpc (VString (str "1")) "tools/call"
       (VObject [(str "name", VString toolName);
                 (str "arguments", Stub.deckBody)]))
    true (init Sample.copyWithoutId)
  = (mkWorld Sample.copyWithoutId
       [EvCopy (str "<YOUR_TEMPLATE_ID>") (str "Deck") (inr None)],
     inr (sendJsonRpcResponse (VString (str "1"))
            (VObject
               [(str "content",
                 contentValue [ContentItem.mk (str "text") msgNoFileId]);
                (str "isError", VBool true)]))).
Proof.
  exact (tool_failures_answered_in_band (host := Scripted.host)
           (runtime := Stub.runtime)
           (Stub.rpc (VString (str "1")) "tools/call"
              (VObject [(str "name", VString toolName);
                        (str "arguments", Stub.deckBody)]))
           true (init Sample.copyWithoutId) 99%N
           (str "reate_presentation_from_content") eq_refl eq_refl eq_refl).
Defined.

(** ** The HTTP routes *)

(** X18.  [POST /slides] always answers: with 400 exactly when the body
    fails validation, and then without any remote call; with 500 and the
    message of the thrown value exactly when the engine fails; with 200 and
    the engine's result otherwise. *)
Theorem postSlides_contract {Store : Type} {host : Host Store}
    {runtime : Runtime Store} (body : Value) (driveClient : bool) (w : World) :
  exists (w' : World) (resp : Response.t),
    postSlides body driveClient w = (w', inr resp)
    /\ In (Response.status resp) [200; 400; 500]%Z
    /\ (Response.status resp = 400%Z <->
        exists errors, safeParse body = inl errors)
    /\ (Response.status resp = 400%Z -> w' = w)
    /\ (forall data, safeParse body = inr data ->
        w' = fst (createPresentationFromContent data driveClient w)
        /\ match snd (createPresentationFromContent data driveClient w) with
           | inl err =>
               resp = Response.mk 500
                        (Some (VObject
                                 [(str "error",
                                   VString (str "Failed to create presentation"));
                                  (str "message", VString (errorMessage err))]))
           | inr created => resp = Response.mk 200 (Some (createdValue created))
           end).
Proof.
  unfold postSlides, tryCatch, bind, ret.
  destruct (safeParse body) as [errors|data].
  - eexists. eexists. split; [reflexivity|].
    cbn [Response.status].
    split; [right; left; reflexivity|].
    split; [split; [intros _; exists errors; reflexivity | reflexivity]|].
    split; [reflexivity|]. intros data H. discriminate H.
  - destruct (createPresentationFromContent data driveClient w)
      as [w' [err|c]] eqn:E;
      eexists; eexists; (split; [reflexivity|]); cbn [Response.status fst snd].
    + split; [right; right; left; reflexivity|].
      split; [split; [intro H; discriminate H | intros [errors H]; discriminate H]|].
      split; [intro H; discriminate H|].
      intros data' H. injection H as <-. rewrite E. split; reflexivity.
    + split; [left; reflexivity|].
      split; [split; [intro H; discriminate H | intros [errors H]; discriminate H]|].
      split; [intro H; discriminate H|].
      intros data' H. injection H as <-. rewrite E. split; reflexivity.
Qed.

Lemma postSlides_contract_witness :
  exists (w' : World) (resp : Response.t),
    postSlides (host := Scripted.host) (runtime := Stub.runtime)
      Stub.deckBody true (init Sample.copyWithoutId) = (w', inr resp)
    /\ Response.status resp = 500%Z.
Proof.
  destruct (postSlides_contract (host := Scripted.host) (runtime := Stub.runtime)
              Stub.deckBody true (init Sample.copyWithoutId))
    as [w' [resp [Hrun [_ [_ [_ Hdata]]]]]].
  exists w', resp. split; [exact Hrun|].
  destruct (Hdata (Args.mk (str "Deck") [SlideContent.empty] None) eq_refl)
    as [_ Hresp].
  cbv in Hresp. rewrite Hresp. reflexivity.
Defined.

(** X19.  [POST /tools/call] always answers.  Without a non-empty string
    [name] in the body it answers 400 and makes no remote call, whatever
    the body is, [null] and primitives included.  Otherwise it answers 500
    with the message when [callTool] throws, 400 when the tool's result is
    flagged [isError], and 200 with [success: true] else. *)
Theorem postToolsCall_contract {Store : Type} {host : Host Store}
    {runtime : Runtime Store} (body : Value) (driveClient : bool) (w : World) :
  exists (w' : World) (resp : Response.t),
    postToolsCall body driveClient w = (w', inr resp)
    /\ match member body "name" with
       | VString (c :: n) =>
           w' = fst (callTool (c :: n) (member body "arguments") driveClient w)
           /\ match snd (callTool (c :: n) (member body "arguments") driveClient w) with
              | inl err =>
                  resp = Response.mk 500
                           (Some (VObject [(str "success", VBool false);
                                           (str "error", VString (errorMessage err))]))
              | inr result =>
                  (McpToolResult.isError result = Some true ->
                   Response.status resp = 400%Z
                   /\ member (nullish (Response.body resp) VUndefined) "success"
                      = VBool false
                   /\ member (nullish (Response.body resp) VUndefined) "error"
                      = VString (reportedText result))
                  /\ (McpToolResult.isError result <> Some true ->
                      resp = Response.mk 200
                               (Some (VObject
                                        [(str "success", VBool true);
                                         (str "content",
                                          VString (reportedText result))])))
              end
       | _ =>
           w' = w
           /\ Response.status resp = 400%Z
           /\ member (nullish (Response.body resp) VUndefined) "success" = VBool false
       end.
Proof.
  unfold postToolsCall, tryCatch, bind, ret. cbv zeta.
  assert (Hsrc : forall key,
            member match body with
                   | VUndefined | VNull => VObject []
                   | _ => body
                   end key = member body key).
  { intro key. destruct body; reflexivity. }
  rewrite !Hsrc.
  destruct (member body "name") as [| | | |[|c n]| |];
    try (eexists; eexists; split; [reflexivity|];
         split; [reflexivity|]; split; reflexivity).
  destruct (callTool (c :: n) (member body "arguments") driveClient w)
    as [w' [err|result]]; cbn [fst snd].
  - eexists. eexists. split; [reflexivity|]. split; reflexivity.
  - fold (reportedText result).
    destruct (McpToolResult.isError result) as [[|]|] eqn:Herr;
      eexists; eexists; (split; [reflexivity|]); (split; [reflexivity|]);
      split; intro H;
      try discriminate H; try (exfalso; apply H; reflexivity);
      try reflexivity.
    repeat split.
Qed.

Lemma postToolsCall_contract_witness :
  exists (w' : World) (resp : Response.t),
    postToolsCall (host := Scripted.host) (runtime := Stub.runtime)
      (VNumber (QArith_base.inject_Z 5)) true (init Sample.copyWithoutId)
    = (w', inr resp)
    /\ w' = init Sample.copyWithoutId
    /\ Response.status resp = 400%Z.
Proof.
  destruct (postToolsCall_contract (host := Scripted.host)
              (runtime := Stub.runtime)
              (VNumber (QArith_base.inject_Z 5)) true (init Sample.copyWithoutId))
    as [w' [resp [Hrun [Hw [Hs _]]]]].
  exists w', resp. repeat split; assumption.
Defined.

Lemma templateLog_no_create {Store : Type} {host : Host Store}
    (args : Args.t) (s : Store) :
  existsb isCreate (templateLog args s) = false.
Proof.
  pose proof (createFromTemplate_run args s) as R.
  remember (templateLog args s) as l eqn:Hl.
  remember (templateResult args s) as r eqn:Hr.
  clear Hl Hr.
  destruct R; split_batches; reflexivity.
Qed.

Lemma callTool_from_content_log {Store : Type} {host : Host Store}
    {runtime : Runtime Store} (args : Value) (s : Store) :
  log (fst (callTool toolName args true (init s)))
  = match safeParse args with
    | inl _ => []
    | inr data => templateLog data s
    end.
Proof.
  unfold callTool.
  change (jsstring_eqb toolName (str "create_presentation")) with false.
  change (jsstring_eqb toolName (str "create_presentation_from_content")) with true.
  cbv iota. unfold bind, ret, templateLog.
  destruct (safeParse args) as [errors|data]; [reflexivity|].
  change (createPresentationFromContent data true (init s))
    with (createFromTemplate data (init s)).
  destruct (createFromTemplate data (init s)) as [w' [err|c]]; reflexivity.
Qed.

(** X20.  With the Drive client set, as [initAuth] sets it before the
    first request is served, every way to the tool
    [create_presentation_from_content] ([POST /slides], [callTool],
    [POST /tools/call] and the MCP method [tools/call]) makes exactly the
    remote calls of the template path on the validated arguments, and none
    when validation fails.  So none of them calls [presentations.create]:
    the blank path of [createPresentationFromContent] is not reached
    through this tool.  The other tools of the registry, the tool
    [create_presentation] among them, are not concerned. *)
Theorem from_content_runs_template_path {Store : Type} {host : Host Store}
    {runtime : Runtime Store} (args : Value) (s : Store) :
  let calls := match safeParse args with
               | inl _ => []
               | inr data => templateLog data s
               end in
  existsb isCreate calls = false
  /\ log (fst (postSlides args true (init s))) = calls
  /\ log (fst (callTool toolName args true (init s))) = calls
  /\ (forall body : Value,
        member body "name" = VString toolName ->
        member body "arguments" = args ->
        log (fst (postToolsCall body true (init s))) = calls)
  /\ (forall body : Value,
        isJsonRpcBody body = true ->
        isString (member body "method") "tools/call" = true ->
        getProp (requestParams body) "name" = inr (VString toolName) ->
        member (requestParams body) "arguments" = args ->
        log (fst (handleMcpRequest body true (init s))) = calls).
Proof.
  cbv zeta.
  split; [destruct (safeParse args) as [errors|data];
          [reflexivity | apply templateLog_no_create]|].
  split.
  { unfold postSlides, tryCatch, bind, ret, templateLog.
    destruct (safeParse args) as [errors|data]; [reflexivity|].
    change (createPresentationFromContent data true (init s))
      with (createFromTemplate data (init s)).
    destruct (createFromTemplate data (init s)) as [w' [err|c]]; reflexivity. }
  split; [apply callTool_from_content_log|]. split.
  - intros body Hname Hargs.
    rewrite <- callTool_from_content_log.
    unfold postToolsCall, tryCatch, bind, ret. cbv zeta.
    assert (Hsrc : forall key,
              member match body with
                     | VUndefined | VNull => VObject []
                     | _ => body
                     end key = member body key)
      by (intro key; destruct body; reflexivity).
    rewrite !Hsrc, Hname, Hargs.
    change toolName with (99%N :: str "reate_presentation_from_content").
    cbv beta iota.
    destruct (callTool _ args true (init s)) as [w' [err|r]]; cbn [fst];
      [reflexivity|].
    destruct (McpToolResult.isError r) as [[|]|]; reflexivity.
  - intros body Hrpc Hm Hname Hargs.
    rewrite <- callTool_from_content_log.
    change (VString toolName)
      with (VString (99%N :: str "reate_presentation_from_content")) in Hname.
    rewrite (handleMcpRequest_tools_call body true (init s) _ _ Hrpc Hm Hname).
    rewrite Hargs.
    change toolName with (99%N :: str "reate_presentation_from_content").
    destruct (callTool _ args true (init s)) as [w' [err|r]]; reflexivity.
Qed.

Lemma from_content_runs_template_path_witness :
  log (fst (handleMcpRequest (host := Scripted.host) (runtime := Stub.runtime)
              (Stub.rpc (VString (str "1")) "tools/call"
                 (VObject [(str "name", VString toolName);
                           (str "arguments", Stub.deckBody)]))
              true (init Sample.copyWithoutId)))
  = [EvCopy (str "<YOUR_TEMPLATE_ID>") (str "Deck") (inr None)].
Proof.
  exact (proj2 (proj2 (proj2 (proj2
           (from_content_runs_template_path (host := Scripted.host)
              (runtime := Stub.runtime) Stub.deckBody Sample.copyWithoutId))))
           (Stub.rpc (VString (str "1")) "tools/call"
              (VObject [(str "name", VString toolName);
                        (str "arguments", Stub.deckBody)]))
           eq_refl eq_refl eq_refl eq_refl).
Defined.

(** X21.  A request for [create_presentation_from_content] whose arguments
    fail validation stops there at every entry point, without any remote
    call: [callTool] answers an error result whose text is the messages of
    the issues joined by "; ", [POST /tools/call] reports that text with
    status 400, and the MCP handler reports it in a result with [isError]
    true and status 200. *)
Theorem invalid_arguments_stop_at_validation {Store : Type}
    {host : Host Store} {runtime : Runtime Store}
    (args : Value) (errors : list Issue.t) (drive : bool) (w : World) :
  safeParse args = inl errors ->
  callTool toolName args drive w
  = (w, inr (textResult (join (str "; ") (map Issue.message errors)) (Some true)))
  /\ (forall body : Value,
        member body "name" = VString toolName ->
        member body "arguments" = args ->
        postToolsCall body drive w
        = (w, inr (Response.mk 400
                     (Some (VObject
                              [(str "success", VBool false);
                               (str "error",
                                VString (join (str "; ")
                                              (map Issue.message errors)));
                               (str "errorCode", VUndefined)])))))
  /\ (forall body : Value,
        isJsonRpcBody body = true ->
        isString (member body "method") "tools/call" = true ->
        getProp (requestParams body) "name" = inr (VString toolName) ->
        member (requestParams body) "arguments" = args ->
        handleMcpRequest body drive w
        = (w, inr (sendJsonRpcResponse (requestId body)
                     (VObject
                        [(str "content",
                          contentValue
                            [ContentItem.mk (str "text")
                               (join (str "; ") (map Issue.message errors))]);
                         (str "isError", VBool true)])))).
Proof.
  intro Hparse.
  assert (Hcall : callTool toolName args drive w
                  = (w, inr (textResult (join (str "; ")
                                           (map Issue.message errors))
                                        (Some true)))).
  { unfold callTool.
    change (jsstring_eqb toolName (str "create_presentation")) with false.
    change (jsstring_eqb toolName (str "create_presentation_from_content")) with true.
    cbv iota. rewrite Hparse. reflexivity. }
  split; [exact Hcall|]. split.
  - intros body Hname Hargs.
    unfold postToolsCall, tryCatch, bind, ret. cbv zeta.
    assert (Hsrc : forall key,
              member match body with
                     | VUndefined | VNull => VObject []
                     | _ => body
                     end key = member body key)
      by (intro key; destruct body; reflexivity).
    rewrite !Hsrc, Hname, Hargs.
    change toolName with (99%N :: str "reate_presentation_from_content").
    cbv beta iota.
    match goal with
    | |- context [callTool ?n args drive w] =>
        change (callTool n args drive w) with (callTool toolName args drive w)
    end.
    rewrite Hcall. reflexivity.
  - intros body Hrpc Hm Hname Hargs.
    change (VString toolName)
      with (VString (99%N :: str "reate_presentation_from_content")) in Hname.
    rewrite (handleMcpRequest_tools_call body drive w _ _ Hrpc Hm Hname).
    rewrite Hargs.
    match goal with
    | |- context [callTool ?n args drive w] =>
        change (callTool n args drive w) with (callTool toolName args drive w)
    end.
    rewrite Hcall. reflexivity.
Qed.

Lemma invalid_arguments_stop_at_validation_witness :
  safeParse (Runtime := Stub.runtime) VNull
  = inl [Issue.mk [Key (str "title")] (str "Required")]
  /\ callTool (host := Scripted.host) (runtime := Stub.runtime)
       toolName VNull true (init Sample.copyWithoutId)
     = (init Sample.copyWithoutId, inr (textResult (str "Required") (Some true))).
Proof.
  split; [reflexivity|].
  exact (proj1 (invalid_arguments_stop_at_validation (host := Scripted.host)
                  (runtime := Stub.runtime) VNull
                  [Issue.mk [Key (str "title")] (str "Required")] true
                  (init Sample.copyWithoutId) eq_refl)).
Defined.

Lemma isString_member_present (body : Value) (key lit : string) :
  isString (member body key) lit = true -> isObjectWith body key = true.
Proof.
  destruct body as [| | | | |items|fields]; try discriminate.
  cbn [member isObjectWith]. unfold lookup.
  destruct (find (fun kv => jsstring_eqb (fst kv) (str key)) fields)
    as [kv|] eqn:Hfind; [|discriminate].
  intros _. apply find_some in Hfind. apply existsb_exists.
  exists kv. exact Hfind.
Qed.

(** X22.  [POST /tools] gives the same tool list in both of its forms, and
    never touches the store for it.  A body without an [id] key, whatever
    its [method], is answered with the plain [{ tools }] object; a body
    with an [id] key whose [method] is "tools/list" is answered with the
    JSON-RPC result that wraps the same list under the request's id. *)
Theorem postTools_same_listing {Store : Type} {host : Host Store}
    {runtime : Runtime Store} (body : Value) (drive : bool) (w : World) :
  (isObjectWith body "id" = false ->
   postTools body drive w
   = (w, inr (Response.mk 200 (Some (VObject [(str "tools", toolsValue)])))))
  /\ (isObjectWith body "id" = true ->
      isString (member body "method") "tools/list" = true ->
      postTools body drive w
      = (w, inr (sendJsonRpcResponse (requestId body)
                   (VObject [(str "tools", toolsValue)])))).
Proof.
  split.
  - intro Hid. unfold postTools. rewrite Hid, andb_false_r. reflexivity.
  - intros Hid Hm. unfold postTools.
    rewrite Hid, (isString_member_present _ _ _ Hm). cbn [andb].
    unfold handleMcpRequest, isJsonRpcBody.
    rewrite (isString_member_present _ _ _ Hm). cbn [negb].
    fold (requestId body). cbv zeta.
    unfold isString in *.
    destruct (member body "method") as [| | | |m| |]; try discriminate.
    apply jsstring_eqb_eq in Hm. subst m. reflexivity.
Qed.

Lemma postTools_same_listing_witness :
  postTools (host := Scripted.host) (runtime := Stub.runtime)
    (VObject [(str "method", VString (str "notifications/initialized"))])
    true (init Sample.copyWithoutId)
  = (init Sample.copyWithoutId,
     inr (Response.mk 200 (Some (VObject [(str "tools", toolsValue)]))))
  /\ postTools (host := Scripted.host) (runtime := Stub.runtime)
       (Stub.rpc (VString (str "7")) "tools/list" VUndefined)
       true (init Sample.copyWithoutId)
     = (init Sample.copyWithoutId,
        inr (sendJsonRpcResponse (VString (str "7"))
               (VObject [(str "tools", toolsValue)]))).
Proof.
  split.
  - exact (proj1 (postTools_same_listing (host := Scripted.host)
                    (runtime := Stub.runtime)
                    (VObject [(str "method",
                               VString (str "notifications/initialized"))])
                    true (init Sample.copyWithoutId)) eq_refl).
  - exact (proj2 (postTools_same_listing (host := Scripted.host)
                    (runtime := Stub.runtime)
                    (Stub.rpc (VString (str "7")) "tools/list" VUndefined)
                    true (init Sample.copyWithoutId)) eq_refl eq_refl).
Defined.
